(** * Interrupt bottom half of the WFx host driver (bh.c)

    A shallow embedding of [bh.c]: the receive helper and pump, the transmit
    helper and pump, the wake-up GPIO handling, the worker [bh_work] and the
    interrupt entry point [wfx_bh_request_rx], followed by the properties of
    the bottom half that the specification states.

    The worker is the only context that touches the [hif] counters, so the
    device is modelled by explicit state passing over one record [wfx_dev].
    Everything the worker obtains from outside (bus reads, bus writes,
    allocations) is scripted in the state and consumed call by call; the
    diagnostics the kernel prints are collected in [klog], and the frames that
    reach the bus in [wire]. *)

From Stdlib Require Import ZArith List Bool Lia.
Import ListNotations.
Open Scope Z_scope.

Set Implicit Arguments.

(** ** Machine integers *)

Module MachInt.

(** [int] is 32 bits wide; the kernel is built with wrapping signed
    arithmetic, so an out-of-range result wraps around. *)
Definition int_bits : Z := 32.

Definition wrap_int (z : Z) : Z :=
  (z + 2 ^ (int_bits - 1)) mod 2 ^ int_bits - 2 ^ (int_bits - 1).

(** [size_t] on an LP64 kernel. *)
Definition size_bits : Z := 64.

Definition wrap_size (z : Z) : Z := z mod 2 ^ size_bits.

(** [round_up(x, y)] of linux/kernel.h for a power of two [y]:
    [((x - 1) | (y - 1)) + 1]. *)
Definition round_up (x y : Z) : Z := Z.lor (x - 1) (y - 1) + 1.

Definition ENOMEM : Z := 12.
Definition EIO : Z := 5.

End MachInt.
Import MachInt.

(** ** Data *)

(** The view of a buffer through [struct wmsg].  The structure is declared in
    the API headers; the fields are the ones [bh.c] reads and writes.  The
    member [body] is an array without a length: [body m i] is the byte at
    [wsm->body[i]], that is, the byte [i] places after the header in memory,
    whether [len] counts it in the message or not. *)
Record wmsg : Type := Wmsg {
  len : Z;            (* u16 *)
  id : Z;
  seqnum : Z;         (* bit-field of the header *)
  encrypted : Z;      (* 2-bit field of the header *)
  body : nat -> Z     (* u8 body[] *)
}.

(** Modelled from the spec: the width of the [seqnum] bit-field is fixed by the
    declaration of [struct wmsg], which is outside this file; the data model
    gives it as "sequence: u3 (0..7, wraps)".  A store to the field keeps the
    low three bits. *)
Definition seqnum_field (v : Z) : Z := Z.land v 7.

Definition set_seqnum (m : wmsg) (s : Z) : wmsg :=
  {| len := len m; id := id m; seqnum := seqnum_field s;
     encrypted := encrypted m; body := body m |}.

(** [wsm->len] where a parameter called [len] is in scope. *)
Definition wmsg_len (m : wmsg) : Z := len m.

Definition le32_to_cpu (b0 b1 b2 b3 : Z) : Z :=
  Z.lor b0 (Z.lor (Z.shiftl b1 8) (Z.lor (Z.shiftl b2 16) (Z.shiftl b3 24))).

(** The [NumTxConfs] member of [wsm->body] seen as a
    [WsmHiMultiTransmitCnfBody_t]: the 32-bit little-endian word in the four
    bytes that follow the header.  The code reads them without looking at
    [len]: in a buffer whose message is shorter than eight bytes they are
    bytes of the padding, of the piggyback, or of what lies behind the
    buffer. *)
Definition NumTxConfs (m : wmsg) : Z :=
  le32_to_cpu (body m 0%nat) (body m 1%nat) (body m 2%nat) (body m 3%nat).

(** The fields a well-formed header can hold. *)
Definition wmsg_wf (m : wmsg) : Prop :=
  0 <= len m < 2 ^ 16 /\ 0 <= id m < 2 ^ 8 /\
  0 <= seqnum m < 8 /\ 0 <= encrypted m < 4.

(** What one call of [rx_helper] meets on the bus: the buffer as the two
    casts of the function see it.  The last two bytes of the buffer are also
    bytes of [body] (bytes of the header, in a buffer of four bytes); the two
    views are given side by side, and a buffer that the bus delivers shows
    the same bytes in both. *)
Record rx_buffer : Type := RxBuffer {
  rx_wsm : wmsg;          (* the buffer seen as a [struct wmsg] *)
  rx_piggyback : Z        (* the u16 in the last two bytes of the buffer *)
}.

Inductive rx_input : Type :=
| RxNoMem                          (* dev_alloc_skb returns NULL *)
| RxReadFail                       (* wfx_data_read returns an error *)
| RxData (b : rx_buffer).          (* the read fills the buffer *)

(** What one call of [tx_helper] meets: the outcome of each call it may make. *)
Record tx_env : Type := TxEnv {
  kmalloc_ok : bool;
  data_write_ok : bool
}.

Definition tx_no_fault : tx_env := {| kmalloc_ok := true; data_write_ok := true |}.

(** An entry of the outbound queue: the buffer and the length [wsm_get_tx]
    hands out. *)
Record tx_item : Type := TxItem {
  tx_data : wmsg;
  tx_len : Z
}.

(** A frame that a successful [wfx_data_write] put on the bus. *)
Record frame : Type := Frame {
  frame_wsm : wmsg;          (* the message, as stamped by [tx_helper] *)
  frame_len : Z;             (* the length written *)
  frame_encrypted : bool
}.

(** Diagnostics and calls to collaborators, in the order they happen. *)
Inductive event : Type :=
| WarnShortRead (read_len : Z)               (* WARN_ON(read_len < 4) *)
| DataRead (alloc_len : Z)                   (* wfx_data_read(wdev, skb->data, alloc_len) *)
| WarnUnsupportedEncryption                  (* WARN(wsm->encrypted & 0x1, ...) *)
| ErrInconsistentLength (computed read : Z)  (* dev_err + print_hex_dump *)
| WarnWrongSequence (got expected : Z)       (* dev_warn *)
| WarnCorruptedCounter                       (* WARN(tx_buffers_used < release_count) *)
| WakeUpTxBuffersEmpty                       (* wake_up(&tx_buffers_empty) *)
| HandleRx (m : wmsg)                        (* wsm_handle_rx *)
| ErrPiggybackNotReady (piggyback : Z)
| ErrUnexpectedIrq (ctrl piggyback : Z)
| Udelay (us : Z)
| ErrWakeTimeout
| WarnChipErrors (bits : Z)
| ConfigRegWriteBits (mask val : Z)
| QueueWork
| ErrLengthFieldZero (cur : Z)
| ErrPreviousNotRead (prev cur : Z)
| TraceBhStats (ind req cnf used : Z) (release_chip : bool).

(** The device: [struct wfx_dev] restricted to what the bottom half uses,
    together with the scripted outside world. *)
Record wfx_dev : Type := WfxDev {
  gpio_wakeup : option bool;    (* pdata.gpio_wakeup: None when absent, else its level *)
  api_version : Z * Z;          (* wsm_caps.ApiVersionMajor, ApiVersionMinor *)
  NumInpChBufs : Z;             (* wsm_caps.NumInpChBufs *)
  scan_in_progress : Z;         (* atomic_t *)
  work_pending : bool;          (* work_pending(&hif.bh) *)
  ctrl_ready : nat;             (* hif.ctrl_ready: the completion's done count *)
  ctrl_reg : Z;                 (* hif.ctrl_reg, atomic_t *)
  rx_seqnum : Z;                (* hif.rx_seqnum *)
  tx_seqnum : Z;                (* hif.tx_seqnum *)
  tx_buffers_used : Z;          (* hif.tx_buffers_used *)
  tx_queue : list tx_item;      (* what wsm_get_tx will hand out *)
  bus_rx : list rx_input;       (* what the next receives will meet *)
  bus_tx : list tx_env;         (* what the next transmits will meet *)
  cfg_reg : Z;                  (* what config_reg_read returns *)
  wire : list frame;            (* frames written to the bus *)
  klog : list event
}.

Definition set_gpio_wakeup v (d : wfx_dev) : wfx_dev :=
  {| gpio_wakeup := v; api_version := api_version d; NumInpChBufs := NumInpChBufs d;
     scan_in_progress := scan_in_progress d; work_pending := work_pending d;
     ctrl_ready := ctrl_ready d; ctrl_reg := ctrl_reg d; rx_seqnum := rx_seqnum d;
     tx_seqnum := tx_seqnum d; tx_buffers_used := tx_buffers_used d;
     tx_queue := tx_queue d; bus_rx := bus_rx d; bus_tx := bus_tx d;
     cfg_reg := cfg_reg d; wire := wire d; klog := klog d |}.

Definition set_work_pending v (d : wfx_dev) : wfx_dev :=
  {| gpio_wakeup := gpio_wakeup d; api_version := api_version d; NumInpChBufs := NumInpChBufs d;
     scan_in_progress := scan_in_progress d; work_pending := v;
     ctrl_ready := ctrl_ready d; ctrl_reg := ctrl_reg d; rx_seqnum := rx_seqnum d;
     tx_seqnum := tx_seqnum d; tx_buffers_used := tx_buffers_used d;
     tx_queue := tx_queue d; bus_rx := bus_rx d; bus_tx := bus_tx d;
     cfg_reg := cfg_reg d; wire := wire d; klog := klog d |}.

Definition set_ctrl_ready v (d : wfx_dev) : wfx_dev :=
  {| gpio_wakeup := gpio_wakeup d; api_version := api_version d; NumInpChBufs := NumInpChBufs d;
     scan_in_progress := scan_in_progress d; work_pending := work_pending d;
     ctrl_ready := v; ctrl_reg := ctrl_reg d; rx_seqnum := rx_seqnum d;
     tx_seqnum := tx_seqnum d; tx_buffers_used := tx_buffers_used d;
     tx_queue := tx_queue d; bus_rx := bus_rx d; bus_tx := bus_tx d;
     cfg_reg := cfg_reg d; wire := wire d; klog := klog d |}.

Definition set_ctrl_reg v (d : wfx_dev) : wfx_dev :=
  {| gpio_wakeup := gpio_wakeup d; api_version := api_version d; NumInpChBufs := NumInpChBufs d;
     scan_in_progress := scan_in_progress d; work_pending := work_pending d;
     ctrl_ready := ctrl_ready d; ctrl_reg := v; rx_seqnum := rx_seqnum d;
     tx_seqnum := tx_seqnum d; tx_buffers_used := tx_buffers_used d;
     tx_queue := tx_queue d; bus_rx := bus_rx d; bus_tx := bus_tx d;
     cfg_reg := cfg_reg d; wire := wire d; klog := klog d |}.

Definition set_rx_seqnum v (d : wfx_dev) : wfx_dev :=
  {| gpio_wakeup := gpio_wakeup d; api_version := api_version d; NumInpChBufs := NumInpChBufs d;
     scan_in_progress := scan_in_progress d; work_pending := work_pending d;
     ctrl_ready := ctrl_ready d; ctrl_reg := ctrl_reg d; rx_seqnum := v;
     tx_seqnum := tx_seqnum d; tx_buffers_used := tx_buffers_used d;
     tx_queue := tx_queue d; bus_rx := bus_rx d; bus_tx := bus_tx d;
     cfg_reg := cfg_reg d; wire := wire d; klog := klog d |}.

Definition set_tx_seqnum v (d : wfx_dev) : wfx_dev :=
  {| gpio_wakeup := gpio_wakeup d; api_version := api_version d; NumInpChBufs := NumInpChBufs d;
     scan_in_progress := scan_in_progress d; work_pending := work_pending d;
     ctrl_ready := ctrl_ready d; ctrl_reg := ctrl_reg d; rx_seqnum := rx_seqnum d;
     tx_seqnum := v; tx_buffers_used := tx_buffers_used d;
     tx_queue := tx_queue d; bus_rx := bus_rx d; bus_tx := bus_tx d;
     cfg_reg := cfg_reg d; wire := wire d; klog := klog d |}.

Definition set_tx_buffers_used v (d : wfx_dev) : wfx_dev :=
  {| gpio_wakeup := gpio_wakeup d; api_version := api_version d; NumInpChBufs := NumInpChBufs d;
     scan_in_progress := scan_in_progress d; work_pending := work_pending d;
     ctrl_ready := ctrl_ready d; ctrl_reg := ctrl_reg d; rx_seqnum := rx_seqnum d;
     tx_seqnum := tx_seqnum d; tx_buffers_used := v;
     tx_queue := tx_queue d; bus_rx := bus_rx d; bus_tx := bus_tx d;
     cfg_reg := cfg_reg d; wire := wire d; klog := klog d |}.

Definition set_tx_queue v (d : wfx_dev) : wfx_dev :=
  {| gpio_wakeup := gpio_wakeup d; api_version := api_version d; NumInpChBufs := NumInpChBufs d;
     scan_in_progress := scan_in_progress d; work_pending := work_pending d;
     ctrl_ready := ctrl_ready d; ctrl_reg := ctrl_reg d; rx_seqnum := rx_seqnum d;
     tx_seqnum := tx_seqnum d; tx_buffers_used := tx_buffers_used d;
     tx_queue := v; bus_rx := bus_rx d; bus_tx := bus_tx d;
     cfg_reg := cfg_reg d; wire := wire d; klog := klog d |}.

Definition set_bus_rx v (d : wfx_dev) : wfx_dev :=
  {| gpio_wakeup := gpio_wakeup d; api_version := api_version d; NumInpChBufs := NumInpChBufs d;
     scan_in_progress := scan_in_progress d; work_pending := work_pending d;
     ctrl_ready := ctrl_ready d; ctrl_reg := ctrl_reg d; rx_seqnum := rx_seqnum d;
     tx_seqnum := tx_seqnum d; tx_buffers_used := tx_buffers_used d;
     tx_queue := tx_queue d; bus_rx := v; bus_tx := bus_tx d;
     cfg_reg := cfg_reg d; wire := wire d; klog := klog d |}.

Definition set_bus_tx v (d : wfx_dev) : wfx_dev :=
  {| gpio_wakeup := gpio_wakeup d; api_version := api_version d; NumInpChBufs := NumInpChBufs d;
     scan_in_progress := scan_in_progress d; work_pending := work_pending d;
     ctrl_ready := ctrl_ready d; ctrl_reg := ctrl_reg d; rx_seqnum := rx_seqnum d;
     tx_seqnum := tx_seqnum d; tx_buffers_used := tx_buffers_used d;
     tx_queue := tx_queue d; bus_rx := bus_rx d; bus_tx := v;
     cfg_reg := cfg_reg d; wire := wire d; klog := klog d |}.

Definition set_wire v (d : wfx_dev) : wfx_dev :=
  {| gpio_wakeup := gpio_wakeup d; api_version := api_version d; NumInpChBufs := NumInpChBufs d;
     scan_in_progress := scan_in_progress d; work_pending := work_pending d;
     ctrl_ready := ctrl_ready d; ctrl_reg := ctrl_reg d; rx_seqnum := rx_seqnum d;
     tx_seqnum := tx_seqnum d; tx_buffers_used := tx_buffers_used d;
     tx_queue := tx_queue d; bus_rx := bus_rx d; bus_tx := bus_tx d;
     cfg_reg := cfg_reg d; wire := v; klog := klog d |}.

Definition set_klog v (d : wfx_dev) : wfx_dev :=
  {| gpio_wakeup := gpio_wakeup d; api_version := api_version d; NumInpChBufs := NumInpChBufs d;
     scan_in_progress := scan_in_progress d; work_pending := work_pending d;
     ctrl_ready := ctrl_ready d; ctrl_reg := ctrl_reg d; rx_seqnum := rx_seqnum d;
     tx_seqnum := tx_seqnum d; tx_buffers_used := tx_buffers_used d;
     tx_queue := tx_queue d; bus_rx := bus_rx d; bus_tx := bus_tx d;
     cfg_reg := cfg_reg d; wire := wire d; klog := v |}.

(** [emit e d]: the diagnostic or collaborator call [e] happens. *)
Definition emit (e : event) (d : wfx_dev) : wfx_dev :=
  set_klog (klog d ++ [e]) d.

(** [emit_if c e d]: a conditional diagnostic ([WARN(c, ...)], [if (c) dev_err(...)]). *)
Definition emit_if (c : bool) (e : event) (d : wfx_dev) : wfx_dev :=
  if c then emit e d else d.


(** ** Results of code that can hit [BUG_ON] *)

Inductive outcome (A : Type) : Type :=
| Done (a : A)
| Bug              (* a BUG_ON fired *)
| OutOfFuel.       (* the model's loop bound was too small *)

Arguments Bug {A}.
Arguments OutOfFuel {A}.

Definition bind {A B : Type} (m : outcome A) (k : A -> outcome B) : outcome B :=
  match m with
  | Done a => k a
  | Bug => Bug
  | OutOfFuel => OutOfFuel
  end.

Notation "x <- m ;; k" := (bind m (fun x => k))
  (at level 61, m at next level, right associativity).
Notation "' p <- m ;; k" := (bind m (fun x => let p := x in k))
  (at level 61, p pattern, m at next level, right associativity).

(** ** What [bh.c] takes from its headers and collaborators *)

(** The macros and sizes [bh.c] uses and other headers define. *)
Class hif_consts : Type := HifConsts {
  CTRL_NEXT_LEN_MASK : Z;
  CTRL_WLAN_READY : Z;
  WMSG_COUNTER_MAX : Z;
  WMSG_ID_IS_INDICATION : Z;
  HI_EXCEPTION_IND_ID : Z;
  HI_ERROR_IND_ID : Z;
  WSM_HI_MULTI_TRANSMIT_CNF_ID : Z;
  sizeof_wmsg : Z;           (* sizeof(struct wmsg) *)
  sizeof_wmsg_len : Z;       (* sizeof(wsm->len) *)
  sizeof_sl_wmsg : Z;        (* sizeof(struct sl_wmsg) *)
  sizeof_sl_tag : Z          (* sizeof(struct sl_tag) *)
}.

(** [wdev->hwbus_ops]: the operation of the bus the bottom half calls itself. *)
Class hwbus_ops : Type := HwbusOps {
  align_size : Z -> Z
}.

(** The secure link, as the bottom half sees it. *)
Class secure_link : Type := SecureLink {
  wfx_is_secure_command : Z -> bool;
  wfx_sl_decode : wmsg -> option wmsg;   (* None: a non-zero return *)
  wfx_sl_encode : wmsg -> bool           (* false: a non-zero return *)
}.

Section BottomHalf.

Context {K : hif_consts} {B : hwbus_ops} {SL : secure_link}.

(** *** Wake-up GPIO *)

(** Modelled from the spec: [wfx_api_older_than] is defined in a header that
    is not part of these sources; it tells whether "the chip's protocol
    version is old", that is, below [major].[minor]. *)
Definition wfx_api_older_than (d : wfx_dev) (major minor : Z) : bool :=
  let '(maj, min) := api_version d in
  (maj <? major) || ((maj =? major) && (min <? minor)).

Definition completion_done (d : wfx_dev) : bool :=
  negb (Nat.eqb (ctrl_ready d) 0).

(** [try_wait_for_completion(&ctrl_ready)]: consumes one completion if there
    is one. *)
Definition try_wait_for_completion (d : wfx_dev) : wfx_dev * bool :=
  match ctrl_ready d with
  | O => (d, false)
  | S n => (set_ctrl_ready n d, true)
  end.

(** [complete(&ctrl_ready)]. *)
Definition complete (d : wfx_dev) : wfx_dev :=
  set_ctrl_ready (S (ctrl_ready d)) d.

(** [wait_for_completion_timeout]: nothing completes [ctrl_ready] while the
    worker waits, so the wait succeeds exactly when a completion is already
    there. *)
Definition wait_for_completion_timeout (d : wfx_dev) : wfx_dev * bool :=
  try_wait_for_completion d.

Definition device_wakeup (d : wfx_dev) : wfx_dev :=
  match gpio_wakeup d with
  | None => d
  | Some true => d
  | Some false =>
      let d := set_gpio_wakeup (Some true) d in
      if wfx_api_older_than d 1 4 then
        if negb (completion_done d) then emit (Udelay 2000) d else d
      else
        let '(d, woken) := wait_for_completion_timeout d in
        if woken then complete d else emit ErrWakeTimeout d
  end.

Definition device_release (d : wfx_dev) : wfx_dev :=
  match gpio_wakeup d with
  | None => d
  | Some _ => set_gpio_wakeup (Some false) d
  end.

(** *** Receive *)

(** The length check of [rx_helper]: the message the rest of the function
    works on and its computed length, or [None] when [wfx_sl_decode] fails.
    [le16_to_cpus] leaves [len] as it is on a little-endian host. *)
Definition rx_decode (wsm : wmsg) : option (wmsg * Z) :=
  if encrypted wsm =? 2 then
    match wfx_sl_decode wsm with
    | None => None
    | Some wsm =>
        Some (wsm,
              wrap_size (wrap_size (round_up (wrap_size (len wsm - sizeof_wmsg_len)) 16)
                         + sizeof_sl_wmsg + sizeof_sl_tag))
    end
  else
    Some (wsm, round_up (len wsm) 2).

(** Lines 95-100: the sequence number of a received message. *)
Definition rx_check_seqnum (wsm : wmsg) (d : wfx_dev) : wfx_dev :=
  if negb (id wsm =? HI_EXCEPTION_IND_ID) && negb (id wsm =? HI_ERROR_IND_ID) then
    let d := emit_if (negb (seqnum wsm =? rx_seqnum d))
                     (WarnWrongSequence (seqnum wsm) (rx_seqnum d)) d in
    set_rx_seqnum (Z.rem (seqnum wsm + 1) (WMSG_COUNTER_MAX + 1)) d
  else d.

Definition release_count (wsm : wmsg) : Z :=
  if id wsm =? WSM_HI_MULTI_TRANSMIT_CNF_ID then wrap_int (NumTxConfs wsm) else 1.

(** Lines 102-112: a confirmation gives transmit buffers back. *)
Definition rx_release (wsm : wmsg) (d : wfx_dev) (is_cnf : Z) : wfx_dev * Z :=
  if Z.land (id wsm) WMSG_ID_IS_INDICATION =? 0 then
    let d := emit_if (tx_buffers_used d <? release_count wsm) WarnCorruptedCounter d in
    let d := set_tx_buffers_used (wrap_int (tx_buffers_used d - release_count wsm)) d in
    let d := emit_if (tx_buffers_used d =? 0) WakeUpTxBuffersEmpty d in
    (d, wrap_int (is_cnf + 1))
  else (d, is_cnf).

(** [rx_helper]: the new device, the return value and [*is_cnf].  A call that
    finds the script of the bus empty fails like a read error. *)
Definition rx_helper (d : wfx_dev) (read_len : Z) (is_cnf : Z) : wfx_dev * Z * Z :=
  let d := emit_if (read_len <? 4) (WarnShortRead read_len) d in
  let alloc_len := align_size (wrap_size (read_len + 2)) in
  match bus_rx d with
  | [] => (emit (DataRead alloc_len) d, - EIO, is_cnf)
  | RxNoMem :: rest => (set_bus_rx rest d, - ENOMEM, is_cnf)
  | RxReadFail :: rest => (emit (DataRead alloc_len) (set_bus_rx rest d), - EIO, is_cnf)
  | RxData buf :: rest =>
      let d := emit (DataRead alloc_len) (set_bus_rx rest d) in
      let piggyback := rx_piggyback buf in
      let d := emit_if (negb (Z.land (encrypted (rx_wsm buf)) 1 =? 0))
                       WarnUnsupportedEncryption d in
      match rx_decode (rx_wsm buf) with
      | None => (d, - EIO, is_cnf)
      | Some (wsm, computed_len) =>
          if negb (computed_len =? read_len) then
            (emit (ErrInconsistentLength computed_len read_len) d, - EIO, is_cnf)
          else
            let d := rx_check_seqnum wsm d in
            let '(d, is_cnf) := rx_release wsm d is_cnf in
            let d := emit (HandleRx wsm) d in
            (d, piggyback, is_cnf)
      end
  end.

(** How the loop of [bh_work_rx] was left, with the values of [i] and
    [piggyback] at that point. *)
Inductive rx_exit : Type :=
| RxReturned (i piggyback : Z)      (* one of the two [return i] in the body *)
| RxLoopEnd (i piggyback : Z).      (* the condition [i < max_msg] failed *)

Definition exit_count (e : rx_exit) : Z :=
  match e with RxReturned i _ | RxLoopEnd i _ => i end.


(** The choice of [ctrl_reg] that opens an iteration. *)
Definition rx_next_ctrl (d : wfx_dev) (piggyback : Z) : wfx_dev * Z :=
  if negb (Z.land piggyback CTRL_NEXT_LEN_MASK =? 0) then (d, piggyback)
  else
    let '(d, ready) := try_wait_for_completion d in
    if ready then (set_ctrl_reg 0 d, ctrl_reg d) else (d, 0).

(** [len = (ctrl_reg & CTRL_NEXT_LEN_MASK) * 2], an [int] product stored in
    a [size_t]. *)
Definition rx_len (ctrl : Z) : Z :=
  wrap_size (wrap_int (Z.land ctrl CTRL_NEXT_LEN_MASK * 2)).

(** The [for] loop of [bh_work_rx] with [n] iterations left. *)
Fixpoint bh_work_rx_loop (n : nat) (d : wfx_dev) (i piggyback num_cnf : Z)
  : wfx_dev * rx_exit * Z :=
  match n with
  | O => (d, RxLoopEnd i piggyback, num_cnf)
  | S n =>
      let '(d, ctrl) := rx_next_ctrl d piggyback in
      if Z.land ctrl CTRL_NEXT_LEN_MASK =? 0 then (d, RxReturned i piggyback, num_cnf)
      else
        let '(d, piggyback, num_cnf) := rx_helper d (rx_len ctrl) num_cnf in
        if piggyback <? 0 then (d, RxReturned i piggyback, num_cnf)
        else
          let d := emit_if (Z.land piggyback CTRL_WLAN_READY =? 0)
                           (ErrPiggybackNotReady piggyback) d in
          bh_work_rx_loop n d (i + 1) piggyback num_cnf
  end.

(** Lines 153-158: a length announced by the last piggyback goes back into
    the shared register. *)
Definition rx_relatch (d : wfx_dev) (piggyback : Z) : wfx_dev :=
  let prev := ctrl_reg d in
  let d := complete (set_ctrl_reg piggyback d) in
  emit_if (negb (prev =? 0)) (ErrUnexpectedIrq prev piggyback) d.

(** What follows the loop, whichever way it was left. *)
Definition bh_work_rx_end (d : wfx_dev) (e : rx_exit) : wfx_dev :=
  match e with
  | RxReturned _ _ => d
  | RxLoopEnd _ piggyback =>
      if negb (Z.land piggyback CTRL_NEXT_LEN_MASK =? 0) then rx_relatch d piggyback
      else d
  end.

Definition bh_work_rx (d : wfx_dev) (max_msg : Z) (num_cnf : Z) : wfx_dev * Z * Z :=
  let '(d, e, num_cnf) := bh_work_rx_loop (Z.to_nat max_msg) d 0 0 num_cnf in
  (bh_work_rx_end d e, exit_count e, num_cnf).

(** *** Transmit *)

(** What this call of [tx_helper] meets; a script that has run out means no
    fault. *)
Definition tx_pop_env (d : wfx_dev) : tx_env * wfx_dev :=
  match bus_tx d with
  | [] => (tx_no_fault, d)
  | e :: rest => (e, set_bus_tx rest d)
  end.

(** The length of the encrypted form of a message of [len] bytes. *)
Definition sl_tx_len (len : Z) : Z :=
  wrap_size (wrap_size (round_up (wrap_size (len - sizeof_wmsg_len)) 16)
             + sizeof_wmsg_len + 4 + sizeof_sl_tag).

(** [wfx_data_write] and what follows it in [tx_helper]. *)
Definition tx_write (e : tx_env) (wsm : wmsg) (len : Z) (is_encrypted : bool)
                    (d : wfx_dev) : wfx_dev :=
  let len := align_size len in
  if data_write_ok e then
    let d := set_wire (wire d ++ [Frame wsm len is_encrypted]) d in
    set_tx_buffers_used (wrap_int (tx_buffers_used d + 1)) d
  else d.

Definition tx_helper (d : wfx_dev) (data : wmsg) (len : Z) : outcome wfx_dev :=
  if len <? sizeof_wmsg then Bug
  else if negb (wmsg_len data =? len) then Bug
  else
    let wsm := set_seqnum data (tx_seqnum d) in
    let d := set_tx_seqnum (Z.rem (wrap_int (tx_seqnum d + 1)) (WMSG_COUNTER_MAX + 1)) d in
    let '(e, d) := tx_pop_env d in
    if wfx_is_secure_command (id wsm) then
      let len := sl_tx_len len in
      if negb (kmalloc_ok e) then Done d
      else if negb (wfx_sl_encode wsm) then Done d
      else Done (tx_write e wsm len true d)
    else Done (tx_write e wsm len false d).

(** Modelled from the spec: [wsm_get_tx] is defined outside these sources.
    It is the outbound queue's "pop_next() -> Option<(bytes, len)>", which
    "must not re-deliver an already-popped message": it hands out the head
    of the queue and removes it, and leaves [data] null when the queue is
    empty. *)
Definition wsm_get_tx (d : wfx_dev) : option tx_item * wfx_dev :=
  match tx_queue d with
  | [] => (None, d)
  | it :: rest => (Some it, set_tx_queue rest d)
  end.

(** The [for] loop of [bh_work_tx] with [n] iterations left. *)
Fixpoint bh_work_tx_loop (n : nat) (d : wfx_dev) (i : Z) : outcome (wfx_dev * Z) :=
  match n with
  | O => Done (d, i)
  | S n =>
      let '(data, d) :=
        if tx_buffers_used d <? NumInpChBufs d then wsm_get_tx d else (None, d) in
      match data with
      | None => Done (d, i)
      | Some it =>
          d <- tx_helper d (tx_data it) (tx_len it) ;;
          bh_work_tx_loop n d (i + 1)
      end
  end.

Definition bh_work_tx (d : wfx_dev) (max_msg : Z) : outcome (wfx_dev * Z) :=
  bh_work_tx_loop (Z.to_nat max_msg) d 0.

(** *** The worker *)

Definition ack_sdio_data (d : wfx_dev) : wfx_dev :=
  let cfg := cfg_reg d in
  if negb (Z.land cfg 255 =? 0) then
    emit (ConfigRegWriteBits 255 0) (emit (WarnChipErrors (Z.land cfg 255)) d)
  else d.

(** The statistics and the flag that [bh_work] carries around its loop. *)
Record bh_stats : Type := BhStats {
  stats_req : Z;
  stats_cnf : Z;
  stats_ind : Z;
  last_op_is_rx : bool;
  last_num_tx : Z;       (* the last values of [num_tx] and [num_rx] *)
  last_num_rx : Z
}.

(** The [do ... while (num_rx || num_tx)] loop. *)
Fixpoint bh_work_loop (fuel : nat) (d : wfx_dev) (s : bh_stats)
  : outcome (wfx_dev * bh_stats) :=
  match fuel with
  | O => OutOfFuel
  | S fuel =>
      '(d, num_tx) <- bh_work_tx d 32 ;;
      let req := wrap_int (stats_req s + num_tx) in
      let last := if negb (num_tx =? 0) then false else last_op_is_rx s in
      let '(d, num_rx, cnf) := bh_work_rx d 32 (stats_cnf s) in
      let ind := wrap_int (stats_ind s + num_rx) in
      let last := if negb (num_rx =? 0) then true else last in
      let s := BhStats req cnf ind last num_tx num_rx in
      if negb (num_rx =? 0) || negb (num_tx =? 0) then bh_work_loop fuel d s
      else Done (d, s)
  end.

(** Every round of the loop but the last takes a message from the outbound
    queue or an entry from the script of the bus, which bounds the rounds. *)
Definition bh_work_fuel (d : wfx_dev) : nat :=
  S (length (tx_queue d) + length (bus_rx d)).

Definition bh_work (d : wfx_dev) : outcome wfx_dev :=
  let d := device_wakeup d in
  '(d, s) <- bh_work_loop (bh_work_fuel d) d (BhStats 0 0 0 false 0 0) ;;
  let ind := wrap_int (stats_ind s - stats_cnf s) in
  let d := if last_op_is_rx s then ack_sdio_data d else d in
  let release_chip :=
    (tx_buffers_used d =? 0) && negb (work_pending d) && (scan_in_progress d =? 0) in
  let d := if release_chip then device_release d else d in
  Done (emit (TraceBhStats ind (stats_req s) (stats_cnf s) (tx_buffers_used d) release_chip) d).

(** *** Entry points *)

(** [queue_work]: the work becomes pending. *)
Definition queue_work (d : wfx_dev) : wfx_dev :=
  emit QueueWork (set_work_pending true d).

(** [wfx_bh_request_rx]; [cur] is what [control_reg_read] stored. *)
Definition wfx_bh_request_rx (d : wfx_dev) (cur : Z) : wfx_dev :=
  let prev := ctrl_reg d in
  let d := set_ctrl_reg cur d in
  let d := complete d in
  let d := queue_work d in
  let d := emit_if (Z.land cur CTRL_NEXT_LEN_MASK =? 0) (ErrLengthFieldZero cur) d in
  emit_if (negb (prev =? 0)) (ErrPreviousNotRead prev cur) d.

Definition wfx_bh_request_tx (d : wfx_dev) : wfx_dev :=
  queue_work d.

End BottomHalf.

(** ** The callers of the bottom half in [sta.c]

    [__wfx_sta_notify], [wfx_ps_notify], [wfx_mcast_timeout] and
    [wfx_suspend_resume] keep the power-save state of the stations of an
    interface and ask the bottom half to transmit.  The interface is
    [struct wfx_vif] restricted to the fields these functions use; the masks
    are [u32]. *)

Inductive sta_notify_cmd : Type := STA_NOTIFY_SLEEP | STA_NOTIFY_AWAKE.

Inductive vif_event : Type :=
| WarnUnsupportedNotify       (* dev_warn: unsupported notify command *)
| ScheduleMulticastStart      (* schedule_work(&wvif->multicast_start_work) *)
| ScheduleMulticastStop       (* schedule_work(&wvif->multicast_stop_work) *)
| WarnMulticastTimeout        (* dev_warn: Multicast delivery timeout. *)
| DelMcastTimer.              (* del_timer_sync(&wvif->mcast_timeout) *)

Record wfx_vif : Type := WfxVif {
  link_id_map : Z;
  sta_asleep_mask : Z;
  pspoll_mask : Z;
  buffered_multicasts : bool;
  aid0_bit_set : bool;
  tx_multicast : bool;
  wdev : wfx_dev;
  vlog : list vif_event
}.

Definition set_sta_asleep_mask v (w : wfx_vif) : wfx_vif :=
  {| link_id_map := link_id_map w; sta_asleep_mask := v; pspoll_mask := pspoll_mask w;
     buffered_multicasts := buffered_multicasts w; aid0_bit_set := aid0_bit_set w;
     tx_multicast := tx_multicast w; wdev := wdev w; vlog := vlog w |}.

Definition set_pspoll_mask v (w : wfx_vif) : wfx_vif :=
  {| link_id_map := link_id_map w; sta_asleep_mask := sta_asleep_mask w; pspoll_mask := v;
     buffered_multicasts := buffered_multicasts w; aid0_bit_set := aid0_bit_set w;
     tx_multicast := tx_multicast w; wdev := wdev w; vlog := vlog w |}.

Definition set_tx_multicast v (w : wfx_vif) : wfx_vif :=
  {| link_id_map := link_id_map w; sta_asleep_mask := sta_asleep_mask w;
     pspoll_mask := pspoll_mask w;
     buffered_multicasts := buffered_multicasts w; aid0_bit_set := aid0_bit_set w;
     tx_multicast := v; wdev := wdev w; vlog := vlog w |}.

Definition set_wdev v (w : wfx_vif) : wfx_vif :=
  {| link_id_map := link_id_map w; sta_asleep_mask := sta_asleep_mask w;
     pspoll_mask := pspoll_mask w;
     buffered_multicasts := buffered_multicasts w; aid0_bit_set := aid0_bit_set w;
     tx_multicast := tx_multicast w; wdev := v; vlog := vlog w |}.

Definition vemit (e : vif_event) (w : wfx_vif) : wfx_vif :=
  {| link_id_map := link_id_map w; sta_asleep_mask := sta_asleep_mask w;
     pspoll_mask := pspoll_mask w;
     buffered_multicasts := buffered_multicasts w; aid0_bit_set := aid0_bit_set w;
     tx_multicast := tx_multicast w; wdev := wdev w; vlog := vlog w ++ [e] |}.

(** The value stored when an integer is assigned to a [u32]. *)
Definition to_u32 (z : Z) : Z := z mod 2 ^ 32.

(** [BIT(n)]: [1UL << n]. *)
Definition BIT (n : Z) : Z := wrap_size (Z.shiftl 1 n).

(** [~x] for a [u32]. *)
Definition u32_not (x : Z) : Z := to_u32 (Z.lnot x).

Definition __wfx_sta_notify (wvif : wfx_vif) (notify_cmd : sta_notify_cmd)
                            (link_id : Z) : wfx_vif :=
  let '(bit, wvif) :=
    if negb (link_id =? 0) then (to_u32 (BIT link_id), wvif)
    else
      match notify_cmd with
      | STA_NOTIFY_AWAKE => (link_id_map wvif, wvif)
      | STA_NOTIFY_SLEEP => (0, vemit WarnUnsupportedNotify wvif)
      end in
  let prev := Z.land (sta_asleep_mask wvif) bit in
  match notify_cmd with
  | STA_NOTIFY_SLEEP =>
      if prev =? 0 then
        let wvif :=
          if buffered_multicasts wvif && (sta_asleep_mask wvif =? 0)
          then vemit ScheduleMulticastStart wvif else wvif in
        set_sta_asleep_mask (Z.lor (sta_asleep_mask wvif) bit) wvif
      else wvif
  | STA_NOTIFY_AWAKE =>
      if negb (prev =? 0) then
        let wvif := set_sta_asleep_mask (Z.land (sta_asleep_mask wvif) (u32_not bit)) wvif in
        let wvif := set_pspoll_mask (Z.land (pspoll_mask wvif) (u32_not bit)) wvif in
        let wvif :=
          if negb (link_id =? 0) && (sta_asleep_mask wvif =? 0)
          then vemit ScheduleMulticastStop wvif else wvif in
        set_wdev (wfx_bh_request_tx (wdev wvif)) wvif
      else wvif
  end.

Definition wfx_ps_notify (wvif : wfx_vif) (ps : bool) : wfx_vif :=
  __wfx_sta_notify wvif (if ps then STA_NOTIFY_AWAKE else STA_NOTIFY_SLEEP) 0.

Definition wfx_mcast_timeout (wvif : wfx_vif) : wfx_vif :=
  let wvif := vemit WarnMulticastTimeout wvif in
  let wvif := set_tx_multicast (aid0_bit_set wvif && buffered_multicasts wvif) wvif in
  if tx_multicast wvif then set_wdev (wfx_bh_request_tx (wdev wvif)) wvif else wvif.

(** [wfx_suspend_resume]; [bc_mc_only] and [resume] are the two flags of
    [arg->suspend_resume_flags] the function reads. *)
Definition wfx_suspend_resume (wvif : wfx_vif) (bc_mc_only resume : bool) : wfx_vif :=
  if bc_mc_only then
    let wvif :=
      if negb resume then set_tx_multicast false wvif
      else set_tx_multicast (aid0_bit_set wvif && buffered_multicasts wvif) wvif in
    if tx_multicast wvif then
      vemit DelMcastTimer (set_wdev (wfx_bh_request_tx (wdev wvif)) wvif)
    else wvif
  else
    let wvif := wfx_ps_notify wvif resume in
    if resume then set_wdev (wfx_bh_request_tx (wdev wvif)) wvif else wvif.

(** Station [link_id] is marked asleep. *)
Definition asleep (wvif : wfx_vif) (link_id : Z) : bool :=
  Z.testbit (sta_asleep_mask wvif) link_id.

(** ** A concrete configuration

    The values the chip's API headers give to the macros, a bus that aligns
    transfers on four bytes, and a link on which no command is encrypted.
    They serve to run the model on concrete devices. *)

Definition wf200 : hif_consts :=
  {| CTRL_NEXT_LEN_MASK := 0x0FFF;
     CTRL_WLAN_READY := 0x2000;
     WMSG_COUNTER_MAX := 7;
     WMSG_ID_IS_INDICATION := 0x80;
     HI_EXCEPTION_IND_ID := 0xe0;
     HI_ERROR_IND_ID := 0xe4;
     WSM_HI_MULTI_TRANSMIT_CNF_ID := 0x1e;
     sizeof_wmsg := 4;
     sizeof_wmsg_len := 2;
     sizeof_sl_wmsg := 6;
     sizeof_sl_tag := 16 |}.

Definition bus_align4 : hwbus_ops :=
  {| align_size := fun size => Z.land (size + 3) (Z.lnot 3) |}.

Definition clear_link : secure_link :=
  {| wfx_is_secure_command := fun _ => false;
     wfx_sl_decode := fun _ => None;
     wfx_sl_encode := fun _ => false |}.

(** A device at rest: wake-up line low, nothing queued, nothing announced. *)
Definition idle_dev : wfx_dev :=
  {| gpio_wakeup := Some false; api_version := (3, 0); NumInpChBufs := 4;
     scan_in_progress := 0; work_pending := false;
     ctrl_ready := 0%nat; ctrl_reg := 0; rx_seqnum := 0; tx_seqnum := 0;
     tx_buffers_used := 0; tx_queue := []; bus_rx := []; bus_tx := [];
     cfg_reg := 0; wire := []; klog := [] |}.

(** *** Messages and devices used in the examples *)

(** Memory that holds the bytes [l] from [wsm->body] on; the bytes behind
    them are given as zero. *)
Definition bytes (l : list Z) : nat -> Z := fun i => nth i l 0.

(** What follows the header in a receive buffer: the bytes [l], then [pad]
    bytes of padding, then the piggyback in the last two bytes of the
    buffer. *)
Definition rx_bytes (l : list Z) (pad : nat) (piggyback : Z) : nat -> Z :=
  bytes (l ++ repeat 0 pad ++ [Z.land piggyback 0xFF; Z.shiftr piggyback 8]).

(** A confirmation of eight bytes: the header and a four-byte body.  It is
    read into a buffer of twelve bytes that ends with the piggyback 0x2000. *)
Definition cnf_msg : wmsg :=
  {| len := 8; id := 0x04; seqnum := 0; encrypted := 0;
     body := rx_bytes [0; 0; 0; 0] 2 0x2000 |}.

(** The same confirmation in a buffer that ends with the piggyback 0x2004. *)
Definition cnf_msg_more : wmsg :=
  {| len := 8; id := 0x04; seqnum := 0; encrypted := 0;
     body := rx_bytes [0; 0; 0; 0] 2 0x2004 |}.

(** The chip sends [cnf_msg] while the host counts no buffer in use. *)
Definition dev_over_release : wfx_dev :=
  set_bus_rx [RxData {| rx_wsm := cnf_msg; rx_piggyback := 0x2000 |}] idle_dev.

(** A message of fourteen bytes, in the buffer of twenty bytes that a read
    of sixteen takes. *)
Definition msg14 : wmsg :=
  {| len := 14; id := 0x04; seqnum := 0; encrypted := 0;
     body := rx_bytes [0; 0; 0; 0; 0; 0; 0; 0; 0; 0] 4 0x2000 |}.

(** An interrupt announced eight words, that is sixteen bytes; the message
    that arrives computes to fourteen.  One buffer is in use. *)
Definition dev_mismatch : wfx_dev :=
  set_tx_buffers_used 1
    (set_ctrl_reg 8 (set_ctrl_ready 1%nat
       (set_bus_rx [RxData {| rx_wsm := msg14; rx_piggyback := 0x2000 |}] idle_dev))).

(** An indication whose encryption field holds the value 1. *)
Definition reserved_msg : wmsg :=
  {| len := 8; id := 0x84; seqnum := 0; encrypted := 1;
     body := rx_bytes [0; 0; 0; 0] 2 0x2000 |}.

Definition dev_reserved : wfx_dev :=
  set_ctrl_reg 4 (set_ctrl_ready 1%nat
    (set_bus_rx [RxData {| rx_wsm := reserved_msg; rx_piggyback := 0x2000 |}] idle_dev)).

(** An interrupt announced one word, two bytes.  The buffer is four bytes long:
    the two of the message and the two of the piggyback, so that the id and
    the bit-fields of the header are read from the piggyback bytes 00 20, and
    [body] lies behind the buffer. *)
Definition short_msg : wmsg :=
  {| len := 2; id := 0; seqnum := 4; encrypted := 0; body := bytes [] |}.

Definition dev_short : wfx_dev :=
  set_tx_buffers_used 1 (set_rx_seqnum 4
    (set_ctrl_reg 1 (set_ctrl_ready 1%nat
       (set_bus_rx [RxData {| rx_wsm := short_msg; rx_piggyback := 0x2000 |}] idle_dev)))).

(** A message arrives whose piggyback announces four more words, and the
    pump is asked for one message. *)
Definition dev_piggyback : wfx_dev :=
  set_tx_buffers_used 1
    (set_ctrl_reg 4 (set_ctrl_ready 1%nat
       (set_bus_rx [RxData {| rx_wsm := cnf_msg_more; rx_piggyback := 0x2004 |}] idle_dev))).


(** A multi-transmit confirmation that is all header.  The read of four bytes
    takes a buffer of eight, 04 00 1e 00 00 00 00 20: the four bytes behind
    the header are two bytes of padding and the piggyback 0x2000. *)
Definition header_only_cnf : wmsg :=
  {| len := 4; id := 0x1e; seqnum := 0; encrypted := 0; body := rx_bytes [] 2 0x2000 |}.

(** The chip sends [header_only_cnf] while five buffers are in use. *)
Definition dev_header_only : wfx_dev :=
  set_tx_buffers_used 5
    (set_ctrl_reg 2 (set_ctrl_ready 1%nat
       (set_bus_rx [RxData {| rx_wsm := header_only_cnf; rx_piggyback := 0x2000 |}] idle_dev))).

(** A request of eight bytes to transmit. *)
Definition req_msg : wmsg :=
  {| len := 8; id := 0x04; seqnum := 0; encrypted := 0; body := bytes [1; 2; 3; 4] |}.

Definition req_item : tx_item := {| tx_data := req_msg; tx_len := 8 |}.

Definition write_fails : tx_env := {| kmalloc_ok := true; data_write_ok := false |}.

(** The bus write of the next transmit fails. *)
Definition dev_write_fails : wfx_dev := set_bus_tx [write_fails] idle_dev.

(** Three requests are queued; the bus write of the second one fails. *)
Definition dev_three_requests : wfx_dev :=
  set_tx_queue [req_item; req_item; req_item]
    (set_bus_tx [tx_no_fault; write_fails; tx_no_fault] idle_dev).

(** Nothing to do, wake-up line low, a scan in progress. *)
Definition dev_scanning : wfx_dev :=
  {| gpio_wakeup := Some false; api_version := (3, 0); NumInpChBufs := 4;
     scan_in_progress := 1; work_pending := false;
     ctrl_ready := 0%nat; ctrl_reg := 0; rx_seqnum := 0; tx_seqnum := 0;
     tx_buffers_used := 0; tx_queue := []; bus_rx := []; bus_tx := [];
     cfg_reg := 0; wire := []; klog := [] |}.

(** A request is queued while the confirmation of an earlier exchange is
    announced. *)
Definition dev_round_trip : wfx_dev :=
  set_tx_queue [req_item]
    (set_ctrl_reg 4 (set_ctrl_ready 1%nat
       (set_bus_rx [RxData {| rx_wsm := cnf_msg; rx_piggyback := 0x2000 |}] idle_dev))).

(** An access point with stations 1 and 2; station 2 is asleep and multicasts
    are buffered. *)
Definition vif_ap : wfx_vif :=
  {| link_id_map := 6; sta_asleep_mask := 4; pspoll_mask := 4;
     buffered_multicasts := true; aid0_bit_set := false; tx_multicast := false;
     wdev := idle_dev; vlog := [] |}.

(** An event is in the log of a device. *)
Definition logged (e : event) (d : wfx_dev) : Prop := In e (klog d).

(** ** Derived notions *)

Section Derived.

Context {K : hif_consts} {B : hwbus_ops} {SL : secure_link}.

(** The device when the length check is reached. *)
Definition rx_read_state (d : wfx_dev) (read_len : Z) (buf : rx_buffer)
                         (rest : list rx_input) : wfx_dev :=
  emit_if (negb (Z.land (encrypted (rx_wsm buf)) 1 =? 0)) WarnUnsupportedEncryption
    (emit (DataRead (align_size (wrap_size (read_len + 2))))
       (set_bus_rx rest (emit_if (read_len <? 4) (WarnShortRead read_len) d))).

(** Line 70 reads the piggyback from the last two bytes of the buffer of
    [alloc_len] bytes.  When they lie behind the header these are bytes of
    [body]: [rx_buffer_layout alloc_len buf] says that the two views of [buf]
    show the same bytes there. *)
Definition rx_buffer_layout (alloc_len : Z) (buf : rx_buffer) : Prop :=
  sizeof_wmsg + 2 <= alloc_len ->
  rx_piggyback buf =
    Z.lor (body (rx_wsm buf) (Z.to_nat (alloc_len - 2 - sizeof_wmsg)))
          (Z.shiftl (body (rx_wsm buf) (Z.to_nat (alloc_len - 1 - sizeof_wmsg))) 8).

(** The two indications that carry no sequence number. *)
Definition seq_exempt (wsm : wmsg) : bool :=
  (id wsm =? HI_EXCEPTION_IND_ID) || (id wsm =? HI_ERROR_IND_ID).

(** A confirmation: the indication bit of the id is clear. *)
Definition is_confirmation (wsm : wmsg) : bool :=
  Z.land (id wsm) WMSG_ID_IS_INDICATION =? 0.

(** Whether the message of this call reaches [wfx_data_write] and is
    written. *)
Definition tx_written (e : tx_env) (wsm : wmsg) : bool :=
  (negb (wfx_is_secure_command (id wsm)) || (kmalloc_ok e && wfx_sl_encode wsm))
  && data_write_ok e.

(** [tx_helper] called on one message after the other. *)
Fixpoint tx_run (d : wfx_dev) (items : list tx_item) : outcome wfx_dev :=
  match items with
  | [] => Done d
  | it :: items =>
      d <- tx_helper d (tx_data it) (tx_len it) ;;
      tx_run d items
  end.

End Derived.

(** *** Notions about whole runs *)

(** The fields of the device that only the wake-up functions, the entry
    points and the upper layers write: the pumps leave them alone. *)
Definition pump_frame (d d' : wfx_dev) : Prop :=
  gpio_wakeup d' = gpio_wakeup d /\
  api_version d' = api_version d /\
  NumInpChBufs d' = NumInpChBufs d /\
  scan_in_progress d' = scan_in_progress d /\
  work_pending d' = work_pending d /\
  cfg_reg d' = cfg_reg d.

(** The piggyback is read with [le16_to_cpup], so it is never negative. *)
Definition rx_input_wf (inp : rx_input) : Prop :=
  match inp with
  | RxData buf => 0 <= rx_piggyback buf
  | _ => True
  end.

Definition rx_script_wf (d : wfx_dev) : Prop := Forall rx_input_wf (bus_rx d).

Definition is_handle_rx (e : event) : bool :=
  match e with HandleRx _ => true | _ => false end.

(** How many messages were handed to [wsm_handle_rx]. *)
Definition handled (d : wfx_dev) : Z :=
  Z.of_nat (length (filter is_handle_rx (klog d))).

(** [sent_from fs items]: the frames [fs] are messages of [items], stamped
    with a sequence number, in the order of [items]; some items may be
    missing. *)
Inductive sent_from : list frame -> list tx_item -> Prop :=
| sent_nil : sent_from [] []
| sent_skip it items fs : sent_from fs items -> sent_from fs (it :: items)
| sent_cons it items f fs :
    (exists s, frame_wsm f = set_seqnum (tx_data it) s) ->
    sent_from fs items -> sent_from (f :: fs) (it :: items).

(** ** Basic facts *)

Section Facts.

Context {K : hif_consts} {B : hwbus_ops} {SL : secure_link}.

Lemma logged_emit (e e' : event) (d : wfx_dev) :
  logged e (emit e' d) <-> e = e' \/ logged e d.
Proof.
  unfold logged, emit; simpl. rewrite in_app_iff; simpl.
  split; intros H.
  - destruct H as [H | [H | []]]; [right; exact H | left; symmetry; exact H].
  - destruct H as [H | H]; [right; left; symmetry; exact H | left; exact H].
Qed.

Lemma logged_emit_if (c : bool) (e e' : event) (d : wfx_dev) :
  logged e (emit_if c e' d) <-> (c = true /\ e = e') \/ logged e d.
Proof.
  unfold emit_if; destruct c.
  - rewrite logged_emit. intuition congruence.
  - intuition congruence.
Qed.

Lemma logged_emit_if_mono (c : bool) (e e' : event) (d : wfx_dev) :
  logged e d -> logged e (emit_if c e' d).
Proof. intros H; apply logged_emit_if; right; exact H. Qed.

(** A field that [emit] leaves alone is left alone by [emit_if]. *)
Lemma emit_if_field (A : Type) (f : wfx_dev -> A) (c : bool) (e : event) (d : wfx_dev) :
  (forall d0, f (emit e d0) = f d0) -> f (emit_if c e d) = f d.
Proof. intros H; unfold emit_if; destruct c; [apply H | reflexivity]. Qed.

Lemma wrap_int_range (z : Z) : - 2 ^ 31 <= wrap_int z < 2 ^ 31.
Proof.
  unfold wrap_int, int_bits.
  change (2 ^ (32 - 1)) with 2147483648; change (2 ^ 32) with 4294967296.
  change (2 ^ 31) with 2147483648.
  pose proof (Z.mod_pos_bound (z + 2147483648) 4294967296 ltac:(lia)). lia.
Qed.

Lemma wrap_int_id (z : Z) : - 2 ^ 31 <= z < 2 ^ 31 -> wrap_int z = z.
Proof.
  unfold wrap_int, int_bits.
  change (2 ^ (32 - 1)) with 2147483648; change (2 ^ 32) with 4294967296.
  change (2 ^ 31) with 2147483648.
  intros H. rewrite Z.mod_small by lia. lia.
Qed.

Lemma seqnum_field_small (v : Z) : 0 <= v < 8 -> seqnum_field v = v.
Proof.
  intros H. unfold seqnum_field.
  change 7 with (Z.ones 3). rewrite Z.land_ones by lia.
  apply Z.mod_small. change (2 ^ 3) with 8. lia.
Qed.

(** *** [rx_helper] on a buffer that was read *)

Lemma rx_helper_match (d : wfx_dev) (read_len is_cnf : Z) buf rest wsm :
  bus_rx d = RxData buf :: rest ->
  rx_decode (rx_wsm buf) = Some (wsm, read_len) ->
  rx_helper d read_len is_cnf =
    (emit (HandleRx wsm)
       (fst (rx_release wsm (rx_check_seqnum wsm (rx_read_state d read_len buf rest)) is_cnf)),
     rx_piggyback buf,
     snd (rx_release wsm (rx_check_seqnum wsm (rx_read_state d read_len buf rest)) is_cnf)).
Proof.
  intros Hbus Hdec. unfold rx_helper.
  rewrite (emit_if_field bus_rx) by reflexivity.
  rewrite Hbus, Hdec, Z.eqb_refl; simpl.
  fold (rx_read_state d read_len buf rest).
  destruct (rx_release wsm _ is_cnf); reflexivity.
Qed.

Lemma rx_helper_mismatch (d : wfx_dev) (read_len is_cnf : Z) buf rest wsm computed :
  bus_rx d = RxData buf :: rest ->
  rx_decode (rx_wsm buf) = Some (wsm, computed) ->
  computed <> read_len ->
  rx_helper d read_len is_cnf =
    (emit (ErrInconsistentLength computed read_len) (rx_read_state d read_len buf rest),
     - EIO, is_cnf).
Proof.
  intros Hbus Hdec Hne. unfold rx_helper.
  rewrite (emit_if_field bus_rx) by reflexivity.
  rewrite Hbus, Hdec.
  apply Z.eqb_neq in Hne. rewrite Hne; reflexivity.
Qed.

End Facts.

(** ** The receive helper *)

Section Receive.

Context {K : hif_consts} {B : hwbus_ops} {SL : secure_link}.

Lemma logged_rx_read_state e d read_len buf rest :
  logged e (rx_read_state d read_len buf rest) <->
  (Z.land (encrypted (rx_wsm buf)) 1 <> 0 /\ e = WarnUnsupportedEncryption) \/
  e = DataRead (align_size (wrap_size (read_len + 2))) \/
  (read_len < 4 /\ e = WarnShortRead read_len) \/
  logged e d.
Proof.
  unfold rx_read_state. rewrite logged_emit_if, logged_emit.
  change (logged e (set_bus_rx rest ?x)) with (logged e x).
  rewrite logged_emit_if, negb_true_iff, Z.eqb_neq, Z.ltb_lt. tauto.
Qed.

Lemma seq_exempt_false wsm :
  seq_exempt wsm = false <-> id wsm <> HI_EXCEPTION_IND_ID /\ id wsm <> HI_ERROR_IND_ID.
Proof. unfold seq_exempt. rewrite orb_false_iff, !Z.eqb_neq. tauto. Qed.

Lemma seq_exempt_true wsm :
  seq_exempt wsm = true <-> id wsm = HI_EXCEPTION_IND_ID \/ id wsm = HI_ERROR_IND_ID.
Proof. unfold seq_exempt. rewrite orb_true_iff, !Z.eqb_eq. tauto. Qed.

Lemma rx_check_seqnum_unfold wsm d :
  rx_check_seqnum wsm d =
  if seq_exempt wsm then d
  else set_rx_seqnum (Z.rem (seqnum wsm + 1) (WMSG_COUNTER_MAX + 1))
         (emit_if (negb (seqnum wsm =? rx_seqnum d))
                  (WarnWrongSequence (seqnum wsm) (rx_seqnum d)) d).
Proof.
  unfold rx_check_seqnum, seq_exempt.
  destruct (id wsm =? HI_EXCEPTION_IND_ID), (id wsm =? HI_ERROR_IND_ID); reflexivity.
Qed.

Lemma logged_rx_check_seqnum e wsm d :
  logged e (rx_check_seqnum wsm d) <->
  (seq_exempt wsm = false /\ seqnum wsm <> rx_seqnum d /\
   e = WarnWrongSequence (seqnum wsm) (rx_seqnum d)) \/
  logged e d.
Proof.
  rewrite rx_check_seqnum_unfold. destruct (seq_exempt wsm).
  - intuition congruence.
  - change (logged e (set_rx_seqnum ?v ?x)) with (logged e x).
    rewrite logged_emit_if, negb_true_iff, Z.eqb_neq. tauto.
Qed.

Lemma rx_release_unfold wsm d is_cnf :
  rx_release wsm d is_cnf =
  if is_confirmation wsm then
    (emit_if (wrap_int (tx_buffers_used d - release_count wsm) =? 0) WakeUpTxBuffersEmpty
       (set_tx_buffers_used (wrap_int (tx_buffers_used d - release_count wsm))
          (emit_if (tx_buffers_used d <? release_count wsm) WarnCorruptedCounter d)),
     wrap_int (is_cnf + 1))
  else (d, is_cnf).
Proof.
  unfold rx_release, is_confirmation.
  destruct (Z.land (id wsm) WMSG_ID_IS_INDICATION =? 0); [|reflexivity].
  rewrite (emit_if_field tx_buffers_used) by reflexivity. reflexivity.
Qed.

Lemma logged_rx_release e wsm d is_cnf :
  logged e (fst (rx_release wsm d is_cnf)) <->
  (is_confirmation wsm = true /\ tx_buffers_used d < release_count wsm /\
   e = WarnCorruptedCounter) \/
  (is_confirmation wsm = true /\ wrap_int (tx_buffers_used d - release_count wsm) = 0 /\
   e = WakeUpTxBuffersEmpty) \/
  logged e d.
Proof.
  rewrite rx_release_unfold. destruct (is_confirmation wsm); simpl.
  - rewrite logged_emit_if.
    change (logged e (set_tx_buffers_used ?v ?x)) with (logged e x).
    rewrite logged_emit_if, Z.eqb_eq, Z.ltb_lt. tauto.
  - intuition congruence.
Qed.

(** The fields of the counters after each stage. *)

Lemma rx_read_state_fields d read_len buf rest :
  let d1 := rx_read_state d read_len buf rest in
  rx_seqnum d1 = rx_seqnum d /\ tx_seqnum d1 = tx_seqnum d /\
  tx_buffers_used d1 = tx_buffers_used d /\ ctrl_reg d1 = ctrl_reg d /\
  ctrl_ready d1 = ctrl_ready d /\ bus_rx d1 = rest.
Proof.
  unfold rx_read_state.
  repeat split;
    (rewrite emit_if_field by reflexivity; simpl;
     try (rewrite emit_if_field by reflexivity); reflexivity).
Qed.

Lemma rx_check_seqnum_fields wsm d :
  let d1 := rx_check_seqnum wsm d in
  rx_seqnum d1 = (if seq_exempt wsm then rx_seqnum d
                  else Z.rem (seqnum wsm + 1) (WMSG_COUNTER_MAX + 1)) /\
  tx_seqnum d1 = tx_seqnum d /\ tx_buffers_used d1 = tx_buffers_used d.
Proof.
  rewrite rx_check_seqnum_unfold. destruct (seq_exempt wsm); simpl.
  - auto.
  - repeat split; rewrite emit_if_field by reflexivity; reflexivity.
Qed.

Lemma rx_release_fields wsm d is_cnf :
  let d1 := fst (rx_release wsm d is_cnf) in
  rx_seqnum d1 = rx_seqnum d /\ tx_seqnum d1 = tx_seqnum d /\
  tx_buffers_used d1 = (if is_confirmation wsm
                        then wrap_int (tx_buffers_used d - release_count wsm)
                        else tx_buffers_used d) /\
  snd (rx_release wsm d is_cnf) = (if is_confirmation wsm then wrap_int (is_cnf + 1)
                                    else is_cnf).
Proof.
  rewrite rx_release_unfold. destruct (is_confirmation wsm); simpl.
  - repeat split; rewrite emit_if_field by reflexivity; simpl;
      try (rewrite emit_if_field by reflexivity); reflexivity.
  - auto.
Qed.

(** *** Sequence numbers of received messages *)

(** C7. A message that passes the length check and whose id is neither
    [HI_EXCEPTION_IND_ID] nor [HI_ERROR_IND_ID] sets [rx_seqnum] to
    (received + 1) mod (WMSG_COUNTER_MAX + 1), whether or not its sequence
    number was the expected one; a warning is logged exactly when it was not,
    and the message is processed all the same ([rx_helper] returns the
    piggyback).  A message with one of the two exempt ids leaves [rx_seqnum]
    as it was and logs no sequence warning. *)
Theorem rx_seqnum_resynchronized d read_len is_cnf buf rest wsm :
  0 <= WMSG_COUNTER_MAX ->
  0 <= seqnum wsm ->
  bus_rx d = RxData buf :: rest ->
  rx_decode (rx_wsm buf) = Some (wsm, read_len) ->
  let d' := fst (fst (rx_helper d read_len is_cnf)) in
  snd (fst (rx_helper d read_len is_cnf)) = rx_piggyback buf /\
  (id wsm <> HI_EXCEPTION_IND_ID -> id wsm <> HI_ERROR_IND_ID ->
     rx_seqnum d' = (seqnum wsm + 1) mod (WMSG_COUNTER_MAX + 1) /\
     (logged (WarnWrongSequence (seqnum wsm) (rx_seqnum d)) d' <->
        seqnum wsm <> rx_seqnum d \/
        logged (WarnWrongSequence (seqnum wsm) (rx_seqnum d)) d)) /\
  (id wsm = HI_EXCEPTION_IND_ID \/ id wsm = HI_ERROR_IND_ID ->
     rx_seqnum d' = rx_seqnum d /\
     forall got expected,
       logged (WarnWrongSequence got expected) d' ->
       logged (WarnWrongSequence got expected) d).
Proof.
  intros HN Hseq Hbus Hdec d'. subst d'.
  rewrite (rx_helper_match d is_cnf Hbus Hdec); simpl.
  destruct (rx_read_state_fields d read_len buf rest) as (Hrx1 & _).
  destruct (rx_check_seqnum_fields wsm (rx_read_state d read_len buf rest)) as (Hrx2 & _).
  destruct (rx_release_fields wsm
              (rx_check_seqnum wsm (rx_read_state d read_len buf rest)) is_cnf)
    as (Hrx3 & _).
  change (rx_seqnum (emit ?e ?x)) with (rx_seqnum x).
  rewrite Hrx3, Hrx2.
  split; [reflexivity|]. split.
  - intros H1 H2.
    assert (Hex : seq_exempt wsm = false) by (apply seq_exempt_false; auto).
    rewrite Hex. split.
    + apply Z.rem_mod_nonneg; lia.
    + rewrite logged_emit, logged_rx_release, logged_rx_check_seqnum.
      rewrite Hrx1, logged_rx_read_state.
      intuition (try discriminate; try congruence).
  - intros Hid.
    assert (Hex : seq_exempt wsm = true) by (apply seq_exempt_true; auto).
    rewrite Hex. split.
    + exact Hrx1.
    + intros got expected.
      rewrite logged_emit, logged_rx_release, logged_rx_check_seqnum.
      rewrite logged_rx_read_state.
      intuition (try discriminate; try congruence).
Qed.

(** *** Credits given back by confirmations *)

(** In a buffer that ends four bytes behind the header, the release count of
    a multi-transmit confirmation is made of two bytes of padding and of the
    piggyback. *)
Lemma release_count_short_buffer buf alloc_len :
  rx_buffer_layout alloc_len buf ->
  alloc_len = sizeof_wmsg + 4 ->
  id (rx_wsm buf) = WSM_HI_MULTI_TRANSMIT_CNF_ID ->
  release_count (rx_wsm buf) =
    wrap_int (Z.lor (body (rx_wsm buf) 0%nat)
                (Z.lor (Z.shiftl (body (rx_wsm buf) 1%nat) 8)
                       (Z.shiftl (rx_piggyback buf) 16))).
Proof.
  intros Hlay Hlen Hid. unfold rx_buffer_layout in Hlay.
  specialize (Hlay ltac:(lia)).
  replace (alloc_len - 2 - sizeof_wmsg) with 2 in Hlay by lia.
  replace (alloc_len - 1 - sizeof_wmsg) with 3 in Hlay by lia.
  change (Z.to_nat 2) with 2%nat in Hlay. change (Z.to_nat 3) with 3%nat in Hlay.
  unfold release_count, NumTxConfs, le32_to_cpu.
  rewrite Hid, Z.eqb_refl, Hlay.
  rewrite Z.shiftl_lor, Z.shiftl_shiftl by lia.
  reflexivity.
Qed.

(** C1, as the code has it. A confirmation that passes the length check always
    has its release count subtracted from [tx_buffers_used], and [rx_helper]
    returns the piggyback, never an error.  When the release count exceeds
    the counter, the only difference is the warning "corrupted buffer
    counter": a counter that was not negative becomes negative.  When the
    release count is within the counter, the counter stays non-negative.
    The release count is 1, or for a multi-transmit confirmation the word in
    the four bytes that follow the header, whatever the length of the
    message. *)
Theorem rx_confirmation_release d read_len is_cnf buf rest wsm :
  bus_rx d = RxData buf :: rest ->
  rx_decode (rx_wsm buf) = Some (wsm, read_len) ->
  Z.land (id wsm) WMSG_ID_IS_INDICATION = 0 ->
  let d' := fst (fst (rx_helper d read_len is_cnf)) in
  snd (fst (rx_helper d read_len is_cnf)) = rx_piggyback buf /\
  snd (rx_helper d read_len is_cnf) = wrap_int (is_cnf + 1) /\
  tx_buffers_used d' = wrap_int (tx_buffers_used d - release_count wsm) /\
  (logged WarnCorruptedCounter d' <->
     tx_buffers_used d < release_count wsm \/ logged WarnCorruptedCounter d) /\
  (0 <= tx_buffers_used d < release_count wsm ->
     tx_buffers_used d' = tx_buffers_used d - release_count wsm /\
     tx_buffers_used d' < 0) /\
  (0 <= release_count wsm <= tx_buffers_used d -> tx_buffers_used d < 2 ^ 31 ->
     tx_buffers_used d' = tx_buffers_used d - release_count wsm /\
     0 <= tx_buffers_used d') /\
  release_count wsm =
    (if id wsm =? WSM_HI_MULTI_TRANSMIT_CNF_ID
     then wrap_int (le32_to_cpu (body wsm 0%nat) (body wsm 1%nat)
                                (body wsm 2%nat) (body wsm 3%nat))
     else 1).
Proof.
  intros Hbus Hdec Hid d'. subst d'.
  rewrite (rx_helper_match d is_cnf Hbus Hdec); simpl.
  destruct (rx_read_state_fields d read_len buf rest) as (_ & _ & Hu1 & _).
  destruct (rx_check_seqnum_fields wsm (rx_read_state d read_len buf rest))
    as (_ & _ & Hu2).
  destruct (rx_release_fields wsm
              (rx_check_seqnum wsm (rx_read_state d read_len buf rest)) is_cnf)
    as (_ & _ & Hu3 & Hc).
  assert (Hcnf : is_confirmation wsm = true)
    by (unfold is_confirmation; apply Z.eqb_eq; exact Hid).
  rewrite Hcnf in Hu3, Hc. rewrite Hu2, Hu1 in Hu3.
  change (tx_buffers_used (emit ?e ?x)) with (tx_buffers_used x).
  rewrite Hu3, Hc.
  assert (Hrc : - 2 ^ 31 <= release_count wsm < 2 ^ 31).
  { unfold release_count. destruct (id wsm =? WSM_HI_MULTI_TRANSMIT_CNF_ID).
    - apply wrap_int_range.
    - lia. }
  split; [reflexivity|]. split; [reflexivity|]. split; [reflexivity|].
  split; [|split; [|split]].
  - rewrite logged_emit, logged_rx_release, logged_rx_check_seqnum.
    rewrite Hu2, Hu1, logged_rx_read_state.
    intuition (try discriminate; try congruence).
  - intros H. rewrite wrap_int_id by lia. lia.
  - intros H H'. rewrite wrap_int_id by lia. lia.
  - reflexivity.
Qed.

(** *** Framing *)

Lemma rx_next_ctrl_fields d piggyback :
  let d1 := fst (rx_next_ctrl d piggyback) in
  rx_seqnum d1 = rx_seqnum d /\ tx_seqnum d1 = tx_seqnum d /\
  tx_buffers_used d1 = tx_buffers_used d /\ bus_rx d1 = bus_rx d /\
  klog d1 = klog d.
Proof.
  unfold rx_next_ctrl, try_wait_for_completion.
  destruct (negb (Z.land piggyback CTRL_NEXT_LEN_MASK =? 0)); simpl; [auto 6|].
  destruct (ctrl_ready d); simpl; auto 6.
Qed.

Lemma bh_work_rx_loop_step n d i piggyback num_cnf :
  bh_work_rx_loop (S n) d i piggyback num_cnf =
  let d1 := fst (rx_next_ctrl d piggyback) in
  let ctrl := snd (rx_next_ctrl d piggyback) in
  if Z.land ctrl CTRL_NEXT_LEN_MASK =? 0 then (d1, RxReturned i piggyback, num_cnf)
  else
    let r := rx_helper d1 (rx_len ctrl) num_cnf in
    if snd (fst r) <? 0 then (fst (fst r), RxReturned i (snd (fst r)), snd r)
    else
      bh_work_rx_loop n
        (emit_if (Z.land (snd (fst r)) CTRL_WLAN_READY =? 0)
                 (ErrPiggybackNotReady (snd (fst r))) (fst (fst r)))
        (i + 1) (snd (fst r)) (snd r).
Proof.
  simpl. destruct (rx_next_ctrl d piggyback) as [d1 ctrl]; simpl.
  destruct (Z.land ctrl CTRL_NEXT_LEN_MASK =? 0); [reflexivity|].
  destruct (rx_helper d1 (rx_len ctrl) num_cnf) as [[d2 pb] cnf]; reflexivity.
Qed.

(** C2. When the length computed for a received message differs from the
    length the bus announced, [rx_helper] logs the inconsistency and fails
    with -EIO; the loop of [bh_work_rx] returns at once with the count [i]
    of the iterations completed before, nothing is latched back afterwards,
    and [tx_buffers_used], [rx_seqnum], [tx_seqnum] and the confirmation
    count are what they were before the message; the message is not handed
    to [wsm_handle_rx]. *)
Theorem rx_length_mismatch_aborts n d i piggyback num_cnf buf rest wsm computed :
  let d1 := fst (rx_next_ctrl d piggyback) in
  let ctrl := snd (rx_next_ctrl d piggyback) in
  Z.land ctrl CTRL_NEXT_LEN_MASK <> 0 ->
  bus_rx d = RxData buf :: rest ->
  rx_decode (rx_wsm buf) = Some (wsm, computed) ->
  computed <> rx_len ctrl ->
  let r := bh_work_rx_loop (S n) d i piggyback num_cnf in
  let d' := fst (fst r) in
  snd (fst (rx_helper d1 (rx_len ctrl) num_cnf)) = - EIO /\
  snd (fst r) = RxReturned i (- EIO) /\
  exit_count (snd (fst r)) = i /\
  bh_work_rx_end d' (snd (fst r)) = d' /\
  snd r = num_cnf /\
  tx_buffers_used d' = tx_buffers_used d /\
  rx_seqnum d' = rx_seqnum d /\
  tx_seqnum d' = tx_seqnum d /\
  logged (ErrInconsistentLength computed (rx_len ctrl)) d' /\
  (forall m, logged (HandleRx m) d' -> logged (HandleRx m) d).
Proof.
  intros d1 ctrl Hlen Hbus Hdec Hne r d'.
  destruct (rx_next_ctrl_fields d piggyback) as (Hrx & Htx & Hu & Hb & Hl).
  fold d1 in Hrx, Htx, Hu, Hb, Hl.
  assert (Hbus1 : bus_rx d1 = RxData buf :: rest) by (rewrite Hb; exact Hbus).
  pose proof (rx_helper_mismatch d1 num_cnf Hbus1 Hdec Hne) as Hh.
  assert (Hr : r = (emit (ErrInconsistentLength computed (rx_len ctrl))
                      (rx_read_state d1 (rx_len ctrl) buf rest),
                    RxReturned i (- EIO), num_cnf)).
  { unfold r. rewrite bh_work_rx_loop_step. fold d1 ctrl.
    apply Z.eqb_neq in Hlen. cbv zeta. rewrite Hlen, Hh. reflexivity. }
  unfold d'. rewrite Hr, Hh. simpl.
  destruct (rx_read_state_fields d1 (rx_len ctrl) buf rest) as (Hrx2 & Htx2 & Hu2 & _).
  repeat split; try congruence.
  - apply logged_emit. left; reflexivity.
  - intros m. rewrite logged_emit, logged_rx_read_state.
    assert (Hld : logged (HandleRx m) d1 <-> logged (HandleRx m) d)
      by (unfold logged; rewrite Hl; tauto).
    intuition (try discriminate; try congruence).
Qed.

Lemma rx_decode_clear wsm :
  encrypted wsm <> 2 -> rx_decode wsm = Some (wsm, round_up (len wsm) 2).
Proof.
  intros H. unfold rx_decode. apply Z.eqb_neq in H. rewrite H. reflexivity.
Qed.

(** C5, as the code has it. A message whose encryption field has its low bit
    set (the values 1 and 3) raises the warning "unsupported encryption
    type" and is then treated as a message in clear: when its length rounded
    up to 2 is the announced length it is processed and handed to
    [wsm_handle_rx], and [rx_helper] returns the piggyback; only a length
    mismatch makes [rx_helper] fail. *)
Theorem rx_reserved_encryption_processed d read_len is_cnf buf rest :
  bus_rx d = RxData buf :: rest ->
  Z.land (encrypted (rx_wsm buf)) 1 <> 0 ->
  let r := rx_helper d read_len is_cnf in
  logged WarnUnsupportedEncryption (fst (fst r)) /\
  (round_up (len (rx_wsm buf)) 2 = read_len ->
     snd (fst r) = rx_piggyback buf /\
     logged (HandleRx (rx_wsm buf)) (fst (fst r))) /\
  (round_up (len (rx_wsm buf)) 2 <> read_len ->
     snd (fst r) = - EIO /\
     logged (ErrInconsistentLength (round_up (len (rx_wsm buf)) 2) read_len) (fst (fst r))).
Proof.
  intros Hbus Hbit r.
  assert (Henc : encrypted (rx_wsm buf) <> 2).
  { intros E. rewrite E in Hbit. apply Hbit. reflexivity. }
  pose proof (@rx_decode_clear (rx_wsm buf) Henc) as Hdec.
  assert (Hw : logged WarnUnsupportedEncryption (rx_read_state d read_len buf rest)).
  { apply logged_rx_read_state. left. split; [exact Hbit | reflexivity]. }
  destruct (Z.eq_dec (round_up (len (rx_wsm buf)) 2) read_len) as [E | E].
  - rewrite E in Hdec. unfold r.
    rewrite (rx_helper_match d is_cnf Hbus Hdec); simpl.
    split; [|split].
    + apply logged_emit. right. apply logged_rx_release. right; right.
      apply logged_rx_check_seqnum. right. exact Hw.
    + intros _. split; [reflexivity|]. apply logged_emit. left; reflexivity.
    + intros F; contradiction.
  - unfold r. rewrite (rx_helper_mismatch d is_cnf Hbus Hdec E); simpl.
    split; [|split].
    + apply logged_emit. right. exact Hw.
    + intros F; contradiction.
    + intros _. split; [reflexivity|]. apply logged_emit. left; reflexivity.
Qed.

(** C6, as the code has it. An announced length below 4 only raises a
    warning: the buffer is still allocated and read, and a message whose
    computed length equals the announced one is processed and handed to
    [wsm_handle_rx] like any other, [rx_helper] returning the piggyback. *)
Theorem rx_short_read_processed d read_len is_cnf buf rest wsm :
  read_len < 4 ->
  bus_rx d = RxData buf :: rest ->
  rx_decode (rx_wsm buf) = Some (wsm, read_len) ->
  let r := rx_helper d read_len is_cnf in
  logged (WarnShortRead read_len) (fst (fst r)) /\
  snd (fst r) = rx_piggyback buf /\
  logged (HandleRx wsm) (fst (fst r)).
Proof.
  intros Hlt Hbus Hdec r. unfold r.
  rewrite (rx_helper_match d is_cnf Hbus Hdec); simpl.
  split; [|split].
  - apply logged_emit. right. apply logged_rx_release. right; right.
    apply logged_rx_check_seqnum. right.
    apply logged_rx_read_state. right; right; left. split; [exact Hlt | reflexivity].
  - reflexivity.
  - apply logged_emit. left; reflexivity.
Qed.

End Receive.

(** ** The receive pump *)

Section ReceivePump.

Context {K : hif_consts} {B : hwbus_ops} {SL : secure_link}.


End ReceivePump.

(** ** The transmit helper *)

Section Transmit.

Context {K : hif_consts} {B : hwbus_ops} {SL : secure_link}.

Lemma tx_pop_env_fields d :
  let d1 := snd (tx_pop_env d) in
  tx_seqnum d1 = tx_seqnum d /\ tx_buffers_used d1 = tx_buffers_used d /\
  wire d1 = wire d /\ tx_queue d1 = tx_queue d /\ bus_tx d1 = tl (bus_tx d) /\
  rx_seqnum d1 = rx_seqnum d.
Proof.
  unfold tx_pop_env. destruct (bus_tx d) eqn:E; simpl; rewrite ?E;
    repeat split; reflexivity.
Qed.

(** What a call of [tx_helper] that passes its two [BUG_ON] does. *)
Lemma tx_helper_done d data len :
  sizeof_wmsg <= len ->
  wmsg_len data = len ->
  exists d',
    tx_helper d data len = Done d' /\
    tx_seqnum d' = Z.rem (wrap_int (tx_seqnum d + 1)) (WMSG_COUNTER_MAX + 1) /\
    tx_queue d' = tx_queue d /\
    bus_tx d' = tl (bus_tx d) /\
    rx_seqnum d' = rx_seqnum d /\
    if tx_written (fst (tx_pop_env d)) (set_seqnum data (tx_seqnum d)) then
      (exists l enc,
         wire d' = wire d ++ [Frame (set_seqnum data (tx_seqnum d)) l enc]) /\
      tx_buffers_used d' = wrap_int (tx_buffers_used d + 1)
    else
      wire d' = wire d /\ tx_buffers_used d' = tx_buffers_used d.
Proof.
  intros Hlen Hwl. unfold tx_helper, tx_written.
  apply Z.ltb_ge in Hlen. rewrite Hlen.
  apply Z.eqb_eq in Hwl. rewrite Hwl. simpl negb. cbv iota.
  change (id (set_seqnum data (tx_seqnum d))) with (id data).
  set (wsm := set_seqnum data (tx_seqnum d)).
  set (d0 := set_tx_seqnum _ d).
  destruct (tx_pop_env_fields d0) as (Hs & Hu & Hw & Hq & Hb & Hr).
  assert (Hfst : fst (tx_pop_env d0) = fst (tx_pop_env d))
    by (unfold tx_pop_env; simpl; destruct (bus_tx d); reflexivity).
  destruct (tx_pop_env d0) as [e d1] eqn:Hpop. simpl in Hs, Hu, Hw, Hq, Hb, Hr, Hfst.
  rewrite <- Hfst. unfold tx_write.
  destruct (wfx_is_secure_command (id data)), (kmalloc_ok e), (wfx_sl_encode wsm),
    (data_write_ok e); simpl;
    (eexists; split; [reflexivity|]; simpl; rewrite ?Hs, ?Hq, ?Hb, ?Hr, ?Hw, ?Hu;
     repeat split; try reflexivity; eexists; eexists; reflexivity).
Qed.

Lemma tx_helper_inv d data len d' :
  tx_helper d data len = Done d' -> sizeof_wmsg <= len /\ wmsg_len data = len.
Proof.
  unfold tx_helper. intros H.
  destruct (len <? sizeof_wmsg) eqn:H1; [discriminate|].
  destruct (wmsg_len data =? len) eqn:H2; [|discriminate].
  split; [apply Z.ltb_ge; exact H1 | apply Z.eqb_eq; exact H2].
Qed.

(** C3, as the code has it. A transmit whose bus write fails leaves
    [tx_buffers_used] as it was: the increment is skipped, unlike on a
    successful write.  Nothing reaches the wire, the sequence number is
    spent, and the write is not tried again: the call consumes one outcome
    of the bus and does not put the message back into the queue. *)
Theorem tx_write_failure_not_counted d data len :
  sizeof_wmsg <= len ->
  wmsg_len data = len ->
  data_write_ok (fst (tx_pop_env d)) = false ->
  exists d',
    tx_helper d data len = Done d' /\
    tx_buffers_used d' = tx_buffers_used d /\
    wire d' = wire d /\
    tx_queue d' = tx_queue d /\
    bus_tx d' = tl (bus_tx d) /\
    tx_seqnum d' = Z.rem (wrap_int (tx_seqnum d + 1)) (WMSG_COUNTER_MAX + 1).
Proof.
  intros Hlen Hwl Hfail.
  destruct (tx_helper_done d data Hlen Hwl) as (d' & Hd & Hs & Hq & Hb & _ & Hw).
  unfold tx_written in Hw. rewrite Hfail, andb_false_r in Hw.
  exists d'. tauto.
Qed.

(** The counter stays within its range and advances by one. *)
Lemma tx_seqnum_next t :
  0 <= WMSG_COUNTER_MAX <= 7 ->
  0 <= t <= WMSG_COUNTER_MAX ->
  Z.rem (wrap_int (t + 1)) (WMSG_COUNTER_MAX + 1) = (t + 1) mod (WMSG_COUNTER_MAX + 1).
Proof.
  intros HN Ht. rewrite wrap_int_id by (change (2 ^ 31) with 2147483648; lia).
  apply Z.rem_mod_nonneg; lia.
Qed.

(** A run of calls through their two [BUG_ON] advances the counter by their
    number. *)
Lemma tx_run_seqnum items :
  forall d d',
    0 <= WMSG_COUNTER_MAX <= 7 ->
    0 <= tx_seqnum d <= WMSG_COUNTER_MAX ->
    tx_run d items = Done d' ->
    tx_seqnum d' = (tx_seqnum d + Z.of_nat (length items)) mod (WMSG_COUNTER_MAX + 1).
Proof.
  induction items as [|it items IH]; intros d d' HN Ht Hrun.
  - simpl in *. injection Hrun as <-. rewrite Z.add_0_r.
    symmetry; apply Z.mod_small; lia.
  - simpl in Hrun.
    destruct (tx_helper d (tx_data it) (tx_len it)) as [d1| |] eqn:Hh;
      simpl in Hrun; try discriminate.
    assert (Hs : tx_seqnum d1 = (tx_seqnum d + 1) mod (WMSG_COUNTER_MAX + 1)).
    { destruct (tx_helper_inv _ _ _ Hh) as (H1 & H2).
      destruct (tx_helper_done d (tx_data it) H1 H2) as (d2 & Hd & Hs & _).
      rewrite <- tx_seqnum_next by assumption. congruence. }
    assert (Hr : 0 <= tx_seqnum d1 <= WMSG_COUNTER_MAX).
    { rewrite Hs.
      assert (HM : 0 < WMSG_COUNTER_MAX + 1) by lia.
      pose proof (Z.mod_pos_bound (tx_seqnum d + 1) _ HM).
      lia. }
    rewrite (IH d1 d' HN Hr Hrun), Hs.
    rewrite Z.add_mod_idemp_l by lia.
    f_equal. change (length (it :: items)) with (S (length items)). lia.
Qed.

(** C4, as the code has it. Every call of [tx_helper] stamps the current
    [tx_seqnum] into the message and advances the counter by one modulo
    WMSG_COUNTER_MAX + 1, whether or not the message reaches the bus.  So for
    two frames that follow each other on the wire, the later one carries
    (previous + 1 + k) mod (WMSG_COUNTER_MAX + 1), where k is the number of
    messages that were handed to [tx_helper] in between and did not reach the
    wire; it is (previous + 1) mod (WMSG_COUNTER_MAX + 1) when there was
    none. *)
Theorem tx_seqnum_on_wire d a mid b d1 d2 d3 fa fb :
  0 <= WMSG_COUNTER_MAX <= 7 ->
  0 <= tx_seqnum d <= WMSG_COUNTER_MAX ->
  tx_helper d (tx_data a) (tx_len a) = Done d1 ->
  wire d1 = wire d ++ [fa] ->
  tx_run d1 mid = Done d2 ->
  wire d2 = wire d1 ->
  tx_helper d2 (tx_data b) (tx_len b) = Done d3 ->
  wire d3 = wire d2 ++ [fb] ->
  wire d3 = wire d ++ [fa; fb] /\
  seqnum (frame_wsm fa) = tx_seqnum d /\
  seqnum (frame_wsm fb) =
    (seqnum (frame_wsm fa) + 1 + Z.of_nat (length mid)) mod (WMSG_COUNTER_MAX + 1).
Proof.
  intros HN Ht Ha Hwa Hmid Hwm Hb Hwb.
  assert (Hstamp : forall d0 it d0' f,
             0 <= tx_seqnum d0 <= WMSG_COUNTER_MAX ->
             tx_helper d0 (tx_data it) (tx_len it) = Done d0' ->
             wire d0' = wire d0 ++ [f] ->
             seqnum (frame_wsm f) = tx_seqnum d0).
  { intros d0 it d0' f Hr Hh Hw.
    destruct (tx_helper_inv _ _ _ Hh) as (H1 & H2).
    destruct (tx_helper_done d0 (tx_data it) H1 H2) as (d4 & Hd & _ & _ & _ & _ & Hcase).
    assert (d4 = d0') by congruence. subst d4.
    destruct (tx_written _ _).
    - destruct Hcase as ((l & enc & Hw') & _).
      rewrite Hw' in Hw. apply app_inv_head in Hw.
      injection Hw as <-. simpl. apply seqnum_field_small. lia.
    - destruct Hcase as (Hw' & _). rewrite Hw' in Hw.
      apply (f_equal (@length frame)) in Hw. rewrite length_app in Hw.
      simpl in Hw. lia. }
  assert (Hs1 : tx_seqnum d1 = (tx_seqnum d + 1) mod (WMSG_COUNTER_MAX + 1)).
  { pose proof (@tx_run_seqnum [a] d d1 HN Ht) as H. simpl in H.
    rewrite Ha in H. simpl in H. apply H. reflexivity. }
  assert (Hr1 : 0 <= tx_seqnum d1 <= WMSG_COUNTER_MAX).
  { rewrite Hs1.
    assert (HM : 0 < WMSG_COUNTER_MAX + 1) by lia.
      pose proof (Z.mod_pos_bound (tx_seqnum d + 1) _ HM).
    lia. }
  pose proof (@tx_run_seqnum mid _ _ HN Hr1 Hmid) as Hs2.
  assert (Hr2 : 0 <= tx_seqnum d2 <= WMSG_COUNTER_MAX).
  { rewrite Hs2.
    assert (HM : 0 < WMSG_COUNTER_MAX + 1) by lia.
      pose proof (Z.mod_pos_bound (tx_seqnum d1 + Z.of_nat (length mid)) _ HM).
    lia. }
  split; [|split].
  - rewrite Hwb, Hwm, Hwa, <- app_assoc. reflexivity.
  - apply (Hstamp d a d1 fa Ht Ha Hwa).
  - rewrite (Hstamp d2 b d3 fb Hr2 Hb Hwb), (Hstamp d a d1 fa Ht Ha Hwa).
    rewrite Hs2, Hs1. rewrite Z.add_mod_idemp_l by lia. reflexivity.
Qed.

End Transmit.

(** ** The worker and the interrupt entry point *)

Section Worker.

Context {K : hif_consts} {B : hwbus_ops} {SL : secure_link}.

(** [device_wakeup] touches the wake-up line and the log only, when no
    completion is there to be consumed. *)
Lemma device_wakeup_idle d :
  ctrl_ready d = 0%nat ->
  exists l,
    device_wakeup d =
    set_klog l (set_gpio_wakeup (option_map (fun _ => true) (gpio_wakeup d)) d).
Proof.
  intros Hc. unfold device_wakeup.
  destruct d as [g av nb sc wp cr creg rs ts used q brx btx cfg w lg].
  simpl in *. subst cr.
  destruct g as [[|]|]; simpl.
  - exists lg; reflexivity.
  - unfold wfx_api_older_than; simpl. destruct av as [maj min].
    destruct ((maj <? 1) || (maj =? 1) && (min <? 4)); simpl;
      eexists; reflexivity.
  - exists lg; reflexivity.
Qed.

Lemma bh_work_tx_loop_empty n d i :
  tx_queue d = [] -> bh_work_tx_loop n d i = Done (d, i).
Proof.
  intros Hq. destruct n; simpl; [reflexivity|].
  unfold wsm_get_tx. rewrite Hq.
  destruct (tx_buffers_used d <? NumInpChBufs d); reflexivity.
Qed.

Lemma bh_work_rx_idle d max_msg num_cnf :
  ctrl_ready d = 0%nat -> bh_work_rx d max_msg num_cnf = (d, 0, num_cnf).
Proof.
  intros Hc. unfold bh_work_rx.
  destruct (Z.to_nat max_msg) as [|n].
  - reflexivity.
  - rewrite bh_work_rx_loop_step.
    unfold rx_next_ctrl, try_wait_for_completion. rewrite Hc. reflexivity.
Qed.

(** C9, as the code has it. With nothing in the outbound queue and no
    completion on [ctrl_ready], both pumps return zero and [bh_work]
    returns; the counters, the control register, the completion, the queue
    and the scripts of the bus are what they were.  The wake-up line is not
    left alone: [device_wakeup] raises it, and it is lowered again only when
    [tx_buffers_used] is zero, no work is pending and no scan is in progress;
    otherwise a line that was low is left high. *)
Theorem bh_work_no_pending_work d :
  tx_queue d = [] ->
  ctrl_ready d = 0%nat ->
  let dw := device_wakeup d in
  let release_chip :=
    (tx_buffers_used d =? 0) && negb (work_pending d) && (scan_in_progress d =? 0) in
  bh_work_tx dw 32 = Done (dw, 0) /\
  bh_work_rx dw 32 0 = (dw, 0, 0) /\
  exists d',
    bh_work d = Done d' /\
    gpio_wakeup d' = option_map (fun _ => negb release_chip) (gpio_wakeup d) /\
    logged (TraceBhStats 0 0 0 (tx_buffers_used d) release_chip) d' /\
    tx_buffers_used d' = tx_buffers_used d /\
    rx_seqnum d' = rx_seqnum d /\
    tx_seqnum d' = tx_seqnum d /\
    ctrl_reg d' = ctrl_reg d /\
    ctrl_ready d' = ctrl_ready d /\
    tx_queue d' = tx_queue d /\
    bus_rx d' = bus_rx d /\
    bus_tx d' = bus_tx d /\
    wire d' = wire d /\
    work_pending d' = work_pending d.
Proof.
  intros Hq Hc dw release_chip.
  destruct (device_wakeup_idle d Hc) as (l & Hdw). fold dw in Hdw.
  assert (Hq' : tx_queue dw = []) by (rewrite Hdw; exact Hq).
  assert (Hc' : ctrl_ready dw = 0%nat) by (rewrite Hdw; exact Hc).
  assert (Htx : bh_work_tx dw 32 = Done (dw, 0))
    by (apply bh_work_tx_loop_empty; exact Hq').
  assert (Hrx : forall c, bh_work_rx dw 32 c = (dw, 0, c))
    by (intros c; apply bh_work_rx_idle; exact Hc').
  split; [exact Htx|]. split; [apply Hrx|].
  unfold bh_work. fold dw. unfold bh_work_fuel.
  cbn [bh_work_loop]. rewrite Htx. cbn [bind]. rewrite Hrx. cbn.
  assert (Hu : tx_buffers_used dw = tx_buffers_used d) by (rewrite Hdw; reflexivity).
  assert (Hwp : work_pending dw = work_pending d) by (rewrite Hdw; reflexivity).
  assert (Hsc : scan_in_progress dw = scan_in_progress d) by (rewrite Hdw; reflexivity).
  rewrite Hu, Hwp, Hsc. fold release_chip.
  eexists; split; [reflexivity|].
  destruct release_chip.
  - unfold device_release. rewrite Hdw. simpl.
    destruct (gpio_wakeup d); simpl;
      (split; [reflexivity|]; split; [apply logged_emit; left; reflexivity|]);
      repeat split; reflexivity.
  - rewrite Hdw. simpl.
    destruct (gpio_wakeup d); simpl;
      (split; [reflexivity|]; split; [apply logged_emit; left; reflexivity|]);
      repeat split; reflexivity.
Qed.

(** C10. Every call of [wfx_bh_request_rx] exchanges the value just read into
    [ctrl_reg], completes [ctrl_ready] and queues the worker, whatever the
    value and whatever the register held; a zero length field and a previous
    value that was not zero are only logged. *)
Theorem wfx_bh_request_rx_always_latches d cur :
  let d' := wfx_bh_request_rx d cur in
  ctrl_reg d' = cur /\
  ctrl_ready d' = S (ctrl_ready d) /\
  work_pending d' = true /\
  logged QueueWork d' /\
  (logged (ErrLengthFieldZero cur) d' <->
     Z.land cur CTRL_NEXT_LEN_MASK = 0 \/ logged (ErrLengthFieldZero cur) d) /\
  (logged (ErrPreviousNotRead (ctrl_reg d) cur) d' <->
     ctrl_reg d <> 0 \/ logged (ErrPreviousNotRead (ctrl_reg d) cur) d) /\
  tx_buffers_used d' = tx_buffers_used d /\
  rx_seqnum d' = rx_seqnum d /\
  tx_seqnum d' = tx_seqnum d /\
  tx_queue d' = tx_queue d /\
  gpio_wakeup d' = gpio_wakeup d.
Proof.
  intros d'. unfold d', wfx_bh_request_rx, queue_work.
  repeat (rewrite emit_if_field by reflexivity).
  split; [reflexivity|]. split; [reflexivity|]. split; [reflexivity|].
  split; [|split; [|split]].
  - do 2 apply logged_emit_if_mono. apply logged_emit. left; reflexivity.
  - rewrite !logged_emit_if, logged_emit, negb_true_iff, Z.eqb_neq, Z.eqb_eq.
    change (logged ?e (set_work_pending true (complete (set_ctrl_reg cur d))))
      with (logged e d).
    intuition (try discriminate; try congruence).
  - rewrite !logged_emit_if, logged_emit, negb_true_iff, Z.eqb_neq, Z.eqb_eq.
    change (logged ?e (set_work_pending true (complete (set_ctrl_reg cur d))))
      with (logged e d).
    intuition (try discriminate; try congruence).
  - repeat split; repeat (rewrite emit_if_field by reflexivity); reflexivity.
Qed.

End Worker.

(** ** The worker returns

    The loop of [bh_work] is modelled with a bound on its rounds.  The bound
    computed by [bh_work_fuel] is never reached: a round that did something
    took a message from the outbound queue or an entry from the script of the
    bus, and no round adds any. *)

Section Termination.

Context {K : hif_consts} {B : hwbus_ops} {SL : secure_link}.

Lemma tx_helper_frame d data len :
  match tx_helper d data len with
  | Done d' => tx_queue d' = tx_queue d /\ bus_rx d' = bus_rx d
  | Bug => True
  | OutOfFuel => False
  end.
Proof.
  unfold tx_helper.
  destruct (len <? sizeof_wmsg); [exact I|].
  destruct (negb (wmsg_len data =? len)); [exact I|].
  unfold tx_pop_env, tx_write.
  destruct (bus_tx _) as [|e rest]; simpl;
    destruct (wfx_is_secure_command _); simpl;
    try destruct (kmalloc_ok _); simpl;
    try destruct (wfx_sl_encode _); simpl;
    try destruct (data_write_ok _); simpl; split; reflexivity.
Qed.

Lemma bh_work_tx_loop_consumes n :
  forall d i,
    match bh_work_tx_loop n d i with
    | Done (d', i') =>
        i <= i' /\
        Z.of_nat (length (tx_queue d')) + (i' - i) = Z.of_nat (length (tx_queue d)) /\
        bus_rx d' = bus_rx d
    | Bug => True
    | OutOfFuel => False
    end.
Proof.
  induction n as [|n IH]; intros d i; simpl.
  - repeat split; lia.
  - assert (Hnone : i <= i /\
                    Z.of_nat (length (tx_queue d)) + (i - i) = Z.of_nat (length (tx_queue d)) /\
                    bus_rx d = bus_rx d) by (repeat split; lia).
    destruct (tx_buffers_used d <? NumInpChBufs d); [|exact Hnone].
    unfold wsm_get_tx. destruct (tx_queue d) as [|it rest] eqn:Hq.
    + rewrite Hq. exact Hnone.
    + pose proof (tx_helper_frame (set_tx_queue rest d) (tx_data it) (tx_len it)) as Hf.
      destruct (tx_helper (set_tx_queue rest d) (tx_data it) (tx_len it)) as [d1| |];
        simpl; [|exact I|contradiction].
      destruct Hf as (Hq1 & Hb1). simpl in Hq1, Hb1.
      specialize (IH d1 (i + 1)).
      destruct (bh_work_tx_loop n d1 (i + 1)) as [[d2 i2]| |]; [|exact I|contradiction].
      destruct IH as (Hi & Hl & Hb). rewrite Hq1 in Hl.
      repeat split; [lia | simpl length; lia | congruence].
Qed.

Lemma rx_check_seqnum_frame wsm d :
  tx_queue (rx_check_seqnum wsm d) = tx_queue d /\
  bus_rx (rx_check_seqnum wsm d) = bus_rx d.
Proof.
  rewrite rx_check_seqnum_unfold. destruct (seq_exempt wsm); simpl.
  - auto.
  - split; rewrite emit_if_field by reflexivity; reflexivity.
Qed.

Lemma rx_release_frame wsm d is_cnf :
  tx_queue (fst (rx_release wsm d is_cnf)) = tx_queue d /\
  bus_rx (fst (rx_release wsm d is_cnf)) = bus_rx d.
Proof.
  rewrite rx_release_unfold. destruct (is_confirmation wsm); simpl.
  - split; rewrite emit_if_field by reflexivity; simpl;
      rewrite emit_if_field by reflexivity; reflexivity.
  - auto.
Qed.

(** What a call of [rx_helper] takes from the script of the bus. *)
Lemma rx_helper_consumes d read_len is_cnf :
  let r := rx_helper d read_len is_cnf in
  tx_queue (fst (fst r)) = tx_queue d /\
  (length (bus_rx (fst (fst r))) <= length (bus_rx d))%nat /\
  (0 <= snd (fst r) -> S (length (bus_rx (fst (fst r)))) = length (bus_rx d)).
Proof.
  unfold rx_helper.
  rewrite (emit_if_field bus_rx) by reflexivity.
  set (d0 := emit_if (read_len <? 4) (WarnShortRead read_len) d).
  assert (Hq0 : tx_queue d0 = tx_queue d)
    by (unfold d0; rewrite emit_if_field by reflexivity; reflexivity).
  assert (Hfail : forall (d' : wfx_dev) (e c : Z),
             tx_queue d' = tx_queue d ->
             (length (bus_rx d') <= length (bus_rx d))%nat ->
             0 < e ->
             tx_queue (fst (fst (d', - e, c))) = tx_queue d /\
             (length (bus_rx (fst (fst (d', - e, c)))) <= length (bus_rx d))%nat /\
             (0 <= snd (fst (d', - e, c)) ->
              S (length (bus_rx (fst (fst (d', - e, c))))) = length (bus_rx d))).
  { intros d' e c Hq Hl He. simpl. split; [exact Hq|]. split; [exact Hl|]. lia. }
  destruct (bus_rx d) as [|[| |buf] rest] eqn:Hbus.
  - apply Hfail; [exact Hq0 | | unfold EIO; lia].
    simpl. unfold d0. rewrite (emit_if_field bus_rx) by reflexivity. rewrite Hbus. simpl. lia.
  - apply Hfail; [exact Hq0 | simpl; lia | unfold ENOMEM; lia].
  - apply Hfail; [exact Hq0 | simpl; lia | unfold EIO; lia].
  - set (d1 := emit_if _ WarnUnsupportedEncryption _).
    assert (Hq1 : tx_queue d1 = tx_queue d)
      by (unfold d1; rewrite emit_if_field by reflexivity; simpl; exact Hq0).
    assert (Hb1 : bus_rx d1 = rest)
      by (unfold d1; rewrite emit_if_field by reflexivity; reflexivity).
    destruct (rx_decode (rx_wsm buf)) as [[wsm computed]|].
    + destruct (negb (computed =? read_len)).
      * apply Hfail; [exact Hq1 | simpl; rewrite Hb1; simpl; lia | unfold EIO; lia].
      * destruct (rx_check_seqnum_frame wsm d1) as (Hq2 & Hb2).
        destruct (rx_release_frame wsm (rx_check_seqnum wsm d1) is_cnf) as (Hq3 & Hb3).
        destruct (rx_release wsm (rx_check_seqnum wsm d1) is_cnf) as [d3 c3].
        simpl in *. rewrite Hq3, Hq2, Hq1, Hb3, Hb2, Hb1.
        split; [reflexivity|]. split; [lia | reflexivity].
    + apply Hfail; [exact Hq1 | rewrite Hb1; simpl; lia | unfold EIO; lia].
Qed.

Lemma rx_next_ctrl_frame d piggyback :
  tx_queue (fst (rx_next_ctrl d piggyback)) = tx_queue d /\
  bus_rx (fst (rx_next_ctrl d piggyback)) = bus_rx d.
Proof.
  unfold rx_next_ctrl, try_wait_for_completion.
  destruct (negb (Z.land piggyback CTRL_NEXT_LEN_MASK =? 0)); simpl; [auto|].
  destruct (ctrl_ready d); simpl; auto.
Qed.

Lemma bh_work_rx_loop_consumes n :
  forall d i piggyback num_cnf,
    let r := bh_work_rx_loop n d i piggyback num_cnf in
    i <= exit_count (snd (fst r)) /\
    Z.of_nat (length (bus_rx (fst (fst r)))) + (exit_count (snd (fst r)) - i)
      <= Z.of_nat (length (bus_rx d)) /\
    tx_queue (fst (fst r)) = tx_queue d.
Proof.
  induction n as [|n IH]; intros d i piggyback num_cnf r; unfold r.
  - simpl. repeat split; lia.
  - rewrite bh_work_rx_loop_step. cbv zeta.
    destruct (rx_next_ctrl_frame d piggyback) as (Hq0 & Hb0).
    destruct (Z.land (snd (rx_next_ctrl d piggyback)) CTRL_NEXT_LEN_MASK =? 0).
    + simpl. rewrite Hq0, Hb0. repeat split; lia.
    + set (d0 := fst (rx_next_ctrl d piggyback)) in *.
      set (ctrl := snd (rx_next_ctrl d piggyback)).
      destruct (rx_helper_consumes d0 (rx_len ctrl) num_cnf) as (Hq1 & Hle & Hok).
      destruct (snd (fst (rx_helper d0 (rx_len ctrl) num_cnf)) <? 0) eqn:Hneg.
      * simpl. rewrite Hq1, Hq0. rewrite <- Hb0. repeat split; lia.
      * apply Z.ltb_ge in Hneg. specialize (Hok Hneg).
        match goal with
        | |- context [bh_work_rx_loop n ?d1 ?i1 ?p1 ?c1] =>
            specialize (IH d1 i1 p1 c1); cbv zeta in IH;
            destruct IH as (Hi & Hl & Hq);
            assert (Hb2 : bus_rx d1 = bus_rx (fst (fst (rx_helper d0 (rx_len ctrl) num_cnf))))
              by (rewrite emit_if_field by reflexivity; reflexivity);
            assert (Hq2 : tx_queue d1 = tx_queue (fst (fst (rx_helper d0 (rx_len ctrl) num_cnf))))
              by (rewrite emit_if_field by reflexivity; reflexivity)
        end.
        rewrite Hb2 in Hl. rewrite Hq2, Hq1, Hq0 in Hq. rewrite <- Hb0.
        repeat split; [lia | lia | exact Hq].
Qed.

Lemma bh_work_rx_consumes d max_msg num_cnf :
  let r := bh_work_rx d max_msg num_cnf in
  0 <= snd (fst r) /\
  Z.of_nat (length (bus_rx (fst (fst r)))) + snd (fst r) <= Z.of_nat (length (bus_rx d)) /\
  tx_queue (fst (fst r)) = tx_queue d.
Proof.
  unfold bh_work_rx.
  pose proof (bh_work_rx_loop_consumes (Z.to_nat max_msg) d 0 0 num_cnf) as H.
  cbv zeta in H.
  destruct (bh_work_rx_loop (Z.to_nat max_msg) d 0 0 num_cnf) as [[d1 e] c].
  simpl in *. destruct H as (Hi & Hl & Hq).
  assert (He : bus_rx (bh_work_rx_end d1 e) = bus_rx d1 /\
               tx_queue (bh_work_rx_end d1 e) = tx_queue d1).
  { unfold bh_work_rx_end, rx_relatch. destruct e as [i p | i p]; [auto|].
    destruct (negb (Z.land p CTRL_NEXT_LEN_MASK =? 0)); [|auto].
    split; rewrite emit_if_field by reflexivity; reflexivity. }
  destruct He as (Hb & Hq'). rewrite Hb, Hq'. repeat split; [lia | lia | exact Hq].
Qed.

Lemma bh_work_loop_enough_fuel fuel :
  forall d s,
    (length (tx_queue d) + length (bus_rx d) < fuel)%nat ->
    bh_work_loop fuel d s <> OutOfFuel.
Proof.
  induction fuel as [|fuel IH]; intros d s Hlt; [lia|].
  simpl. unfold bh_work_tx.
  pose proof (bh_work_tx_loop_consumes (Z.to_nat 32) d 0) as Htx.
  destruct (bh_work_tx_loop (Z.to_nat 32) d 0) as [[d1 num_tx]| |];
    simpl; [|discriminate|contradiction].
  destruct Htx as (Hn & Hl & Hb).
  destruct (bh_work_rx_consumes d1 32 (stats_cnf s)) as (Hr0 & Hrl & Hrq).
  destruct (bh_work_rx d1 32 (stats_cnf s)) as [[d2 num_rx] cnf]. simpl in *.
  destruct (negb (num_rx =? 0) || negb (num_tx =? 0)) eqn:Hgo; [|discriminate].
  apply IH.
  rewrite orb_true_iff, !negb_true_iff, !Z.eqb_neq in Hgo.
  rewrite Hrq. rewrite Hb in Hrl. lia.
Qed.

(** [bh_work] returns, or stops on a [BUG_ON] of [tx_helper]. *)
Lemma bh_work_returns d : bh_work d <> OutOfFuel.
Proof.
  unfold bh_work.
  pose proof (@bh_work_loop_enough_fuel (bh_work_fuel (device_wakeup d)) (device_wakeup d)
                (BhStats 0 0 0 false 0 0)) as H.
  destruct (bh_work_loop _ _ _) as [[d1 s]| |]; simpl; try discriminate.
  exfalso. apply H; [unfold bh_work_fuel; lia | reflexivity].
Qed.

End Termination.

(** ** The transmit pump *)

Section TransmitPump.

Context {K : hif_consts} {B : hwbus_ops} {SL : secure_link}.

Lemma pump_frame_refl d : pump_frame d d.
Proof. unfold pump_frame; repeat split; reflexivity. Qed.

Lemma pump_frame_trans d1 d2 d3 :
  pump_frame d1 d2 -> pump_frame d2 d3 -> pump_frame d1 d3.
Proof. unfold pump_frame; intuition congruence. Qed.

Lemma pump_frame_emit_if c e d : pump_frame d (emit_if c e d).
Proof. unfold pump_frame, emit_if; destruct c; repeat split; reflexivity. Qed.

Lemma tx_helper_pump_frame d data len d' :
  tx_helper d data len = Done d' -> pump_frame d d'.
Proof.
  unfold tx_helper.
  destruct (len <? sizeof_wmsg); [discriminate|].
  destruct (negb (wmsg_len data =? len)); [discriminate|].
  unfold tx_pop_env, tx_write.
  destruct (bus_tx _) as [|e rest]; simpl;
    destruct (wfx_is_secure_command _); simpl;
    try destruct (kmalloc_ok _); simpl;
    try destruct (wfx_sl_encode _); simpl;
    try destruct (data_write_ok _); simpl;
    intros H; injection H as <-; unfold pump_frame; repeat split; reflexivity.
Qed.

(** X1. [tx_helper] stops on a [BUG_ON] exactly when the length handed in is
    below the size of the header or differs from the length field of the
    message; any other call returns. *)
Theorem tx_helper_bug_iff d data len :
  tx_helper d data len = Bug <-> len < sizeof_wmsg \/ wmsg_len data <> len.
Proof.
  split.
  - intros H.
    destruct (Z_lt_le_dec len sizeof_wmsg) as [Hl | Hl]; [left; exact Hl|].
    destruct (Z.eq_dec (wmsg_len data) len) as [He | He]; [|right; exact He].
    destruct (tx_helper_done d data Hl He) as (d' & Hd & _). congruence.
  - unfold tx_helper. intros [H | H].
    + apply Z.ltb_lt in H. rewrite H. reflexivity.
    + destruct (len <? sizeof_wmsg); [reflexivity|].
      apply Z.eqb_neq in H. rewrite H. reflexivity.
Qed.

Lemma bh_work_tx_loop_S n d i :
  bh_work_tx_loop (S n) d i =
  if tx_buffers_used d <? NumInpChBufs d then
    match tx_queue d with
    | [] => Done (d, i)
    | it :: rest =>
        d1 <- tx_helper (set_tx_queue rest d) (tx_data it) (tx_len it) ;;
        bh_work_tx_loop n d1 (i + 1)
    end
  else Done (d, i).
Proof.
  simpl. unfold wsm_get_tx.
  destruct (tx_buffers_used d <? NumInpChBufs d); [|reflexivity].
  destruct (tx_queue d); reflexivity.
Qed.

(** X2. The transmit pump sends nothing and leaves the device as it is
    exactly when it is asked for no message, the outbound queue is empty, or
    the chip has no free input buffer ([tx_buffers_used >= NumInpChBufs]). *)
Theorem bh_work_tx_nothing_iff d max_msg :
  bh_work_tx d max_msg = Done (d, 0) <->
  max_msg <= 0 \/ tx_queue d = [] \/ NumInpChBufs d <= tx_buffers_used d.
Proof.
  unfold bh_work_tx. split.
  - intros H.
    destruct (Z_le_gt_dec max_msg 0) as [Hm | Hm]; [left; exact Hm|].
    destruct (Z.to_nat max_msg) as [|n] eqn:Hn; [lia|].
    rewrite bh_work_tx_loop_S in H.
    destruct (tx_buffers_used d <? NumInpChBufs d) eqn:Hc;
      [|right; right; apply Z.ltb_ge; exact Hc].
    destruct (tx_queue d) as [|it rest]; [right; left; reflexivity|].
    exfalso.
    destruct (tx_helper (set_tx_queue rest d) (tx_data it) (tx_len it)) as [d1| |];
      simpl in H; try discriminate.
    pose proof (bh_work_tx_loop_consumes n d1 (0 + 1)) as Hc'.
    change (0 + 1) with 1 in *. rewrite H in Hc'. lia.
  - intros [H | [H | H]].
    + replace (Z.to_nat max_msg) with O by lia. reflexivity.
    + apply bh_work_tx_loop_empty; exact H.
    + destruct (Z.to_nat max_msg); [reflexivity|].
      rewrite bh_work_tx_loop_S. apply Z.ltb_ge in H. rewrite H. reflexivity.
Qed.

(** What one run of the loop does, for any number of iterations. *)
Lemma bh_work_tx_loop_run n :
  forall d i d' i',
    bh_work_tx_loop n d i = Done (d', i') ->
    exists popped fs,
      tx_queue d = popped ++ tx_queue d' /\
      i' = i + Z.of_nat (length popped) /\
      (length popped <= n)%nat /\
      wire d' = wire d ++ fs /\
      sent_from fs popped /\
      pump_frame d d'.
Proof.
  assert (Hstop : forall m d i d' i',
             Done (d, i) = Done (d', i') ->
             exists popped fs,
               tx_queue d = popped ++ tx_queue d' /\
               i' = i + Z.of_nat (length popped) /\
               (length popped <= m)%nat /\
               wire d' = wire d ++ fs /\
               sent_from fs popped /\
               pump_frame d d').
  { intros m d i d' i' E. injection E as <- <-.
    exists [], []. rewrite app_nil_r. simpl.
    split; [reflexivity|]. split; [lia|]. split; [lia|]. split; [reflexivity|].
    split; [constructor | apply pump_frame_refl]. }
  induction n as [|n IH]; intros d i d' i' H.
  - simpl in H. exact (Hstop _ _ _ _ _ H).
  - rewrite bh_work_tx_loop_S in H.
    destruct (tx_buffers_used d <? NumInpChBufs d); [|exact (Hstop _ _ _ _ _ H)].
    destruct (tx_queue d) as [|it rest] eqn:Hq;
      [rewrite <- Hq; exact (Hstop _ _ _ _ _ H)|].
    destruct (tx_helper (set_tx_queue rest d) (tx_data it) (tx_len it)) as [d1| |] eqn:Hh;
      simpl in H; try discriminate.
    destruct (tx_helper_inv _ _ _ Hh) as (H1 & H2).
    destruct (tx_helper_done (set_tx_queue rest d) (tx_data it) H1 H2)
      as (d1' & Hd & _ & Hq1 & _ & _ & Hw).
    assert (d1' = d1) by congruence. subst d1'.
    pose proof (tx_helper_pump_frame _ _ _ Hh) as Hf1.
    destruct (IH d1 (i + 1) d' i' H) as (popped & fs & Hq' & Hi & Hlen & Hwire & Hsent & Hf).
    simpl in Hq1, Hw.
    assert (Hfr : pump_frame d d').
    { eapply pump_frame_trans; [|exact Hf].
      eapply pump_frame_trans; [|exact Hf1].
      unfold pump_frame; simpl. tauto. }
    exists (it :: popped).
    destruct (tx_written _ _).
    + destruct Hw as ((l & enc & Hw) & _).
      exists (Frame (set_seqnum (tx_data it) (tx_seqnum d)) l enc :: fs).
      split; [simpl; rewrite <- Hq', Hq1; reflexivity|].
      split; [simpl length; lia|]. split; [simpl; lia|].
      split; [rewrite Hwire, Hw, <- app_assoc; reflexivity|].
      split; [|exact Hfr].
      apply sent_cons; [eexists; reflexivity | exact Hsent].
    + destruct Hw as (Hw & _).
      exists fs.
      split; [simpl; rewrite <- Hq', Hq1; reflexivity|].
      split; [simpl length; lia|]. split; [simpl; lia|].
      split; [rewrite Hwire, Hw; reflexivity|].
      split; [|exact Hfr].
      apply sent_skip; exact Hsent.
Qed.

(** X3. The transmit pump takes messages from the head of the outbound queue
    only: the value it returns is the number it took, at most [max_msg]; the
    frames it adds to the wire are messages it took, stamped, in the order of
    the queue; and it leaves the wake-up line, the pending flag of the work
    and the capabilities alone. *)
Theorem bh_work_tx_fifo d max_msg d' n :
  bh_work_tx d max_msg = Done (d', n) ->
  exists popped fs,
    tx_queue d = popped ++ tx_queue d' /\
    n = Z.of_nat (length popped) /\
    0 <= n <= Z.max 0 max_msg /\
    wire d' = wire d ++ fs /\
    sent_from fs popped /\
    pump_frame d d'.
Proof.
  unfold bh_work_tx. intros H.
  destruct (bh_work_tx_loop_run _ _ _ H) as (popped & fs & Hq & Hn & Hl & Hw & Hs & Hf).
  exists popped, fs.
  split; [exact Hq|]. split; [lia|]. split; [lia|]. split; [exact Hw|].
  split; [exact Hs | exact Hf].
Qed.

Lemma bh_work_tx_loop_credit n :
  forall d i d' i',
    - 2 ^ 31 <= tx_buffers_used d ->
    NumInpChBufs d < 2 ^ 31 ->
    bh_work_tx_loop n d i = Done (d', i') ->
    tx_buffers_used d' <= Z.max (tx_buffers_used d) (NumInpChBufs d) /\
    tx_buffers_used d' - tx_buffers_used d
      = Z.of_nat (length (wire d')) - Z.of_nat (length (wire d)) /\
    0 <= tx_buffers_used d' - tx_buffers_used d <= i' - i.
Proof.
  induction n as [|n IH]; intros d i d' i' Hlo Hcap H.
  - simpl in H. injection H as <- <-. lia.
  - rewrite bh_work_tx_loop_S in H.
    destruct (tx_buffers_used d <? NumInpChBufs d) eqn:Hc;
      [|injection H as <- <-; lia].
    destruct (tx_queue d) as [|it rest] eqn:Hq; [injection H as <- <-; lia|].
    destruct (tx_helper (set_tx_queue rest d) (tx_data it) (tx_len it)) as [d1| |] eqn:Hh;
      simpl in H; try discriminate.
    apply Z.ltb_lt in Hc.
    destruct (tx_helper_inv _ _ _ Hh) as (H1 & H2).
    destruct (tx_helper_done (set_tx_queue rest d) (tx_data it) H1 H2)
      as (d1' & Hd & _ & _ & _ & _ & Hw).
    assert (d1' = d1) by congruence. subst d1'.
    destruct (tx_helper_pump_frame _ _ _ Hh) as (_ & _ & Hcap1 & _).
    simpl in Hw, Hcap1.
    assert (Hstep : tx_buffers_used d <= tx_buffers_used d1 <= tx_buffers_used d + 1 /\
                    tx_buffers_used d1 <= NumInpChBufs d /\
                    tx_buffers_used d1 - tx_buffers_used d
                      = Z.of_nat (length (wire d1)) - Z.of_nat (length (wire d))).
    { destruct (tx_written _ _).
      - destruct Hw as ((l & enc & Hw) & Hu).
        rewrite wrap_int_id in Hu by lia.
        rewrite Hw, length_app. simpl length. lia.
      - destruct Hw as (Hw & Hu). rewrite Hw, Hu. lia. }
    destruct (IH d1 (i + 1) d' i' ltac:(lia) ltac:(lia) H) as (Hmax & Hwire & Hcnt).
    rewrite Hcap1 in Hmax. lia.
Qed.

(** X4. When the counter of buffers in use starts within the capacity
    [NumInpChBufs], the transmit pump keeps it there: the counter never
    decreases, grows by exactly one for each frame written to the bus, and
    never exceeds the capacity. *)
Theorem bh_work_tx_credit d max_msg d' n :
  - 2 ^ 31 <= tx_buffers_used d ->
  tx_buffers_used d <= NumInpChBufs d ->
  NumInpChBufs d < 2 ^ 31 ->
  bh_work_tx d max_msg = Done (d', n) ->
  tx_buffers_used d <= tx_buffers_used d' <= NumInpChBufs d' /\
  tx_buffers_used d' - tx_buffers_used d
    = Z.of_nat (length (wire d')) - Z.of_nat (length (wire d)) /\
  tx_buffers_used d' - tx_buffers_used d <= n.
Proof.
  unfold bh_work_tx. intros Hlo Hle Hcap H.
  destruct (bh_work_tx_loop_credit _ _ _ Hlo Hcap H) as (Hmax & Hw & Hc).
  destruct (bh_work_tx_loop_run _ _ _ H) as (_ & _ & _ & _ & _ & _ & _ & (_ & _ & Hn & _)).
  rewrite Hn. lia.
Qed.

Lemma bh_work_tx_loop_seqnum n :
  forall d i d' i',
    0 <= WMSG_COUNTER_MAX < 2 ^ 31 - 1 ->
    0 <= tx_seqnum d <= WMSG_COUNTER_MAX ->
    bh_work_tx_loop n d i = Done (d', i') ->
    tx_seqnum d' = (tx_seqnum d + (i' - i)) mod (WMSG_COUNTER_MAX + 1).
Proof.
  induction n as [|n IH]; intros d i d' i' HN Ht H.
  - simpl in H. injection H as <- <-.
    replace (i - i) with 0 by lia. rewrite Z.add_0_r.
    symmetry; apply Z.mod_small; lia.
  - rewrite bh_work_tx_loop_S in H.
    assert (Hstop : Done (d, i) = Done (d', i') ->
                    tx_seqnum d' = (tx_seqnum d + (i' - i)) mod (WMSG_COUNTER_MAX + 1)).
    { intros E. injection E as <- <-.
      replace (i - i) with 0 by lia. rewrite Z.add_0_r.
      symmetry; apply Z.mod_small; lia. }
    destruct (tx_buffers_used d <? NumInpChBufs d); [|exact (Hstop H)].
    destruct (tx_queue d) as [|it rest] eqn:Hq; [exact (Hstop H)|].
    destruct (tx_helper (set_tx_queue rest d) (tx_data it) (tx_len it)) as [d1| |] eqn:Hh;
      simpl in H; try discriminate.
    destruct (tx_helper_inv _ _ _ Hh) as (H1 & H2).
    destruct (tx_helper_done (set_tx_queue rest d) (tx_data it) H1 H2)
      as (d1' & Hd & Hs & _).
    assert (d1' = d1) by congruence. subst d1'.
    simpl in Hs.
    rewrite wrap_int_id in Hs by lia.
    rewrite Z.rem_mod_nonneg in Hs by lia.
    assert (HM : 0 < WMSG_COUNTER_MAX + 1) by lia.
    pose proof (Z.mod_pos_bound (tx_seqnum d + 1) _ HM) as Hr.
    rewrite <- Hs in Hr.
    pose proof (bh_work_tx_loop_consumes n d1 (i + 1)) as Hmono.
    rewrite H in Hmono.
    rewrite (IH d1 (i + 1) d' i' HN ltac:(lia) H), Hs.
    rewrite Z.add_mod_idemp_l by lia. f_equal. lia.
Qed.

(** X5. The transmit pump advances [tx_seqnum] by exactly the number of
    messages it took from the queue, modulo WMSG_COUNTER_MAX + 1, and the
    counter stays between 0 and WMSG_COUNTER_MAX. *)
Theorem bh_work_tx_seqnum d max_msg d' n :
  0 <= WMSG_COUNTER_MAX < 2 ^ 31 - 1 ->
  0 <= tx_seqnum d <= WMSG_COUNTER_MAX ->
  bh_work_tx d max_msg = Done (d', n) ->
  tx_seqnum d' = (tx_seqnum d + n) mod (WMSG_COUNTER_MAX + 1) /\
  0 <= tx_seqnum d' <= WMSG_COUNTER_MAX.
Proof.
  unfold bh_work_tx. intros HN Ht H.
  pose proof (bh_work_tx_loop_seqnum _ _ _ HN Ht H) as Hs.
  replace (n - 0) with n in Hs by lia.
  split; [exact Hs|].
  assert (HM : 0 < WMSG_COUNTER_MAX + 1) by lia.
  pose proof (Z.mod_pos_bound (tx_seqnum d + n) _ HM). lia.
Qed.

End TransmitPump.

(** ** Outcomes of the receive helper *)

Section ReceiveOutcomes.

Context {K : hif_consts} {B : hwbus_ops} {SL : secure_link}.

Lemma rx_helper_unfold d read_len is_cnf :
  rx_helper d read_len is_cnf =
  let d0 := emit_if (read_len <? 4) (WarnShortRead read_len) d in
  match bus_rx d with
  | [] => (emit (DataRead (align_size (wrap_size (read_len + 2)))) d0, - EIO, is_cnf)
  | RxNoMem :: rest => (set_bus_rx rest d0, - ENOMEM, is_cnf)
  | RxReadFail :: rest =>
      (emit (DataRead (align_size (wrap_size (read_len + 2)))) (set_bus_rx rest d0),
       - EIO, is_cnf)
  | RxData buf :: rest =>
      match rx_decode (rx_wsm buf) with
      | None => (rx_read_state d read_len buf rest, - EIO, is_cnf)
      | Some (wsm, computed) =>
          if computed =? read_len then
            (emit (HandleRx wsm)
               (fst (rx_release wsm
                       (rx_check_seqnum wsm (rx_read_state d read_len buf rest)) is_cnf)),
             rx_piggyback buf,
             snd (rx_release wsm
                    (rx_check_seqnum wsm (rx_read_state d read_len buf rest)) is_cnf))
          else
            (emit (ErrInconsistentLength computed read_len)
               (rx_read_state d read_len buf rest), - EIO, is_cnf)
      end
  end.
Proof.
  destruct (bus_rx d) as [|[| |buf] rest] eqn:Hbus.
  - unfold rx_helper. rewrite (emit_if_field bus_rx) by reflexivity. rewrite Hbus. reflexivity.
  - unfold rx_helper. rewrite (emit_if_field bus_rx) by reflexivity. rewrite Hbus. reflexivity.
  - unfold rx_helper. rewrite (emit_if_field bus_rx) by reflexivity. rewrite Hbus. reflexivity.
  - destruct (rx_decode (rx_wsm buf)) as [[wsm computed]|] eqn:Hdec.
    + destruct (computed =? read_len) eqn:Hc.
      * apply Z.eqb_eq in Hc. subst computed.
        apply (rx_helper_match d is_cnf Hbus Hdec).
      * apply Z.eqb_neq in Hc. apply (rx_helper_mismatch d is_cnf Hbus Hdec Hc).
    + unfold rx_helper. rewrite (emit_if_field bus_rx) by reflexivity.
      rewrite Hbus, Hdec. reflexivity.
Qed.

Lemma handled_emit e d :
  handled (emit e d) = handled d + (if is_handle_rx e then 1 else 0).
Proof.
  unfold handled, emit; simpl. rewrite filter_app, length_app. simpl.
  destruct (is_handle_rx e); simpl; lia.
Qed.

Lemma handled_emit_if c e d :
  is_handle_rx e = false -> handled (emit_if c e d) = handled d.
Proof.
  intros He. unfold emit_if. destruct c; [|reflexivity].
  rewrite handled_emit, He. lia.
Qed.

Lemma handled_rx_read_state d read_len buf rest :
  handled (rx_read_state d read_len buf rest) = handled d.
Proof.
  unfold rx_read_state.
  rewrite handled_emit_if by reflexivity. rewrite handled_emit. simpl.
  change (handled (set_bus_rx rest ?x)) with (handled x).
  rewrite handled_emit_if by reflexivity. lia.
Qed.

Lemma handled_rx_check_seqnum wsm d : handled (rx_check_seqnum wsm d) = handled d.
Proof.
  rewrite rx_check_seqnum_unfold. destruct (seq_exempt wsm); [reflexivity|].
  change (handled (set_rx_seqnum ?v ?x)) with (handled x).
  apply handled_emit_if; reflexivity.
Qed.

Lemma handled_rx_release wsm d is_cnf :
  handled (fst (rx_release wsm d is_cnf)) = handled d.
Proof.
  rewrite rx_release_unfold. destruct (is_confirmation wsm); [|reflexivity]. simpl.
  rewrite handled_emit_if by reflexivity.
  change (handled (set_tx_buffers_used ?v ?x)) with (handled x).
  apply handled_emit_if; reflexivity.
Qed.

Lemma rx_read_state_pump_frame d read_len buf rest :
  pump_frame d (rx_read_state d read_len buf rest).
Proof.
  unfold rx_read_state, pump_frame.
  repeat split; rewrite emit_if_field by reflexivity; simpl;
    rewrite emit_if_field by reflexivity; reflexivity.
Qed.

Lemma rx_check_seqnum_pump_frame wsm d : pump_frame d (rx_check_seqnum wsm d).
Proof.
  rewrite rx_check_seqnum_unfold. destruct (seq_exempt wsm); [apply pump_frame_refl|].
  unfold pump_frame. repeat split; simpl; rewrite emit_if_field by reflexivity; reflexivity.
Qed.

Lemma rx_release_pump_frame wsm d is_cnf : pump_frame d (fst (rx_release wsm d is_cnf)).
Proof.
  rewrite rx_release_unfold. destruct (is_confirmation wsm); [|apply pump_frame_refl].
  unfold pump_frame. simpl.
  repeat split; rewrite emit_if_field by reflexivity; simpl;
    rewrite emit_if_field by reflexivity; reflexivity.
Qed.

(** The two ways a call of [rx_helper] ends. *)
Lemma rx_helper_outcome d read_len is_cnf :
  rx_script_wf d ->
  let r := rx_helper d read_len is_cnf in
  rx_script_wf (fst (fst r)) /\
  pump_frame d (fst (fst r)) /\
  ((snd (fst r) = - ENOMEM \/ snd (fst r) = - EIO) /\
   tx_buffers_used (fst (fst r)) = tx_buffers_used d /\
   rx_seqnum (fst (fst r)) = rx_seqnum d /\
   tx_seqnum (fst (fst r)) = tx_seqnum d /\
   snd r = is_cnf /\
   handled (fst (fst r)) = handled d
   \/
   0 <= snd (fst r) /\
   handled (fst (fst r)) = handled d + 1).
Proof.
  intros Hwf r. unfold r. rewrite rx_helper_unfold. cbv zeta.
  set (d0 := emit_if (read_len <? 4) (WarnShortRead read_len) d).
  assert (Hf0 : pump_frame d d0) by apply pump_frame_emit_if.
  assert (Hh0 : handled d0 = handled d) by (apply handled_emit_if; reflexivity).
  assert (Hc0 : tx_buffers_used d0 = tx_buffers_used d /\ rx_seqnum d0 = rx_seqnum d /\
                tx_seqnum d0 = tx_seqnum d)
    by (unfold d0; repeat split; rewrite emit_if_field by reflexivity; reflexivity).
  destruct Hc0 as (Hu0 & Hr0 & Ht0).
  unfold rx_script_wf in *.
  destruct (bus_rx d) as [|[| |buf] rest] eqn:Hbus; simpl.
  - split; [unfold d0; rewrite (emit_if_field bus_rx) by reflexivity; rewrite Hbus; constructor|].
    split; [exact Hf0|]. left.
    rewrite handled_emit. simpl. repeat split; auto; lia.
  - split; [apply Forall_inv_tail in Hwf; exact Hwf|].
    split; [exact Hf0|]. left.
    change (handled (set_bus_rx rest d0)) with (handled d0).
    repeat split; auto.
  - split; [apply Forall_inv_tail in Hwf; exact Hwf|].
    split; [exact Hf0|]. left.
    rewrite handled_emit. simpl.
    change (handled (set_bus_rx rest d0)) with (handled d0).
    repeat split; auto; lia.
  - destruct (rx_read_state_fields d read_len buf rest) as (Hr1 & Ht1 & Hu1 & _ & _ & Hb1).
    pose proof (rx_read_state_pump_frame d read_len buf rest) as Hf1.
    pose proof (handled_rx_read_state d read_len buf rest) as Hh1.
    pose proof (Forall_inv_tail Hwf) as Hwf'.
    pose proof (Forall_inv Hwf) as Hpb. simpl in Hpb.
    destruct (rx_decode (rx_wsm buf)) as [[wsm computed]|]; simpl.
    + destruct (computed =? read_len); simpl.
      * set (d1 := rx_read_state d read_len buf rest) in *.
        destruct (rx_check_seqnum_frame wsm d1) as (_ & Hb2).
        destruct (rx_release_frame wsm (rx_check_seqnum wsm d1) is_cnf) as (_ & Hb3).
        split; [rewrite Hb3, Hb2, Hb1; exact Hwf'|].
        split.
        { eapply pump_frame_trans; [exact Hf1|].
          eapply pump_frame_trans; [apply rx_check_seqnum_pump_frame|].
          apply rx_release_pump_frame. }
        right. split; [exact Hpb|].
        rewrite handled_emit, handled_rx_release, handled_rx_check_seqnum, Hh1.
        reflexivity.
      * split; [rewrite Hb1; exact Hwf'|]. split; [exact Hf1|]. left.
        rewrite handled_emit. simpl. rewrite Hh1.
        repeat split; auto; lia.
    + split; [rewrite Hb1; exact Hwf'|]. split; [exact Hf1|]. left.
      repeat split; auto.
Qed.

(** A call of [rx_helper] takes at most one entry from the script of the bus. *)
Lemma rx_helper_reads_once d read_len is_cnf :
  (length (bus_rx d) <= S (length (bus_rx (fst (fst (rx_helper d read_len is_cnf))))))%nat.
Proof.
  rewrite rx_helper_unfold. cbv zeta.
  destruct (bus_rx d) as [|[| |buf] rest] eqn:Hbus; simpl; try lia.
  destruct (rx_read_state_fields d read_len buf rest) as (_ & _ & _ & _ & _ & Hb1).
  destruct (rx_decode (rx_wsm buf)) as [[wsm computed]|]; simpl.
  - destruct (computed =? read_len); simpl.
    + destruct (rx_check_seqnum_frame wsm (rx_read_state d read_len buf rest)) as (_ & Hb2).
      destruct (rx_release_frame wsm
                  (rx_check_seqnum wsm (rx_read_state d read_len buf rest)) is_cnf)
        as (_ & Hb3).
      rewrite Hb3, Hb2, Hb1. lia.
    + rewrite Hb1. lia.
  - rewrite Hb1. lia.
Qed.

(** X6. [rx_helper] fails with -ENOMEM or -EIO only, and a call that fails
    (allocation, bus read, decryption or length check) leaves
    [tx_buffers_used], both sequence counters and the confirmation count as
    they were and hands nothing to [wsm_handle_rx]. *)
Theorem rx_helper_failure_clean d read_len is_cnf :
  rx_script_wf d ->
  let r := rx_helper d read_len is_cnf in
  snd (fst r) < 0 ->
  (snd (fst r) = - ENOMEM \/ snd (fst r) = - EIO) /\
  tx_buffers_used (fst (fst r)) = tx_buffers_used d /\
  rx_seqnum (fst (fst r)) = rx_seqnum d /\
  tx_seqnum (fst (fst r)) = tx_seqnum d /\
  snd r = is_cnf /\
  handled (fst (fst r)) = handled d.
Proof.
  intros Hwf r Hneg.
  destruct (@rx_helper_outcome d read_len is_cnf Hwf) as (_ & _ & [H | (H & _)]).
  - exact H.
  - fold r in H. lia.
Qed.

(** X7. An indication that passes the length check is handed to
    [wsm_handle_rx] without touching the credits: [tx_buffers_used] and the
    confirmation count stay as they were and no waiter is woken. *)
Theorem rx_indication_keeps_credits d read_len is_cnf buf rest wsm :
  bus_rx d = RxData buf :: rest ->
  rx_decode (rx_wsm buf) = Some (wsm, read_len) ->
  Z.land (id wsm) WMSG_ID_IS_INDICATION <> 0 ->
  let r := rx_helper d read_len is_cnf in
  snd (fst r) = rx_piggyback buf /\
  tx_buffers_used (fst (fst r)) = tx_buffers_used d /\
  snd r = is_cnf /\
  logged (HandleRx wsm) (fst (fst r)) /\
  (logged WakeUpTxBuffersEmpty (fst (fst r)) -> logged WakeUpTxBuffersEmpty d) /\
  (logged WarnCorruptedCounter (fst (fst r)) -> logged WarnCorruptedCounter d).
Proof.
  intros Hbus Hdec Hid r. unfold r.
  rewrite (rx_helper_match d is_cnf Hbus Hdec); simpl.
  destruct (rx_read_state_fields d read_len buf rest) as (_ & _ & Hu1 & _).
  destruct (rx_check_seqnum_fields wsm (rx_read_state d read_len buf rest))
    as (_ & _ & Hu2).
  destruct (rx_release_fields wsm
              (rx_check_seqnum wsm (rx_read_state d read_len buf rest)) is_cnf)
    as (_ & _ & Hu3 & Hc).
  assert (Hcnf : is_confirmation wsm = false)
    by (unfold is_confirmation; apply Z.eqb_neq; exact Hid).
  rewrite Hcnf in Hu3, Hc.
  change (tx_buffers_used (emit ?e ?x)) with (tx_buffers_used x).
  rewrite Hu3, Hu2, Hu1, Hc.
  split; [reflexivity|]. split; [reflexivity|]. split; [reflexivity|].
  split; [apply logged_emit; left; reflexivity|].
  split; rewrite logged_emit, logged_rx_release, logged_rx_check_seqnum,
           logged_rx_read_state; rewrite Hcnf;
    intuition (try discriminate; try congruence).
Qed.

(** X8. After a confirmation that passes the length check,
    [wake_up(&tx_buffers_empty)] has been called exactly when the counter of
    buffers in use has become zero. *)
Theorem rx_wake_up_iff_zero d read_len is_cnf buf rest wsm :
  bus_rx d = RxData buf :: rest ->
  rx_decode (rx_wsm buf) = Some (wsm, read_len) ->
  Z.land (id wsm) WMSG_ID_IS_INDICATION = 0 ->
  let d' := fst (fst (rx_helper d read_len is_cnf)) in
  logged WakeUpTxBuffersEmpty d' <->
  tx_buffers_used d' = 0 \/ logged WakeUpTxBuffersEmpty d.
Proof.
  intros Hbus Hdec Hid d'. unfold d'.
  rewrite (rx_helper_match d is_cnf Hbus Hdec); simpl.
  destruct (rx_read_state_fields d read_len buf rest) as (_ & _ & Hu1 & _).
  destruct (rx_check_seqnum_fields wsm (rx_read_state d read_len buf rest))
    as (_ & _ & Hu2).
  destruct (rx_release_fields wsm
              (rx_check_seqnum wsm (rx_read_state d read_len buf rest)) is_cnf)
    as (_ & _ & Hu3 & _).
  assert (Hcnf : is_confirmation wsm = true)
    by (unfold is_confirmation; apply Z.eqb_eq; exact Hid).
  rewrite Hcnf in Hu3. rewrite Hu2, Hu1 in Hu3.
  change (tx_buffers_used (emit ?e ?x)) with (tx_buffers_used x).
  rewrite Hu3.
  rewrite logged_emit, logged_rx_release, logged_rx_check_seqnum, logged_rx_read_state.
  rewrite Hu2, Hu1, Hcnf.
  intuition (try discriminate; try congruence).
Qed.

Lemma rx_next_ctrl_pump_frame d piggyback :
  pump_frame d (fst (rx_next_ctrl d piggyback)) /\
  klog (fst (rx_next_ctrl d piggyback)) = klog d.
Proof.
  unfold rx_next_ctrl, try_wait_for_completion, pump_frame.
  destruct (negb (Z.land piggyback CTRL_NEXT_LEN_MASK =? 0)); simpl; [tauto|].
  destruct (ctrl_ready d); simpl; tauto.
Qed.

Lemma bh_work_rx_loop_run n :
  forall d i piggyback num_cnf,
    rx_script_wf d ->
    let r := bh_work_rx_loop n d i piggyback num_cnf in
    rx_script_wf (fst (fst r)) /\
    pump_frame d (fst (fst r)) /\
    i <= exit_count (snd (fst r)) <= i + Z.of_nat n /\
    handled (fst (fst r)) = handled d + (exit_count (snd (fst r)) - i) /\
    Z.of_nat (length (bus_rx d)) - Z.of_nat (length (bus_rx (fst (fst r))))
      <= exit_count (snd (fst r)) - i + 1.
Proof.
  induction n as [|n IH]; intros d i piggyback num_cnf Hwf r; unfold r.
  - simpl. split; [exact Hwf|]. split; [apply pump_frame_refl|]. lia.
  - rewrite bh_work_rx_loop_step. cbv zeta.
    destruct (rx_next_ctrl_frame d piggyback) as (_ & Hb0).
    destruct (rx_next_ctrl_pump_frame d piggyback) as (Hf0 & Hl0).
    set (d0 := fst (rx_next_ctrl d piggyback)) in *.
    set (ctrl := snd (rx_next_ctrl d piggyback)).
    assert (Hwf0 : rx_script_wf d0) by (unfold rx_script_wf; rewrite Hb0; exact Hwf).
    assert (Hh0 : handled d0 = handled d) by (unfold handled; rewrite Hl0; reflexivity).
    destruct (Z.land ctrl CTRL_NEXT_LEN_MASK =? 0).
    + simpl. split; [exact Hwf0|]. split; [exact Hf0|]. rewrite Hb0, Hh0. lia.
    + destruct (@rx_helper_outcome d0 (rx_len ctrl) num_cnf Hwf0) as (Hwf1 & Hf1 & Hcase).
      destruct (rx_helper_consumes d0 (rx_len ctrl) num_cnf) as (_ & Hle & Hok).
      pose proof (rx_helper_reads_once d0 (rx_len ctrl) num_cnf) as Honce.
      destruct (snd (fst (rx_helper d0 (rx_len ctrl) num_cnf)) <? 0) eqn:Hneg.
      * simpl. apply Z.ltb_lt in Hneg.
        destruct Hcase as [(_ & _ & _ & _ & _ & Hh) | (Hpos & _)]; [|lia].
        split; [exact Hwf1|]. split; [eapply pump_frame_trans; eassumption|].
        rewrite Hh, Hh0, <- Hb0. lia.
      * apply Z.ltb_ge in Hneg. specialize (Hok Hneg).
        destruct Hcase as [([E | E] & _) | (_ & Hh)];
          [rewrite E in Hneg; unfold ENOMEM in Hneg; lia
          |rewrite E in Hneg; unfold EIO in Hneg; lia|].
        match goal with
        | |- context [bh_work_rx_loop n ?d1 ?i1 ?p1 ?c1] =>
            assert (Hwf2 : rx_script_wf d1)
              by (unfold rx_script_wf; rewrite emit_if_field by reflexivity; exact Hwf1);
            assert (Hf2 : pump_frame (fst (fst (rx_helper d0 (rx_len ctrl) num_cnf))) d1)
              by apply pump_frame_emit_if;
            assert (Hh2 : handled d1 = handled (fst (fst (rx_helper d0 (rx_len ctrl) num_cnf))))
              by (apply handled_emit_if; reflexivity);
            assert (Hb2 : bus_rx d1 = bus_rx (fst (fst (rx_helper d0 (rx_len ctrl) num_cnf))))
              by (rewrite emit_if_field by reflexivity; reflexivity);
            destruct (IH d1 i1 p1 c1 Hwf2) as (Hwf3 & Hf3 & Hi & Hh3 & Hb3)
        end.
        split; [exact Hwf3|].
        split; [eapply pump_frame_trans; [exact Hf0|];
                eapply pump_frame_trans; [exact Hf1|];
                eapply pump_frame_trans; [exact Hf2 | exact Hf3]|].
        rewrite Hh3, Hh2, Hh, Hh0. rewrite Hb2 in Hb3. rewrite <- Hb0. lia.
Qed.

(** X9. The value the receive pump returns is the number of messages it has
    handed to [wsm_handle_rx]; it is at most [max_msg]; the pump reads the bus
    at most once more than that (the read that failed); and it leaves the
    wake-up line, the pending flag of the work and the capabilities alone. *)
Theorem bh_work_rx_accounting d max_msg num_cnf :
  rx_script_wf d ->
  let r := bh_work_rx d max_msg num_cnf in
  0 <= snd (fst r) <= Z.max 0 max_msg /\
  handled (fst (fst r)) = handled d + snd (fst r) /\
  snd (fst r) <= Z.of_nat (length (bus_rx d)) - Z.of_nat (length (bus_rx (fst (fst r))))
              <= snd (fst r) + 1 /\
  pump_frame d (fst (fst r)) /\
  rx_script_wf (fst (fst r)).
Proof.
  intros Hwf r.
  destruct (@bh_work_rx_loop_run (Z.to_nat max_msg) d 0 0 num_cnf Hwf)
    as (Hwf1 & Hf1 & Hi & Hh & Hb).
  destruct (bh_work_rx_loop_consumes (Z.to_nat max_msg) d 0 0 num_cnf) as (_ & Hlow & _).
  unfold r, bh_work_rx.
  destruct (bh_work_rx_loop (Z.to_nat max_msg) d 0 0 num_cnf) as [[d1 e] c].
  simpl in *.
  assert (He : bus_rx (bh_work_rx_end d1 e) = bus_rx d1 /\
               handled (bh_work_rx_end d1 e) = handled d1 /\
               pump_frame d1 (bh_work_rx_end d1 e)).
  { unfold bh_work_rx_end, rx_relatch. destruct e as [i p | i p];
      [split; [reflexivity|]; split; [reflexivity | apply pump_frame_refl]|].
    destruct (negb (Z.land p CTRL_NEXT_LEN_MASK =? 0));
      [|split; [reflexivity|]; split; [reflexivity | apply pump_frame_refl]].
    split; [rewrite emit_if_field by reflexivity; reflexivity|].
    split; [rewrite handled_emit_if by reflexivity; reflexivity|].
    eapply pump_frame_trans; [|apply pump_frame_emit_if].
    unfold pump_frame; simpl; tauto. }
  destruct He as (Hbe & Hhe & Hfe).
  rewrite Hbe, Hhe.
  split; [lia|]. split; [lia|]. split; [lia|].
  split; [eapply pump_frame_trans; eassumption|].
  unfold rx_script_wf. rewrite Hbe. exact Hwf1.
Qed.

End ReceiveOutcomes.

(** ** What the receive pump latches back *)

Section ReceiveRelatch.

Context {K : hif_consts} {B : hwbus_ops} {SL : secure_link}.





End ReceiveRelatch.

(** ** Whole runs of the worker *)

Section WorkerRuns.

Context {K : hif_consts} {B : hwbus_ops} {SL : secure_link}.

(** [device_wakeup] writes the wake-up line and the log only. *)
Lemma device_wakeup_shape d :
  device_wakeup d =
    set_klog (klog (device_wakeup d))
      (set_gpio_wakeup (option_map (fun _ => true) (gpio_wakeup d)) d).
Proof.
  unfold device_wakeup.
  destruct d as [g av nb sc wp cr creg rs ts used q brx btx cfg w lg].
  destruct g as [[|]|]; simpl; try reflexivity.
  unfold wfx_api_older_than; simpl. destruct av as [maj min].
  destruct ((maj <? 1) || (maj =? 1) && (min <? 4)); simpl; destruct cr; reflexivity.
Qed.

(** X10. [device_wakeup] changes nothing but the wake-up line and the log:
    a line that exists is high afterwards, and the completion [ctrl_ready] is
    left as it was found, also when the wait consumed it.  The error "timeout
    while wake up chip" is logged exactly when the line was low, the API is
    not older than 1.4 and no completion was there. *)
Theorem device_wakeup_only_wakes d :
  device_wakeup d =
    set_klog (klog (device_wakeup d))
      (set_gpio_wakeup (option_map (fun _ => true) (gpio_wakeup d)) d) /\
  (logged ErrWakeTimeout (device_wakeup d) <->
     (gpio_wakeup d = Some false /\ wfx_api_older_than d 1 4 = false /\
      ctrl_ready d = 0%nat) \/
     logged ErrWakeTimeout d).
Proof.
  unfold device_wakeup, logged.
  destruct d as [g av nb sc wp cr creg rs ts used q brx btx cfg w lg].
  destruct g as [[|]|]; simpl.
  - split; [reflexivity|]. intuition congruence.
  - unfold wfx_api_older_than; simpl. destruct av as [maj min].
    destruct ((maj <? 1) || (maj =? 1) && (min <? 4)); simpl.
    + destruct cr; simpl.
      * split; [reflexivity|]. rewrite in_app_iff; simpl.
        intuition congruence.
      * split; [reflexivity|]. intuition congruence.
    + destruct cr; simpl.
      * split; [reflexivity|]. rewrite in_app_iff; simpl. intuition congruence.
      * split; [reflexivity|]. intuition congruence.
  - split; [reflexivity|]. intuition congruence.
Qed.

(** X11. [device_wakeup] is idempotent: a second call finds the line high, or
    absent, and does nothing. *)
Theorem device_wakeup_idempotent d :
  device_wakeup (device_wakeup d) = device_wakeup d.
Proof.
  pose proof (device_wakeup_shape d) as H.
  rewrite H at 1. unfold device_wakeup at 1. simpl.
  destruct (gpio_wakeup d); simpl; symmetry; exact H.
Qed.

Lemma rx_helper_pump_frame d read_len is_cnf :
  pump_frame d (fst (fst (rx_helper d read_len is_cnf))).
Proof.
  rewrite rx_helper_unfold. cbv zeta.
  assert (Hf0 : pump_frame d (emit_if (read_len <? 4) (WarnShortRead read_len) d))
    by apply pump_frame_emit_if.
  pose proof (fun buf rest => rx_read_state_pump_frame d read_len buf rest) as Hf1.
  destruct (bus_rx d) as [|[| |buf] rest]; simpl; try exact Hf0.
  destruct (rx_decode (rx_wsm buf)) as [[wsm computed]|]; simpl; [|apply Hf1].
  destruct (computed =? read_len); simpl; [|apply Hf1].
  eapply pump_frame_trans; [apply Hf1|].
  eapply pump_frame_trans; [apply rx_check_seqnum_pump_frame|].
  apply rx_release_pump_frame.
Qed.

Lemma bh_work_rx_loop_pump_frame n :
  forall d i piggyback num_cnf,
    pump_frame d (fst (fst (bh_work_rx_loop n d i piggyback num_cnf))).
Proof.
  induction n as [|n IH]; intros d i piggyback num_cnf.
  - apply pump_frame_refl.
  - rewrite bh_work_rx_loop_step. cbv zeta.
    destruct (rx_next_ctrl_pump_frame d piggyback) as (Hf0 & _).
    destruct (Z.land _ CTRL_NEXT_LEN_MASK =? 0); [exact Hf0|].
    pose proof (rx_helper_pump_frame (fst (rx_next_ctrl d piggyback))
                  (rx_len (snd (rx_next_ctrl d piggyback))) num_cnf) as Hf1.
    destruct (_ <? 0); simpl.
    + eapply pump_frame_trans; eassumption.
    + eapply pump_frame_trans; [exact Hf0|].
      eapply pump_frame_trans; [exact Hf1|].
      eapply pump_frame_trans; [apply pump_frame_emit_if | apply IH].
Qed.

Lemma bh_work_rx_pump_frame d max_msg num_cnf :
  pump_frame d (fst (fst (bh_work_rx d max_msg num_cnf))).
Proof.
  unfold bh_work_rx.
  pose proof (bh_work_rx_loop_pump_frame (Z.to_nat max_msg) d 0 0 num_cnf) as H.
  destruct (bh_work_rx_loop (Z.to_nat max_msg) d 0 0 num_cnf) as [[d1 e] c]. simpl in *.
  eapply pump_frame_trans; [exact H|].
  unfold bh_work_rx_end, rx_relatch.
  destruct e as [i p | i p]; [apply pump_frame_refl|].
  destruct (negb (Z.land p CTRL_NEXT_LEN_MASK =? 0)); [|apply pump_frame_refl].
  eapply pump_frame_trans; [|apply pump_frame_emit_if].
  unfold pump_frame; simpl; tauto.
Qed.

Lemma bh_work_loop_S fuel d s :
  bh_work_loop (S fuel) d s =
  match bh_work_tx d 32 with
  | Done (d1, num_tx) =>
      let r := bh_work_rx d1 32 (stats_cnf s) in
      let s' := BhStats (wrap_int (stats_req s + num_tx)) (snd r)
                  (wrap_int (stats_ind s + snd (fst r)))
                  (if negb (snd (fst r) =? 0) then true
                   else if negb (num_tx =? 0) then false else last_op_is_rx s)
                  num_tx (snd (fst r)) in
      if negb (snd (fst r) =? 0) || negb (num_tx =? 0)
      then bh_work_loop fuel (fst (fst r)) s'
      else Done (fst (fst r), s')
  | Bug => Bug
  | OutOfFuel => OutOfFuel
  end.
Proof.
  simpl. destruct (bh_work_tx d 32) as [[d1 num_tx]| |]; simpl; try reflexivity.
  destruct (bh_work_rx d1 32 (stats_cnf s)) as [[d2 num_rx] cnf]. reflexivity.
Qed.

Lemma bh_work_loop_pump_frame fuel :
  forall d s d' s', bh_work_loop fuel d s = Done (d', s') -> pump_frame d d'.
Proof.
  induction fuel as [|fuel IH]; intros d s d' s' H; [discriminate|].
  rewrite bh_work_loop_S in H.
  destruct (bh_work_tx d 32) as [[d1 num_tx]| |] eqn:Htx; try discriminate.
  destruct (bh_work_tx_loop_run _ _ _ Htx) as (_ & _ & _ & _ & _ & _ & _ & Hf1).
  pose proof (bh_work_rx_pump_frame d1 32 (stats_cnf s)) as Hf2.
  cbv zeta in H.
  destruct (negb (snd (fst (bh_work_rx d1 32 (stats_cnf s))) =? 0) || negb (num_tx =? 0)).
  - eapply pump_frame_trans; [exact Hf1|].
    eapply pump_frame_trans; [exact Hf2|]. eapply IH; exact H.
  - injection H as <- _. eapply pump_frame_trans; eassumption.
Qed.

(** What follows the loop in [bh_work]. *)
Lemma bh_work_unfold d :
  bh_work d =
  match bh_work_loop (bh_work_fuel (device_wakeup d)) (device_wakeup d)
          (BhStats 0 0 0 false 0 0) with
  | Done (d1, s) =>
      let d2 := if last_op_is_rx s then ack_sdio_data d1 else d1 in
      let release_chip :=
        (tx_buffers_used d2 =? 0) && negb (work_pending d2) && (scan_in_progress d2 =? 0) in
      Done (emit (TraceBhStats (wrap_int (stats_ind s - stats_cnf s)) (stats_req s)
                    (stats_cnf s)
                    (tx_buffers_used (if release_chip then device_release d2 else d2))
                    release_chip)
              (if release_chip then device_release d2 else d2))
  | Bug => Bug
  | OutOfFuel => OutOfFuel
  end.
Proof.
  unfold bh_work.
  destruct (bh_work_loop _ _ _) as [[d1 s]| |]; reflexivity.
Qed.

Lemma ack_sdio_data_fields d :
  pump_frame d (ack_sdio_data d) /\
  tx_buffers_used (ack_sdio_data d) = tx_buffers_used d /\
  tx_queue (ack_sdio_data d) = tx_queue d.
Proof.
  unfold ack_sdio_data, pump_frame.
  destruct (negb (Z.land (cfg_reg d) 255 =? 0)); simpl; tauto.
Qed.

(** X12. When the worker returns, a wake-up line that exists is low exactly
    when no transmit buffer is in use, no work is pending and no scan is in
    progress, and high otherwise; the worker itself changes neither the
    pending flag nor the scan flag. *)
Theorem bh_work_release_decision d d' :
  bh_work d = Done d' ->
  gpio_wakeup d' =
    option_map (fun _ => negb ((tx_buffers_used d' =? 0) && negb (work_pending d')
                               && (scan_in_progress d' =? 0)))
               (gpio_wakeup d) /\
  work_pending d' = work_pending d /\
  scan_in_progress d' = scan_in_progress d /\
  NumInpChBufs d' = NumInpChBufs d.
Proof.
  rewrite bh_work_unfold. intros H.
  destruct (bh_work_loop _ _ _) as [[d1 s]| |] eqn:Hloop; try discriminate.
  pose proof (bh_work_loop_pump_frame _ _ _ Hloop) as Hf1.
  pose proof (device_wakeup_shape d) as Hw.
  assert (Hfw : gpio_wakeup (device_wakeup d) = option_map (fun _ => true) (gpio_wakeup d) /\
                work_pending (device_wakeup d) = work_pending d /\
                scan_in_progress (device_wakeup d) = scan_in_progress d /\
                NumInpChBufs (device_wakeup d) = NumInpChBufs d)
    by (rewrite Hw; simpl; tauto).
  destruct Hfw as (Hg0 & Hp0 & Hs0 & Hn0).
  destruct Hf1 as (Hg1 & _ & Hn1 & Hs1 & Hp1 & _).
  cbv zeta in H.
  set (d2 := if last_op_is_rx s then ack_sdio_data d1 else d1) in *.
  assert (Hf2 : pump_frame d1 d2 /\ tx_buffers_used d2 = tx_buffers_used d1).
  { unfold d2. destruct (last_op_is_rx s).
    - destruct (ack_sdio_data_fields d1) as (Ha & Hb & _). split; assumption.
    - split; [apply pump_frame_refl | reflexivity]. }
  destruct Hf2 as ((Hg2 & _ & Hn2 & Hs2 & Hp2 & _) & Hu2).
  assert (Hg : gpio_wakeup d2 = option_map (fun _ => true) (gpio_wakeup d)) by congruence.
  assert (Hp : work_pending d2 = work_pending d) by congruence.
  assert (Hs : scan_in_progress d2 = scan_in_progress d) by congruence.
  assert (Hn : NumInpChBufs d2 = NumInpChBufs d) by congruence.
  clear Hg0 Hp0 Hs0 Hn0 Hg1 Hn1 Hs1 Hp1 Hg2 Hn2 Hs2 Hp2 Hw Hloop.
  injection H as <-.
  destruct ((tx_buffers_used d2 =? 0) && negb (work_pending d2) && (scan_in_progress d2 =? 0))
    eqn:Hrel.
  - unfold device_release. rewrite Hg.
    destruct (gpio_wakeup d) as [g|]; simpl in Hg |- *; rewrite ?Hrel, ?Hg; simpl;
      (split; [reflexivity|]; split; [exact Hp|]; split; [exact Hs | exact Hn]).
  - simpl. rewrite Hrel, Hg.
    destruct (gpio_wakeup d) as [g|]; simpl;
      (split; [reflexivity|]; split; [exact Hp|]; split; [exact Hs | exact Hn]).
Qed.

Lemma bh_work_tx_zero d max_msg d1 :
  bh_work_tx d max_msg = Done (d1, 0) ->
  d1 = d /\ (max_msg <= 0 \/ tx_queue d = [] \/ NumInpChBufs d <= tx_buffers_used d).
Proof.
  unfold bh_work_tx. intros H.
  destruct (Z.to_nat max_msg) as [|n] eqn:Hn;
    [simpl in H; split; [congruence | left; lia]|].
  rewrite bh_work_tx_loop_S in H.
  destruct (tx_buffers_used d <? NumInpChBufs d) eqn:Hc;
    [|split; [congruence | right; right; apply Z.ltb_ge; exact Hc]].
  destruct (tx_queue d) as [|it rest]; [split; [congruence | right; left; reflexivity]|].
  exfalso.
  destruct (tx_helper (set_tx_queue rest d) (tx_data it) (tx_len it)) as [d2| |];
    simpl in H; try discriminate.
  pose proof (bh_work_tx_loop_consumes n d2 (0 + 1)) as Hcons.
  change (0 + 1) with 1 in *. rewrite H in Hcons. lia.
Qed.

(** The receive pump keeps the script of the bus well formed. *)
Lemma bh_work_rx_script_wf d max_msg num_cnf :
  rx_script_wf d -> rx_script_wf (fst (fst (bh_work_rx d max_msg num_cnf))).
Proof.
  intros Hwf.
  destruct (bh_work_rx_loop_run (Z.to_nat max_msg) (d := d) 0 0 num_cnf Hwf) as (Hwf1 & _).
  unfold bh_work_rx.
  destruct (bh_work_rx_loop (Z.to_nat max_msg) d 0 0 num_cnf) as [[d1 e] c]. simpl in *.
  unfold rx_script_wf, bh_work_rx_end, rx_relatch.
  destruct e as [i p | i p]; [exact Hwf1|].
  destruct (negb (Z.land p CTRL_NEXT_LEN_MASK =? 0)); [|exact Hwf1].
  rewrite emit_if_field by reflexivity. exact Hwf1.
Qed.

Lemma bh_work_rx_zero d max_msg num_cnf :
  rx_script_wf d ->
  snd (fst (bh_work_rx d max_msg num_cnf)) = 0 ->
  tx_buffers_used (fst (fst (bh_work_rx d max_msg num_cnf))) = tx_buffers_used d.
Proof.
  intros Hwf. unfold bh_work_rx.
  destruct (Z.to_nat max_msg) as [|n]; [reflexivity|].
  rewrite bh_work_rx_loop_step. cbv zeta.
  destruct (rx_next_ctrl_fields d 0) as (_ & _ & Hu0 & Hb0 & _).
  set (d0 := fst (rx_next_ctrl d 0)) in *.
  set (ctrl := snd (rx_next_ctrl d 0)).
  destruct (Z.land ctrl CTRL_NEXT_LEN_MASK =? 0); [simpl; intros _; exact Hu0|].
  assert (Hwf0 : rx_script_wf d0) by (unfold rx_script_wf; rewrite Hb0; exact Hwf).
  destruct (snd (fst (rx_helper d0 (rx_len ctrl) num_cnf)) <? 0) eqn:Hneg.
  - simpl. intros _. apply Z.ltb_lt in Hneg.
    destruct (rx_helper_outcome (d := d0) (rx_len ctrl) num_cnf Hwf0)
      as (_ & _ & [(_ & Hu & _) | (Hpos & _)]); [congruence | lia].
  - intros Hz. exfalso.
    match type of Hz with
    | context [bh_work_rx_loop n ?d1 ?i1 ?p1 ?c1] =>
        destruct (bh_work_rx_loop_consumes n d1 i1 p1 c1) as (Hi & _);
        destruct (bh_work_rx_loop n d1 i1 p1 c1) as [[d2 e] c2]
    end.
    simpl in *. lia.
Qed.

Lemma bh_work_loop_quiescent fuel :
  forall d s d' s',
    rx_script_wf d ->
    bh_work_loop fuel d s = Done (d', s') ->
    tx_queue d' = [] \/ NumInpChBufs d' <= tx_buffers_used d'.
Proof.
  induction fuel as [|fuel IH]; intros d s d' s' Hwf H; [discriminate|].
  rewrite bh_work_loop_S in H.
  destruct (bh_work_tx d 32) as [[d1 num_tx]| |] eqn:Htx; try discriminate.
  assert (Hwf1 : rx_script_wf d1).
  { pose proof (bh_work_tx_loop_consumes (Z.to_nat 32) d 0) as Hc.
    unfold bh_work_tx in Htx. rewrite Htx in Hc.
    destruct Hc as (_ & _ & Hb). unfold rx_script_wf. rewrite Hb. exact Hwf. }
  pose proof (bh_work_rx_pump_frame d1 32 (stats_cnf s)) as Hf2.
  pose proof (bh_work_rx_script_wf 32 (stats_cnf s) Hwf1) as Hwf2.
  destruct (bh_work_rx_consumes d1 32 (stats_cnf s)) as (_ & _ & Hq2).
  pose proof (@bh_work_rx_zero d1 32 (stats_cnf s) Hwf1) as Hz.
  cbv zeta in *.
  destruct (snd (fst (bh_work_rx d1 32 (stats_cnf s))) =? 0) eqn:Hrx; simpl in H.
  - destruct (num_tx =? 0) eqn:Hn; simpl in H.
    + injection H as <- _.
      apply Z.eqb_eq in Hrx, Hn. subst num_tx.
      destruct (bh_work_tx_zero _ _ Htx) as (E & Hnone). subst d1.
      clear Htx. rename Hnone into Htx.
      destruct Hf2 as (_ & _ & Hcap & _).
      rewrite Hq2, Hcap, (Hz Hrx).
      destruct Htx as [Hm | [Hq | Hc]]; [lia | left; exact Hq | right; exact Hc].
    + eapply IH; eassumption.
  - eapply IH; eassumption.
Qed.

(** X13. When the worker returns, the outbound queue is empty or the chip has
    no free input buffer left: the worker never stops while it could still
    send. *)
Theorem bh_work_quiescent d d' :
  rx_script_wf d ->
  bh_work d = Done d' ->
  tx_queue d' = [] \/ NumInpChBufs d' <= tx_buffers_used d'.
Proof.
  intros Hwf. rewrite bh_work_unfold. intros H.
  destruct (bh_work_loop _ _ _) as [[d1 s]| |] eqn:Hloop; try discriminate.
  pose proof (device_wakeup_shape d) as Hw.
  assert (Hwf0 : rx_script_wf (device_wakeup d))
    by (unfold rx_script_wf; rewrite Hw; exact Hwf).
  pose proof (@bh_work_loop_quiescent _ _ _ _ _ Hwf0 Hloop) as Hq.
  cbv zeta in H. injection H as <-.
  set (d2 := if last_op_is_rx s then ack_sdio_data d1 else d1).
  assert (Hd2 : tx_queue d2 = tx_queue d1 /\ NumInpChBufs d2 = NumInpChBufs d1 /\
                tx_buffers_used d2 = tx_buffers_used d1).
  { unfold d2. destruct (last_op_is_rx s); [|tauto].
    destruct (ack_sdio_data_fields d1) as ((_ & _ & Hn & _) & Hu & Hq'). tauto. }
  destruct Hd2 as (Hq2 & Hn2 & Hu2).
  destruct ((tx_buffers_used d2 =? 0) && negb (work_pending d2) && (scan_in_progress d2 =? 0)).
  - unfold device_release. destruct (gpio_wakeup d2); simpl; rewrite Hq2, Hn2, Hu2; exact Hq.
  - simpl. rewrite Hq2, Hn2, Hu2. exact Hq.
Qed.

Lemma wfx_bh_request_rx_fields d cur :
  ctrl_reg (wfx_bh_request_rx d cur) = cur /\
  ctrl_ready (wfx_bh_request_rx d cur) = S (ctrl_ready d) /\
  bus_rx (wfx_bh_request_rx d cur) = bus_rx d /\
  tx_buffers_used (wfx_bh_request_rx d cur) = tx_buffers_used d /\
  rx_seqnum (wfx_bh_request_rx d cur) = rx_seqnum d.
Proof.
  unfold wfx_bh_request_rx, queue_work.
  repeat split; repeat (rewrite emit_if_field by reflexivity); reflexivity.
Qed.

Lemma logged_wfx_bh_request_rx e d cur :
  logged e (wfx_bh_request_rx d cur) <->
  (ctrl_reg d <> 0 /\ e = ErrPreviousNotRead (ctrl_reg d) cur) \/
  (Z.land cur CTRL_NEXT_LEN_MASK = 0 /\ e = ErrLengthFieldZero cur) \/
  e = QueueWork \/ logged e d.
Proof.
  unfold wfx_bh_request_rx, queue_work.
  rewrite !logged_emit_if, logged_emit, negb_true_iff, Z.eqb_neq, Z.eqb_eq.
  change (logged e (set_work_pending true (complete (set_ctrl_reg cur d))))
    with (logged e d).
  tauto.
Qed.

(** X14. The control register holds one value: of two interrupts that arrive
    before the pump runs, only the second value reaches the pump.  The pump
    takes it with the first completion and clears the register; with the
    second completion it finds zero.  The first value is logged as not read
    and never acted upon. *)
Theorem snapshot_overwritten d c1 c2 :
  let d2 := wfx_bh_request_rx (wfx_bh_request_rx d c1) c2 in
  let r1 := rx_next_ctrl d2 0 in
  let r2 := rx_next_ctrl (fst r1) 0 in
  snd r1 = c2 /\
  ctrl_reg (fst r1) = 0 /\
  snd r2 = 0 /\
  ctrl_reg (fst r2) = 0 /\
  ctrl_ready (fst r2) = ctrl_ready d /\
  (c1 <> 0 -> logged (ErrPreviousNotRead c1 c2) d2).
Proof.
  destruct (wfx_bh_request_rx_fields d c1) as (Hreg1 & Hready1 & _).
  destruct (wfx_bh_request_rx_fields (wfx_bh_request_rx d c1) c2) as (Hreg & Hready & _).
  rewrite Hready1 in Hready.
  assert (Hlog : c1 <> 0 ->
                 logged (ErrPreviousNotRead c1 c2)
                   (wfx_bh_request_rx (wfx_bh_request_rx d c1) c2)).
  { intros Hc1. apply logged_wfx_bh_request_rx. left.
    rewrite Hreg1. split; [exact Hc1 | reflexivity]. }
  intros d2. fold d2 in Hreg, Hready, Hlog. clearbody d2.
  intros r1 r2.
  assert (H1 : r1 = (set_ctrl_reg 0 (set_ctrl_ready (S (ctrl_ready d)) d2), c2)).
  { unfold r1, rx_next_ctrl, try_wait_for_completion. simpl.
    rewrite Hready. simpl. rewrite Hreg. reflexivity. }
  assert (H2 : r2 = (set_ctrl_reg 0 (set_ctrl_ready (ctrl_ready d) (fst r1)), 0)).
  { unfold r2. rewrite H1. unfold rx_next_ctrl, try_wait_for_completion. reflexivity. }
  rewrite H2, H1. simpl.
  repeat split. exact Hlog.
Qed.

(** X15. An interrupt whose value has a zero length field costs the pump one
    completion and nothing else: the pump returns zero without reading the
    bus, the register is cleared, and the completion count, the counters and
    the confirmation count are what they were before the interrupt. *)
Theorem bh_work_rx_absorbs_empty_interrupt d cur max_msg num_cnf :
  Z.land cur CTRL_NEXT_LEN_MASK = 0 ->
  0 < max_msg ->
  let r := bh_work_rx (wfx_bh_request_rx d cur) max_msg num_cnf in
  snd (fst r) = 0 /\
  snd r = num_cnf /\
  ctrl_reg (fst (fst r)) = 0 /\
  ctrl_ready (fst (fst r)) = ctrl_ready d /\
  bus_rx (fst (fst r)) = bus_rx d /\
  tx_buffers_used (fst (fst r)) = tx_buffers_used d /\
  rx_seqnum (fst (fst r)) = rx_seqnum d /\
  logged (ErrLengthFieldZero cur) (fst (fst r)).
Proof.
  intros Hz Hmax.
  destruct (wfx_bh_request_rx_fields d cur) as (Hreg & Hready & Hbus & Hu & Hrx).
  assert (Hlog : logged (ErrLengthFieldZero cur) (wfx_bh_request_rx d cur)).
  { apply logged_wfx_bh_request_rx. right; left.
    split; [exact Hz | reflexivity]. }
  set (d1 := wfx_bh_request_rx d cur) in *. clearbody d1.
  intros r.
  assert (Hnext : rx_next_ctrl d1 0 = (set_ctrl_reg 0 (set_ctrl_ready (ctrl_ready d) d1), cur)).
  { unfold rx_next_ctrl, try_wait_for_completion. simpl.
    rewrite Hready. simpl. rewrite Hreg. reflexivity. }
  assert (E : r = (set_ctrl_reg 0 (set_ctrl_ready (ctrl_ready d) d1), 0, num_cnf)).
  { unfold r, bh_work_rx.
    destruct (Z.to_nat max_msg) as [|n] eqn:Hn; [lia|].
    rewrite bh_work_rx_loop_step. rewrite Hnext. cbv zeta. simpl fst. simpl snd.
    apply Z.eqb_eq in Hz. rewrite Hz. reflexivity. }
  rewrite E. simpl. repeat split; assumption.
Qed.

Lemma tx_helper_quiet d data len d' :
  tx_helper d data len = Done d' ->
  klog d' = klog d /\ ctrl_ready d' = ctrl_ready d /\ ctrl_reg d' = ctrl_reg d.
Proof.
  unfold tx_helper.
  destruct (len <? sizeof_wmsg); [discriminate|].
  destruct (negb (wmsg_len data =? len)); [discriminate|].
  unfold tx_pop_env, tx_write.
  destruct (bus_tx _) as [|e rest]; simpl;
    destruct (wfx_is_secure_command _); simpl;
    try destruct (kmalloc_ok _); simpl;
    try destruct (wfx_sl_encode _); simpl;
    try destruct (data_write_ok _); simpl;
    intros H; injection H as <-; repeat split; reflexivity.
Qed.

Lemma bh_work_tx_loop_quiet n :
  forall d i d' i',
    bh_work_tx_loop n d i = Done (d', i') ->
    klog d' = klog d /\ ctrl_ready d' = ctrl_ready d /\ ctrl_reg d' = ctrl_reg d.
Proof.
  induction n as [|n IH]; intros d i d' i' H.
  - simpl in H. injection H as <- _. repeat split; reflexivity.
  - rewrite bh_work_tx_loop_S in H.
    destruct (tx_buffers_used d <? NumInpChBufs d);
      [|injection H as <- _; repeat split; reflexivity].
    destruct (tx_queue d) as [|it rest]; [injection H as <- _; repeat split; reflexivity|].
    destruct (tx_helper (set_tx_queue rest d) (tx_data it) (tx_len it)) as [d1| |] eqn:Hh;
      simpl in H; try discriminate.
    destruct (@tx_helper_quiet _ _ _ _ Hh) as (Hl1 & Hr1 & Hg1). simpl in Hl1, Hr1, Hg1.
    destruct (IH _ _ _ _ H) as (Hl & Hr & Hg).
    repeat split; congruence.
Qed.

Lemma bh_work_loop_tx_only fuel :
  forall d s d' s',
    ctrl_ready d = 0%nat ->
    last_op_is_rx s = false -> stats_cnf s = 0 -> stats_ind s = 0 ->
    bh_work_loop fuel d s = Done (d', s') ->
    klog d' = klog d /\ ctrl_ready d' = 0%nat /\ ctrl_reg d' = ctrl_reg d /\
    bus_rx d' = bus_rx d /\
    last_op_is_rx s' = false /\ stats_cnf s' = 0 /\ stats_ind s' = 0.
Proof.
  induction fuel as [|fuel IH]; intros d s d' s' Hc Hlast Hcnf Hind H; [discriminate|].
  rewrite bh_work_loop_S in H.
  destruct (bh_work_tx d 32) as [[d1 num_tx]| |] eqn:Htx; try discriminate.
  unfold bh_work_tx in Htx.
  destruct (@bh_work_tx_loop_quiet _ _ _ _ _ Htx) as (Hl1 & Hr1 & Hg1).
  pose proof (bh_work_tx_loop_consumes (Z.to_nat 32) d 0) as Hcons.
  rewrite Htx in Hcons. destruct Hcons as (_ & _ & Hb1).
  rewrite Hc in Hr1.
  rewrite (@bh_work_rx_idle _ _ _ d1 32 (stats_cnf s) Hr1) in H. cbv zeta in H. simpl in H.
  rewrite Hind, Hcnf, Hlast in H.
  destruct (num_tx =? 0) eqn:Hn; simpl in H.
  - injection H as <- <-. simpl. repeat split; congruence.
  - eapply IH in H; [|exact Hr1|reflexivity|reflexivity|reflexivity].
    destruct H as (Hl & Hr & Hg & Hb & Hrest).
    split; [congruence|]. split; [exact Hr|]. split; [congruence|].
    split; [congruence | exact Hrest].
Qed.

(** X22. A run of the worker that finds no completion on [ctrl_ready] only
    transmits: it receives nothing, does not read or acknowledge the
    configuration register, logs nothing after the wake-up but its statistics,
    which count no indication and no confirmation, and leaves the control
    register, the completion and the script of the bus as they were. *)
Theorem bh_work_transmit_only d d' :
  ctrl_ready d = 0%nat ->
  bh_work d = Done d' ->
  (exists req release_chip,
     klog d' = klog (device_wakeup d)
               ++ [TraceBhStats 0 req 0 (tx_buffers_used d') release_chip]) /\
  ctrl_ready d' = 0%nat /\
  ctrl_reg d' = ctrl_reg d /\
  bus_rx d' = bus_rx d.
Proof.
  intros Hc. rewrite bh_work_unfold. intros H.
  destruct (bh_work_loop _ _ _) as [[d1 s]| |] eqn:Hloop; try discriminate.
  pose proof (device_wakeup_shape d) as Hw.
  assert (Hw0 : ctrl_ready (device_wakeup d) = 0%nat /\
                ctrl_reg (device_wakeup d) = ctrl_reg d /\
                bus_rx (device_wakeup d) = bus_rx d)
    by (rewrite Hw; simpl; auto).
  destruct Hw0 as (Hc0 & Hg0 & Hb0).
  pose proof Hloop as Hrun.
  eapply bh_work_loop_tx_only in Hrun; [|exact Hc0|reflexivity|reflexivity|reflexivity].
  destruct Hrun as (Hl & Hr & Hg & Hb & Hlast & Hcnf & Hind).
  cbv zeta in H. rewrite Hlast, Hcnf, Hind in H.
  injection H as <-.
  destruct ((tx_buffers_used d1 =? 0) && negb (work_pending d1) && (scan_in_progress d1 =? 0)).
  - unfold device_release.
    destruct (gpio_wakeup d1); simpl; rewrite Hl;
      (split; [eexists; eexists; reflexivity|]; repeat split; congruence).
  - simpl. rewrite Hl.
    split; [eexists; eexists; reflexivity|]. repeat split; congruence.
Qed.

End WorkerRuns.

(** ** Power-save notifications ([sta.c]) *)

Section StaNotify.

Lemma to_u32_BIT l : 0 <= l < 32 -> to_u32 (BIT l) = 2 ^ l.
Proof.
  intros Hl. unfold to_u32, BIT, wrap_size, size_bits.
  rewrite Z.shiftl_1_l.
  assert (H32 : 2 ^ l < 2 ^ 32) by (apply Z.pow_lt_mono_r; lia).
  assert (H64 : 2 ^ 32 < 2 ^ 64) by (apply Z.pow_lt_mono_r; lia).
  assert (H0 : 0 < 2 ^ l) by (apply Z.pow_pos_nonneg; lia).
  rewrite (Z.mod_small (2 ^ l) (2 ^ 64)) by lia.
  apply Z.mod_small. lia.
Qed.

Lemma land_pow2 m l :
  0 <= l -> Z.land m (2 ^ l) = if Z.testbit m l then 2 ^ l else 0.
Proof.
  intros Hl. apply Z.bits_inj'. intros n Hn.
  rewrite Z.land_spec, Z.pow2_bits_eqb by exact Hl.
  destruct (Z.eqb_spec l n) as [-> | Hne].
  - destruct (Z.testbit m n); simpl.
    + rewrite Z.pow2_bits_eqb by exact Hn. rewrite Z.eqb_refl. reflexivity.
    + rewrite Z.bits_0. reflexivity.
  - rewrite andb_false_r.
    destruct (Z.testbit m l).
    + rewrite Z.pow2_bits_eqb by exact Hl. symmetry. apply Z.eqb_neq. exact Hne.
    + rewrite Z.bits_0. reflexivity.
Qed.

Lemma land_pow2_zero m l : 0 <= l -> (Z.land m (2 ^ l) =? 0) = negb (Z.testbit m l).
Proof.
  intros Hl. rewrite land_pow2 by exact Hl.
  destruct (Z.testbit m l); simpl; [|reflexivity].
  apply Z.eqb_neq. assert (0 < 2 ^ l) by (apply Z.pow_pos_nonneg; lia). lia.
Qed.

Lemma u32_not_spec x j :
  0 <= j -> Z.testbit (u32_not x) j = (j <? 32) && negb (Z.testbit x j).
Proof.
  intros Hj. unfold u32_not, to_u32.
  destruct (Z.ltb_spec j 32) as [Hlt | Hge].
  - rewrite andb_true_l. rewrite Z.mod_pow2_bits_low by lia. apply Z.lnot_spec. exact Hj.
  - rewrite andb_false_l. apply Z.mod_pow2_bits_high. lia.
Qed.

Lemma in_vemit e e' w : In e (vlog (vemit e' w)) <-> e = e' \/ In e (vlog w).
Proof.
  unfold vemit; simpl. rewrite in_app_iff; simpl.
  intuition congruence.
Qed.

(** X16. [STA_NOTIFY_SLEEP] for a station (link id 1 to 31) marks that
    station asleep and no other; it leaves the PS-Poll mask alone and never
    asks the bottom half to transmit.  The multicast-start work is scheduled
    exactly when multicasts are buffered and no station was asleep before. *)
Theorem sta_notify_sleep wvif l :
  0 < l < 32 ->
  let w' := __wfx_sta_notify wvif STA_NOTIFY_SLEEP l in
  asleep w' l = true /\
  (forall j, j <> l -> asleep w' j = asleep wvif j) /\
  pspoll_mask w' = pspoll_mask wvif /\
  link_id_map w' = link_id_map wvif /\
  wdev w' = wdev wvif /\
  (In ScheduleMulticastStart (vlog w') <->
     (buffered_multicasts wvif = true /\ sta_asleep_mask wvif = 0) \/
     In ScheduleMulticastStart (vlog wvif)).
Proof.
  intros Hl w'. unfold w', __wfx_sta_notify, asleep.
  assert (Hne : (l =? 0) = false) by (apply Z.eqb_neq; lia).
  rewrite Hne. simpl negb. cbv iota beta.
  rewrite to_u32_BIT by lia. rewrite land_pow2_zero by lia.
  destruct (Z.testbit (sta_asleep_mask wvif) l) eqn:Hbit; simpl.
  - split; [exact Hbit|]. split; [reflexivity|].
    split; [reflexivity|]. split; [reflexivity|]. split; [reflexivity|].
    split; [tauto|]. intros [(_ & Hz) | H]; [|exact H].
    rewrite Hz in Hbit. rewrite Z.bits_0 in Hbit. discriminate.
  - destruct (buffered_multicasts wvif && (sta_asleep_mask wvif =? 0)) eqn:Hc; simpl.
    + split; [rewrite Z.lor_spec, Z.pow2_bits_eqb, Z.eqb_refl by lia; apply orb_true_r|].
      split.
      { intros j Hj. rewrite Z.lor_spec, Z.pow2_bits_eqb by lia.
        apply Z.eqb_neq in Hj. rewrite Z.eqb_sym, Hj. apply orb_false_r. }
      split; [reflexivity|]. split; [reflexivity|]. split; [reflexivity|].
      rewrite in_app_iff. simpl.
      apply andb_true_iff in Hc. destruct Hc as (Hb & Hz). apply Z.eqb_eq in Hz.
      tauto.
    + split; [rewrite Z.lor_spec, Z.pow2_bits_eqb, Z.eqb_refl by lia; apply orb_true_r|].
      split.
      { intros j Hj. rewrite Z.lor_spec, Z.pow2_bits_eqb by lia.
        apply Z.eqb_neq in Hj. rewrite Z.eqb_sym, Hj. apply orb_false_r. }
      split; [reflexivity|]. split; [reflexivity|]. split; [reflexivity|].
      split; [tauto|]. intros [(Hb & Hz) | H]; [|exact H].
      rewrite Hb, Hz in Hc. discriminate.
Qed.

(** X17. [STA_NOTIFY_AWAKE] for a station (link id 1 to 31) leaves that
    station awake and touches no other station.  If the station was asleep,
    its PS-Poll bit is cleared too, the bottom half is asked to transmit, and
    the multicast-stop work is scheduled exactly when no station is asleep any
    more; if it was already awake, nothing at all changes. *)
Theorem sta_notify_awake wvif l :
  0 < l < 32 ->
  let w' := __wfx_sta_notify wvif STA_NOTIFY_AWAKE l in
  asleep w' l = false /\
  (forall j, 0 <= j < 32 -> j <> l -> asleep w' j = asleep wvif j) /\
  (asleep wvif l = true ->
     Z.testbit (pspoll_mask w') l = false /\
     wdev w' = wfx_bh_request_tx (wdev wvif) /\
     (In ScheduleMulticastStop (vlog w') <->
        sta_asleep_mask w' = 0 \/ In ScheduleMulticastStop (vlog wvif))) /\
  (asleep wvif l = false -> w' = wvif).
Proof.
  intros Hl w'. unfold w', __wfx_sta_notify, asleep.
  assert (Hne : (l =? 0) = false) by (apply Z.eqb_neq; lia).
  rewrite Hne. simpl negb. cbv iota beta.
  rewrite to_u32_BIT by lia. rewrite land_pow2_zero by lia.
  destruct (Z.testbit (sta_asleep_mask wvif) l) eqn:Hbit; simpl.
  - assert (Hclr : forall m, Z.testbit (Z.land m (u32_not (2 ^ l))) l = false).
    { intros m. rewrite Z.land_spec, u32_not_spec, Z.pow2_bits_eqb, Z.eqb_refl by lia.
      simpl. rewrite andb_false_r. apply andb_false_r. }
    assert (Hkeep : forall m j, 0 <= j < 32 -> j <> l ->
                      Z.testbit (Z.land m (u32_not (2 ^ l))) j = Z.testbit m j).
    { intros m j Hj Hjl. rewrite Z.land_spec, u32_not_spec, Z.pow2_bits_eqb by lia.
      apply Z.eqb_neq in Hjl. rewrite Z.eqb_sym, Hjl.
      assert (Hlt : (j <? 32) = true) by (apply Z.ltb_lt; lia).
      rewrite Hlt. simpl. apply andb_true_r. }
    destruct (Z.land (sta_asleep_mask wvif) (u32_not (2 ^ l)) =? 0) eqn:Hz; simpl.
    + split; [apply Hclr|]. split; [intros j Hj Hjl; apply Hkeep; assumption|].
      split; [|discriminate]. intros _.
      split; [apply Hclr|]. split; [reflexivity|].
      rewrite in_app_iff. simpl. apply Z.eqb_eq in Hz. tauto.
    + split; [apply Hclr|]. split; [intros j Hj Hjl; apply Hkeep; assumption|].
      split; [|discriminate]. intros _.
      split; [apply Hclr|]. split; [reflexivity|].
      apply Z.eqb_neq in Hz. tauto.
  - split; [exact Hbit|]. split; [reflexivity|].
    split; [discriminate | reflexivity].
Qed.

Lemma sta_notify_sleep_eq wvif l :
  0 < l < 32 ->
  __wfx_sta_notify wvif STA_NOTIFY_SLEEP l =
  if asleep wvif l then wvif
  else set_sta_asleep_mask (Z.lor (sta_asleep_mask wvif) (2 ^ l))
         (if buffered_multicasts wvif && (sta_asleep_mask wvif =? 0)
          then vemit ScheduleMulticastStart wvif else wvif).
Proof.
  intros Hl. unfold __wfx_sta_notify, asleep.
  assert (Hne : (l =? 0) = false) by (apply Z.eqb_neq; lia).
  rewrite Hne. simpl negb. cbv iota beta.
  rewrite to_u32_BIT by lia. rewrite land_pow2_zero by lia.
  destruct (Z.testbit (sta_asleep_mask wvif) l); simpl; [reflexivity|].
  destruct (buffered_multicasts wvif && (sta_asleep_mask wvif =? 0)); reflexivity.
Qed.

Lemma sta_notify_awake_eq wvif l :
  0 < l < 32 ->
  __wfx_sta_notify wvif STA_NOTIFY_AWAKE l =
  if asleep wvif l then
    let w1 := set_pspoll_mask (Z.land (pspoll_mask wvif) (u32_not (2 ^ l)))
                (set_sta_asleep_mask (Z.land (sta_asleep_mask wvif) (u32_not (2 ^ l))) wvif) in
    set_wdev (wfx_bh_request_tx (wdev wvif))
      (if sta_asleep_mask w1 =? 0 then vemit ScheduleMulticastStop w1 else w1)
  else wvif.
Proof.
  intros Hl. unfold __wfx_sta_notify, asleep.
  assert (Hne : (l =? 0) = false) by (apply Z.eqb_neq; lia).
  rewrite Hne. simpl negb. cbv iota beta.
  rewrite to_u32_BIT by lia. rewrite land_pow2_zero by lia.
  destruct (Z.testbit (sta_asleep_mask wvif) l); simpl; [|reflexivity].
  destruct (Z.land (sta_asleep_mask wvif) (u32_not (2 ^ l)) =? 0); reflexivity.
Qed.

Lemma land_lor_u32_not m l :
  0 <= l < 32 -> 0 <= m < 2 ^ 32 -> Z.testbit m l = false ->
  Z.land (Z.lor m (2 ^ l)) (u32_not (2 ^ l)) = m.
Proof.
  intros Hl Hm Hbit. apply Z.bits_inj'. intros n Hn.
  rewrite Z.land_spec, Z.lor_spec, u32_not_spec, Z.pow2_bits_eqb by lia.
  destruct (Z.eqb_spec l n) as [-> | Hne]; simpl.
  - rewrite Hbit. rewrite andb_false_r. reflexivity.
  - rewrite orb_false_r. rewrite andb_true_r.
    destruct (Z.ltb_spec n 32) as [Hlt | Hge]; [apply andb_true_r|].
    rewrite andb_false_r. symmetry.
    rewrite <- (Z.mod_small m (2 ^ 32)) by lia.
    apply Z.mod_pow2_bits_high. lia.
Qed.

(** X18. Sleep and wake-up of a station undo each other on the asleep mask:
    for a station (link id 1 to 31) that was awake, [STA_NOTIFY_SLEEP]
    followed by [STA_NOTIFY_AWAKE] gives back the asleep mask there was, and
    the bottom half has been asked to transmit. *)
Theorem sta_sleep_awake_round_trip wvif l :
  0 < l < 32 ->
  0 <= sta_asleep_mask wvif < 2 ^ 32 ->
  asleep wvif l = false ->
  let w' := __wfx_sta_notify (__wfx_sta_notify wvif STA_NOTIFY_SLEEP l) STA_NOTIFY_AWAKE l in
  sta_asleep_mask w' = sta_asleep_mask wvif /\
  link_id_map w' = link_id_map wvif /\
  wdev w' = wfx_bh_request_tx (wdev wvif) /\
  work_pending (wdev w') = true.
Proof.
  intros Hl Hm Hbit w'. unfold w'.
  rewrite (sta_notify_sleep_eq wvif Hl), Hbit.
  set (w1 := set_sta_asleep_mask _ _).
  assert (Hm1 : sta_asleep_mask w1 = Z.lor (sta_asleep_mask wvif) (2 ^ l)) by reflexivity.
  assert (Hw1 : wdev w1 = wdev wvif /\ link_id_map w1 = link_id_map wvif).
  { unfold w1. destruct (buffered_multicasts wvif && (sta_asleep_mask wvif =? 0));
      split; reflexivity. }
  destruct Hw1 as (Hd1 & Hl1).
  assert (Ha1 : asleep w1 l = true).
  { unfold asleep. rewrite Hm1, Z.lor_spec, Z.pow2_bits_eqb, Z.eqb_refl by lia.
    apply orb_true_r. }
  assert (Hback : Z.land (sta_asleep_mask w1) (u32_not (2 ^ l)) = sta_asleep_mask wvif).
  { rewrite Hm1. apply land_lor_u32_not; [lia | exact Hm | exact Hbit]. }
  clearbody w1.
  rewrite (sta_notify_awake_eq w1 Hl), Ha1. cbv zeta.
  destruct (sta_asleep_mask _ =? 0); simpl; rewrite Hback, Hd1, Hl1;
    repeat split; reflexivity.
Qed.

(** X19. A notification repeated changes nothing: for a station (link id 1
    to 31), a second [STA_NOTIFY_SLEEP] or a second [STA_NOTIFY_AWAKE] in a
    row leaves the interface, and the device behind it, as the first one left
    them; in particular the bottom half is not asked again. *)
Theorem sta_notify_idempotent wvif cmd l :
  0 < l < 32 ->
  __wfx_sta_notify (__wfx_sta_notify wvif cmd l) cmd l = __wfx_sta_notify wvif cmd l.
Proof.
  intros Hl. destruct cmd.
  - rewrite (sta_notify_sleep_eq wvif Hl).
    destruct (asleep wvif l) eqn:Ha.
    + rewrite (sta_notify_sleep_eq wvif Hl), Ha. reflexivity.
    + set (w1 := set_sta_asleep_mask _ _).
      assert (Ha1 : asleep w1 l = true).
      { unfold asleep, w1. simpl.
        rewrite Z.lor_spec, Z.pow2_bits_eqb, Z.eqb_refl by lia. apply orb_true_r. }
      rewrite (sta_notify_sleep_eq w1 Hl), Ha1. reflexivity.
  - rewrite (sta_notify_awake_eq wvif Hl).
    destruct (asleep wvif l) eqn:Ha.
    + cbv zeta. set (w2 := set_wdev _ _).
      assert (Ha2 : asleep w2 l = false).
      { unfold asleep, w2.
        destruct (sta_asleep_mask _ =? 0); simpl;
          rewrite Z.land_spec, u32_not_spec, Z.pow2_bits_eqb, Z.eqb_refl by lia;
          simpl; rewrite andb_false_r; apply andb_false_r. }
      rewrite (sta_notify_awake_eq w2 Hl), Ha2. reflexivity.
    + rewrite (sta_notify_awake_eq wvif Hl), Ha. reflexivity.
Qed.

(** X20. A suspend indication for unicast traffic marks no station asleep:
    [wfx_suspend_resume] goes through [wfx_ps_notify] with link id zero, which
    [__wfx_sta_notify] does not support for [STA_NOTIFY_SLEEP].  Both masks and
    the device are left as they were; the warning is logged. *)
Theorem suspend_unicast_marks_nobody wvif :
  let w' := wfx_suspend_resume wvif false false in
  sta_asleep_mask w' = sta_asleep_mask wvif /\
  pspoll_mask w' = pspoll_mask wvif /\
  link_id_map w' = link_id_map wvif /\
  wdev w' = wdev wvif /\
  In WarnUnsupportedNotify (vlog w').
Proof.
  intros w'. unfold w', wfx_suspend_resume, wfx_ps_notify, __wfx_sta_notify.
  simpl. rewrite Z.land_0_r. simpl.
  destruct (buffered_multicasts wvif && (sta_asleep_mask wvif =? 0)); simpl;
    rewrite Z.lor_0_r; repeat split; rewrite ?in_app_iff; simpl; tauto.
Qed.

(** X21. A resume indication for unicast traffic wakes every station of the
    link-id map and always asks the bottom half to transmit: afterwards no
    station of the map is asleep, the stations outside the map are as they
    were, the work is pending, and the multicast-stop work has not been
    scheduled. *)
Theorem resume_unicast_wakes_all wvif :
  let w' := wfx_suspend_resume wvif false true in
  Z.land (sta_asleep_mask w') (link_id_map wvif) = 0 /\
  (forall j, 0 <= j < 32 -> Z.testbit (link_id_map wvif) j = false ->
             asleep w' j = asleep wvif j) /\
  link_id_map w' = link_id_map wvif /\
  work_pending (wdev w') = true /\
  (In ScheduleMulticastStop (vlog w') -> In ScheduleMulticastStop (vlog wvif)).
Proof.
  intros w'. unfold w', wfx_suspend_resume, wfx_ps_notify, __wfx_sta_notify, asleep.
  simpl.
  destruct (Z.land (sta_asleep_mask wvif) (link_id_map wvif) =? 0) eqn:Hz; simpl.
  - apply Z.eqb_eq in Hz. repeat split; auto.
  - split.
    { apply Z.bits_inj'. intros n Hn.
      rewrite !Z.land_spec, u32_not_spec, Z.bits_0 by lia.
      destruct (Z.testbit (link_id_map wvif) n); simpl;
        rewrite ?andb_false_r; reflexivity. }
    split.
    { intros j Hj Hmap. rewrite Z.land_spec, u32_not_spec, Hmap by lia.
      assert (Hlt : (j <? 32) = true) by (apply Z.ltb_lt; lia).
      rewrite Hlt. apply andb_true_r. }
    repeat split; auto.
Qed.

(** X23. The two ways of releasing buffered multicast frames agree: the
    multicast timeout and a resume indication for broadcast and multicast
    both set [tx_multicast] to [aid0_bit_set && buffered_multicasts] and ask
    the bottom half to transmit exactly when it is set; the resume cancels the
    timer exactly then.  A suspend indication clears [tx_multicast] and asks
    for nothing.  None of the three touches the power-save masks. *)
Theorem multicast_release_paths wvif :
  let w1 := wfx_mcast_timeout wvif in
  let w2 := wfx_suspend_resume wvif true true in
  let w3 := wfx_suspend_resume wvif true false in
  tx_multicast w1 = aid0_bit_set wvif && buffered_multicasts wvif /\
  tx_multicast w2 = tx_multicast w1 /\
  wdev w2 = wdev w1 /\
  wdev w1 = (if tx_multicast w1 then wfx_bh_request_tx (wdev wvif) else wdev wvif) /\
  (In DelMcastTimer (vlog w2) <-> tx_multicast w2 = true \/ In DelMcastTimer (vlog wvif)) /\
  tx_multicast w3 = false /\
  wdev w3 = wdev wvif /\
  (forall w, w = w1 \/ w = w2 \/ w = w3 ->
     sta_asleep_mask w = sta_asleep_mask wvif /\ pspoll_mask w = pspoll_mask wvif /\
     link_id_map w = link_id_map wvif).
Proof.
  intros w1 w2 w3. unfold w1, w2, w3, wfx_mcast_timeout, wfx_suspend_resume. simpl.
  destruct (aid0_bit_set wvif), (buffered_multicasts wvif); simpl;
    (split; [reflexivity|]; split; [reflexivity|]; split; [reflexivity|];
     split; [reflexivity|]; split; [rewrite ?in_app_iff; simpl; intuition congruence|];
     split; [reflexivity|]; split; [reflexivity|];
     intros w [-> | [-> | ->]]; repeat split; reflexivity).
Qed.

End StaNotify.

(** ** The model at work on concrete devices *)

(** The pumps on the devices above, with the constants of the chip. *)
Example dev_mismatch_run :
  @bh_work_rx wf200 bus_align4 clear_link dev_mismatch 32 0
  = (emit (ErrInconsistentLength 14 16)
       (emit (DataRead 20)
          (set_bus_rx [] (set_ctrl_reg 0 (set_ctrl_ready 0%nat dev_mismatch)))), 0, 0).
Proof. vm_compute. reflexivity. Qed.

(** The counter at 6 with WMSG_COUNTER_MAX = 7: the frames carry 6, 7 and 0. *)
Example tx_seqnum_wraps :
  exists d',
    @bh_work_tx wf200 bus_align4 clear_link
      (set_tx_seqnum 6 (set_tx_queue [req_item; req_item; req_item] idle_dev)) 32
    = Done (d', 3) /\
    map (fun f => seqnum (frame_wsm f)) (wire d') = [6; 7; 0] /\
    tx_seqnum d' = 1.
Proof. eexists. vm_compute. repeat split; reflexivity. Qed.

(** Four input buffers on the chip and five requests queued: four are sent. *)
Example tx_stops_at_capacity :
  exists d',
    @bh_work_tx wf200 bus_align4 clear_link
      (set_tx_queue [req_item; req_item; req_item; req_item; req_item] idle_dev) 32
    = Done (d', 4) /\
    tx_buffers_used d' = 4 /\ tx_queue d' = [req_item].
Proof. eexists. vm_compute. repeat split; reflexivity. Qed.

(** A whole run of the worker: one request goes out, its confirmation comes
    back, and the chip is released. *)
Example bh_work_round_trip :
  exists d',
    @bh_work wf200 bus_align4 clear_link
      (set_tx_queue [req_item]
         (set_ctrl_reg 4 (set_ctrl_ready 1%nat
            (set_bus_rx [RxData {| rx_wsm := cnf_msg; rx_piggyback := 0x2000 |}] idle_dev))))
    = Done d' /\
    tx_buffers_used d' = 0 /\ gpio_wakeup d' = Some false /\
    tx_seqnum d' = 1 /\ rx_seqnum d' = 1 /\
    klog d' = [DataRead 12; WakeUpTxBuffersEmpty; HandleRx cnf_msg;
               TraceBhStats 0 1 1 0 true].
Proof. eexists. vm_compute. repeat split; reflexivity. Qed.

(** The buffers of the examples are laid out as line 70 reads them: the
    lengths are the ones [align_size] gives for reads of 8, 16, 8 and 4
    bytes. *)
Example example_buffers_layout :
  @rx_buffer_layout wf200 (@align_size bus_align4 (8 + 2))
    {| rx_wsm := cnf_msg; rx_piggyback := 0x2000 |} /\
  @rx_buffer_layout wf200 (@align_size bus_align4 (8 + 2))
    {| rx_wsm := cnf_msg_more; rx_piggyback := 0x2004 |} /\
  @rx_buffer_layout wf200 (@align_size bus_align4 (16 + 2))
    {| rx_wsm := msg14; rx_piggyback := 0x2000 |} /\
  @rx_buffer_layout wf200 (@align_size bus_align4 (8 + 2))
    {| rx_wsm := reserved_msg; rx_piggyback := 0x2000 |} /\
  @rx_buffer_layout wf200 (@align_size bus_align4 (4 + 2))
    {| rx_wsm := header_only_cnf; rx_piggyback := 0x2000 |}.
Proof. repeat split; intros _; vm_compute; reflexivity. Qed.

(** A confirmation without a body whose id is that of a multi-transmit
    confirmation: the release count is read from the padding and the
    piggyback, and the counter goes from 5 to 5 - 0x20000000. *)
Example header_only_confirmation :
  let r := @rx_helper wf200 bus_align4 clear_link dev_header_only 4 0 in
  @align_size bus_align4 (4 + 2) = 8 /\
  @release_count wf200 header_only_cnf = 0x20000000 /\
  snd (fst r) = 0x2000 /\
  tx_buffers_used (fst (fst r)) = -536870907 /\
  klog (fst (fst r)) = [DataRead 8; WarnCorruptedCounter; HandleRx header_only_cnf].
Proof. vm_compute. repeat split; reflexivity. Qed.

(** ** The theorems at concrete inputs *)

Lemma rx_seqnum_resynchronized_witness :
  let r := @rx_helper wf200 bus_align4 clear_link dev_piggyback 8 0 in
  snd (fst r) = 0x2004 /\ rx_seqnum (fst (fst r)) = (0 + 1) mod (7 + 1).
Proof.
  pose proof (@rx_seqnum_resynchronized wf200 bus_align4 clear_link dev_piggyback 8 0
                {| rx_wsm := cnf_msg_more; rx_piggyback := 0x2004 |} [] cnf_msg_more
                ltac:(simpl; lia) ltac:(simpl; lia) eq_refl eq_refl) as H.
  destruct H as (Hret & Hseq & _).
  split; [exact Hret|].
  apply Hseq; simpl; discriminate.
Defined.

Lemma rx_confirmation_release_witness :
  let r := @rx_helper wf200 bus_align4 clear_link dev_over_release 8 0 in
  let r5 := @rx_helper wf200 bus_align4 clear_link dev_header_only 4 0 in
  (snd (fst r) = 0x2000 /\
   tx_buffers_used (fst (fst r)) = wrap_int (0 - 1) /\
   logged WarnCorruptedCounter (fst (fst r))) /\
  (snd (fst r5) = 0x2000 /\
   tx_buffers_used (fst (fst r5)) = 5 - 0x20000000 /\
   logged WarnCorruptedCounter (fst (fst r5))).
Proof.
  pose proof (@rx_confirmation_release wf200 bus_align4 clear_link dev_over_release 8 0
                {| rx_wsm := cnf_msg; rx_piggyback := 0x2000 |} [] cnf_msg
                eq_refl eq_refl eq_refl) as H.
  pose proof (@rx_confirmation_release wf200 bus_align4 clear_link dev_header_only 4 0
                {| rx_wsm := header_only_cnf; rx_piggyback := 0x2000 |} [] header_only_cnf
                eq_refl eq_refl eq_refl) as H5.
  destruct H as (Hret & _ & Hused & Hwarn & _).
  destruct H5 as (Hret5 & _ & _ & Hwarn5 & Hneg5 & _).
  split.
  - split; [exact Hret|]. split; [exact Hused|].
    apply Hwarn. left. simpl. reflexivity.
  - split; [exact Hret5|]. split.
    + apply Hneg5. vm_compute. split; [discriminate | reflexivity].
    + apply Hwarn5. left. vm_compute. reflexivity.
Defined.

Lemma rx_length_mismatch_aborts_witness :
  let r := @bh_work_rx_loop wf200 bus_align4 clear_link 32 dev_mismatch 0 0 0 in
  snd (fst r) = RxReturned 0 (- EIO) /\
  tx_buffers_used (fst (fst r)) = 1 /\
  rx_seqnum (fst (fst r)) = 0 /\
  tx_seqnum (fst (fst r)) = 0 /\
  logged (ErrInconsistentLength 14 16) (fst (fst r)).
Proof.
  pose proof (@rx_length_mismatch_aborts wf200 bus_align4 clear_link 31 dev_mismatch 0 0 0
                {| rx_wsm := msg14; rx_piggyback := 0x2000 |} [] msg14 14
                ltac:(vm_compute; discriminate) eq_refl eq_refl
                ltac:(vm_compute; discriminate)) as H.
  destruct H as (_ & Hex & _ & _ & _ & Hu & Hrx & Htx & Hlog & _).
  repeat split; assumption.
Defined.

Lemma rx_reserved_encryption_processed_witness :
  let r := @rx_helper wf200 bus_align4 clear_link dev_reserved 8 0 in
  logged WarnUnsupportedEncryption (fst (fst r)) /\
  snd (fst r) = 0x2000 /\
  logged (HandleRx reserved_msg) (fst (fst r)).
Proof.
  pose proof (@rx_reserved_encryption_processed wf200 bus_align4 clear_link dev_reserved 8 0
                {| rx_wsm := reserved_msg; rx_piggyback := 0x2000 |} []
                eq_refl ltac:(vm_compute; discriminate)) as H.
  destruct H as (Hw & Hok & _).
  split; [exact Hw|]. apply Hok. reflexivity.
Defined.

Lemma rx_short_read_processed_witness :
  let r := @rx_helper wf200 bus_align4 clear_link dev_short 2 0 in
  logged (WarnShortRead 2) (fst (fst r)) /\
  snd (fst r) = 0x2000 /\
  logged (HandleRx short_msg) (fst (fst r)).
Proof.
  exact (@rx_short_read_processed wf200 bus_align4 clear_link dev_short 2 0
           {| rx_wsm := short_msg; rx_piggyback := 0x2000 |} [] short_msg
           ltac:(lia) eq_refl eq_refl).
Defined.


Lemma tx_write_failure_not_counted_witness :
  exists d',
    @tx_helper wf200 bus_align4 clear_link dev_write_fails req_msg 8 = Done d' /\
    tx_buffers_used d' = 0 /\ wire d' = [] /\ tx_queue d' = [] /\ bus_tx d' = [] /\
    tx_seqnum d' = 1.
Proof.
  exact (@tx_write_failure_not_counted wf200 bus_align4 clear_link dev_write_fails req_msg 8
           ltac:(simpl; lia) eq_refl eq_refl).
Defined.

Lemma tx_seqnum_on_wire_witness :
  exists d3 fa fb,
    wire d3 = [fa; fb] /\
    seqnum (frame_wsm fa) = 0 /\
    seqnum (frame_wsm fb) = (seqnum (frame_wsm fa) + 1 + 1) mod (7 + 1).
Proof.
  eexists; eexists; eexists.
  eapply (@tx_seqnum_on_wire wf200 bus_align4 clear_link dev_three_requests
            req_item [req_item] req_item).
  - simpl; lia.
  - simpl; lia.
  - reflexivity.
  - reflexivity.
  - reflexivity.
  - reflexivity.
  - reflexivity.
  - reflexivity.
Defined.

Lemma bh_work_no_pending_work_witness :
  exists d',
    @bh_work wf200 bus_align4 clear_link dev_scanning = Done d' /\
    gpio_wakeup d' = Some true /\
    tx_buffers_used d' = 0.
Proof.
  pose proof (@bh_work_no_pending_work wf200 bus_align4 clear_link dev_scanning
                eq_refl eq_refl) as H.
  destruct H as (_ & _ & d' & Hd & Hg & _ & Hu & _).
  exists d'. split; [exact Hd|]. split; [exact Hg | exact Hu].
Defined.

(** ** Where the code departs from the specification *)

(** C1: with no buffer counted in use, a confirmation is still processed and
    the counter goes to -1; [rx_helper] returns the piggyback, not an error. *)
Lemma over_release_goes_negative :
  let r := @rx_helper wf200 bus_align4 clear_link dev_over_release 8 0 in
  tx_buffers_used dev_over_release = 0 /\
  @release_count wf200 cnf_msg = 1 /\
  snd (fst r) = 0x2000 /\
  tx_buffers_used (fst (fst r)) = -1.
Proof. vm_compute. repeat split; reflexivity. Qed.

(** C3: after a failed bus write the counter is 0, after a successful one it
    is 1. *)
Lemma write_failure_skips_increment :
  exists d_fail d_ok,
    @tx_helper wf200 bus_align4 clear_link dev_write_fails req_msg 8 = Done d_fail /\
    @tx_helper wf200 bus_align4 clear_link idle_dev req_msg 8 = Done d_ok /\
    tx_buffers_used d_ok = 1 /\
    tx_buffers_used d_fail = 0 /\
    wire d_fail = [].
Proof. eexists; eexists. vm_compute. repeat split; reflexivity. Qed.

(** C4: three requests, the write of the second one fails: the two frames on
    the wire carry 0 and 2. *)
Lemma wire_seqnum_gap_after_failed_write :
  exists d' fa fb,
    @bh_work_tx wf200 bus_align4 clear_link dev_three_requests 32 = Done (d', 3) /\
    wire d' = [fa; fb] /\
    seqnum (frame_wsm fa) = 0 /\
    seqnum (frame_wsm fb) = 2 /\
    seqnum (frame_wsm fb) <> (seqnum (frame_wsm fa) + 1) mod (@WMSG_COUNTER_MAX wf200 + 1).
Proof.
  eexists; eexists; eexists.
  split; [vm_compute; reflexivity|].
  split; [reflexivity|].
  split; [reflexivity|]. split; [reflexivity|].
  vm_compute. discriminate.
Qed.

(** C5: a message whose encryption field is 1 is received, counted by the pump
    and handed to [wsm_handle_rx]. *)
Lemma reserved_encryption_is_dispatched :
  let r := @bh_work_rx wf200 bus_align4 clear_link dev_reserved 32 0 in
  encrypted reserved_msg = 1 /\
  snd (fst (@rx_helper wf200 bus_align4 clear_link dev_reserved 8 0)) = 0x2000 /\
  snd (fst r) = 1 /\
  klog (fst (fst r)) = [DataRead 12; WarnUnsupportedEncryption; HandleRx reserved_msg].
Proof. vm_compute. repeat split; reflexivity. Qed.

(** C6: an announced length of two bytes, below the four of the header, is
    read, counted by the pump and handed to [wsm_handle_rx]. *)
Lemma short_read_is_dispatched :
  let r := @bh_work_rx wf200 bus_align4 clear_link dev_short 32 0 in
  @rx_len wf200 (ctrl_reg dev_short) = 2 /\
  2 < @sizeof_wmsg wf200 /\
  snd (fst r) = 1 /\
  klog (fst (fst r)) = [WarnShortRead 2; DataRead 4; WakeUpTxBuffersEmpty; HandleRx short_msg].
Proof. vm_compute. repeat split; reflexivity. Qed.


(** C9: nothing is pending and the wake-up line is low; after the worker ran
    the line is high, because a scan is in progress. *)
Lemma idle_run_leaves_wake_asserted :
  tx_queue dev_scanning = [] /\
  ctrl_ready dev_scanning = 0%nat /\
  gpio_wakeup dev_scanning = Some false /\
  exists d',
    @bh_work wf200 bus_align4 clear_link dev_scanning = Done d' /\
    gpio_wakeup d' = Some true.
Proof.
  split; [reflexivity|]. split; [reflexivity|]. split; [reflexivity|].
  eexists. vm_compute. split; reflexivity.
Qed.

(** ** The further properties at concrete inputs *)

Lemma bh_work_tx_fifo_witness :
  exists d' popped fs,
    tx_queue dev_three_requests = popped ++ tx_queue d' /\
    3 = Z.of_nat (length popped) /\
    wire d' = wire dev_three_requests ++ fs /\
    sent_from fs popped.
Proof.
  eexists.
  destruct (@bh_work_tx_fifo wf200 bus_align4 clear_link dev_three_requests 32 _ 3
              ltac:(vm_compute; reflexivity))
    as (popped & fs & Hq & Hn & _ & Hw & Hs & _).
  exists popped, fs. split; [exact Hq|]. split; [exact Hn|]. split; [exact Hw | exact Hs].
Defined.

Lemma bh_work_tx_credit_witness :
  exists d',
    @bh_work_tx wf200 bus_align4 clear_link dev_three_requests 32 = Done (d', 3) /\
    0 <= tx_buffers_used d' <= 4 /\
    tx_buffers_used d' - 0 = Z.of_nat (length (wire d')) - 0.
Proof.
  eexists. split; [vm_compute; reflexivity|].
  destruct (@bh_work_tx_credit wf200 bus_align4 clear_link dev_three_requests 32 _ 3
              ltac:(simpl; lia) ltac:(simpl; lia) ltac:(simpl; lia)
              ltac:(vm_compute; reflexivity))
    as (Hr & Hw & _).
  split; [exact Hr | exact Hw].
Defined.

Lemma bh_work_tx_seqnum_witness :
  exists d',
    @bh_work_tx wf200 bus_align4 clear_link dev_three_requests 32 = Done (d', 3) /\
    tx_seqnum d' = (0 + 3) mod (7 + 1).
Proof.
  eexists. split; [vm_compute; reflexivity|].
  destruct (@bh_work_tx_seqnum wf200 bus_align4 clear_link dev_three_requests 32 _ 3
              ltac:(simpl; lia) ltac:(simpl; lia) ltac:(vm_compute; reflexivity))
    as (Hs & _).
  exact Hs.
Defined.

Lemma dev_mismatch_wf : rx_script_wf dev_mismatch.
Proof.
  unfold rx_script_wf. simpl. constructor; [simpl; lia | constructor].
Defined.

Lemma dev_piggyback_wf : rx_script_wf dev_piggyback.
Proof.
  unfold rx_script_wf. simpl. constructor; [simpl; lia | constructor].
Defined.

Lemma dev_round_trip_wf : rx_script_wf dev_round_trip.
Proof.
  unfold rx_script_wf. simpl. constructor; [simpl; lia | constructor].
Defined.

Lemma rx_helper_failure_clean_witness :
  let r := @rx_helper wf200 bus_align4 clear_link dev_mismatch 16 0 in
  snd (fst r) = - EIO /\ tx_buffers_used (fst (fst r)) = 1 /\
  handled (fst (fst r)) = 0.
Proof.
  destruct (@rx_helper_failure_clean wf200 bus_align4 clear_link dev_mismatch 16 0
              dev_mismatch_wf ltac:(vm_compute; reflexivity))
    as ([He | He] & Hu & _ & _ & _ & Hh).
  - vm_compute in He. discriminate He.
  - split; [exact He|]. split; [exact Hu | exact Hh].
Defined.

Lemma rx_indication_keeps_credits_witness :
  let r := @rx_helper wf200 bus_align4 clear_link dev_reserved 8 0 in
  snd (fst r) = 0x2000 /\ tx_buffers_used (fst (fst r)) = 0 /\ snd r = 0.
Proof.
  destruct (@rx_indication_keeps_credits wf200 bus_align4 clear_link dev_reserved 8 0
              {| rx_wsm := reserved_msg; rx_piggyback := 0x2000 |} [] reserved_msg
              eq_refl eq_refl ltac:(vm_compute; discriminate))
    as (Hr & Hu & Hc & _).
  split; [exact Hr|]. split; [exact Hu | exact Hc].
Defined.

Lemma rx_wake_up_iff_zero_witness :
  logged WakeUpTxBuffersEmpty
    (fst (fst (@rx_helper wf200 bus_align4 clear_link dev_piggyback 8 0))).
Proof.
  apply (@rx_wake_up_iff_zero wf200 bus_align4 clear_link dev_piggyback 8 0
           {| rx_wsm := cnf_msg_more; rx_piggyback := 0x2004 |} [] cnf_msg_more
           eq_refl eq_refl eq_refl).
  left. vm_compute. reflexivity.
Defined.

Lemma bh_work_rx_accounting_witness :
  let r := @bh_work_rx wf200 bus_align4 clear_link dev_piggyback 32 0 in
  0 <= snd (fst r) <= 32 /\ handled (fst (fst r)) = 0 + snd (fst r).
Proof.
  destruct (@bh_work_rx_accounting wf200 bus_align4 clear_link dev_piggyback 32 0
              dev_piggyback_wf)
    as (Hn & Hh & _).
  split; [exact Hn | exact Hh].
Defined.

Lemma bh_work_release_decision_witness :
  exists d',
    @bh_work wf200 bus_align4 clear_link dev_round_trip = Done d' /\
    gpio_wakeup d' = Some false.
Proof.
  eexists. split; [vm_compute; reflexivity|].
  destruct (@bh_work_release_decision wf200 bus_align4 clear_link dev_round_trip _
              ltac:(vm_compute; reflexivity))
    as (Hg & _).
  exact Hg.
Defined.

Lemma bh_work_quiescent_witness :
  exists d',
    @bh_work wf200 bus_align4 clear_link dev_round_trip = Done d' /\
    (tx_queue d' = [] \/ NumInpChBufs d' <= tx_buffers_used d').
Proof.
  eexists. split; [vm_compute; reflexivity|].
  exact (@bh_work_quiescent wf200 bus_align4 clear_link dev_round_trip _
           dev_round_trip_wf ltac:(vm_compute; reflexivity)).
Defined.

Lemma bh_work_rx_absorbs_empty_interrupt_witness :
  let r := @bh_work_rx wf200 bus_align4 clear_link
             (@wfx_bh_request_rx wf200 idle_dev 0x2000) 32 0 in
  snd (fst r) = 0 /\ ctrl_reg (fst (fst r)) = 0 /\ ctrl_ready (fst (fst r)) = 0%nat.
Proof.
  destruct (@bh_work_rx_absorbs_empty_interrupt wf200 bus_align4 clear_link idle_dev 0x2000 32 0
              eq_refl ltac:(lia))
    as (Hn & _ & Hreg & Hready & _).
  split; [exact Hn|]. split; [exact Hreg | exact Hready].
Defined.

Lemma sta_notify_sleep_witness :
  asleep (__wfx_sta_notify vif_ap STA_NOTIFY_SLEEP 1) 1 = true /\
  asleep (__wfx_sta_notify vif_ap STA_NOTIFY_SLEEP 1) 2 = true.
Proof.
  destruct (@sta_notify_sleep vif_ap 1 ltac:(lia)) as (H1 & H2 & _).
  split; [exact H1|]. rewrite H2 by lia. reflexivity.
Defined.

Lemma sta_notify_awake_witness :
  asleep (__wfx_sta_notify vif_ap STA_NOTIFY_AWAKE 2) 2 = false /\
  work_pending (wdev (__wfx_sta_notify vif_ap STA_NOTIFY_AWAKE 2)) = true.
Proof.
  destruct (@sta_notify_awake vif_ap 2 ltac:(lia)) as (H1 & _ & H3 & _).
  split; [exact H1|].
  destruct (H3 eq_refl) as (_ & Hd & _). rewrite Hd. reflexivity.
Defined.

Lemma sta_sleep_awake_round_trip_witness :
  sta_asleep_mask
    (__wfx_sta_notify (__wfx_sta_notify vif_ap STA_NOTIFY_SLEEP 1) STA_NOTIFY_AWAKE 1) = 4.
Proof.
  destruct (@sta_sleep_awake_round_trip vif_ap 1 ltac:(lia) ltac:(simpl; lia) eq_refl)
    as (H & _).
  exact H.
Defined.

Lemma sta_notify_idempotent_witness :
  __wfx_sta_notify (__wfx_sta_notify vif_ap STA_NOTIFY_AWAKE 2) STA_NOTIFY_AWAKE 2
  = __wfx_sta_notify vif_ap STA_NOTIFY_AWAKE 2.
Proof.
  exact (@sta_notify_idempotent vif_ap STA_NOTIFY_AWAKE 2 ltac:(lia)).
Defined.

Lemma bh_work_transmit_only_witness :
  exists d' req release_chip,
    @bh_work wf200 bus_align4 clear_link dev_three_requests = Done d' /\
    klog d' = klog (device_wakeup dev_three_requests)
              ++ [TraceBhStats 0 req 0 (tx_buffers_used d') release_chip].
Proof.
  eexists.
  destruct (@bh_work_transmit_only wf200 bus_align4 clear_link dev_three_requests _
              eq_refl ltac:(vm_compute; reflexivity))
    as ((req & rel & Hl) & _).
  exists req, rel. split; [vm_compute; reflexivity | exact Hl].
Defined.
